(** * Personal finance tracker: the summary store, the input validator and
      the summary calculator of [project.py]

    The development embeds the functional core of the program: the category
    registry, [load_summary_data], [save_summary_data], [validate_number],
    [calculate_summary] and the two submit handlers of [PFTrackerApp].

    - Python values that travel through [json] are a small inductive type;
      a [dict] is an association list in insertion order.
    - A Python [float] is an IEEE 754 binary64 number, here [spec_float] with
      53 bits of precision; [float(...)] on text is the correctly rounded
      decimal conversion.
    - Files, dialogs and the widgets the handlers touch live in a [world]
      that is threaded through a state-and-exception monad.  Every call that
      can fail for reasons outside the program asks the world's list of
      [faults] whether it does. *)

From Stdlib Require Import ZArith List String Ascii Bool Lia.
From Stdlib Require Import Floats.SpecFloat.
Import ListNotations.

Set Warnings "-register-all".

Local Open Scope string_scope.
Local Open Scope Z_scope.

(* ================================================================== *)
(** * Python built-ins used by the program *)
(* ================================================================== *)

Module Py.

(** ** Floating point *)

Definition float : Type := spec_float.

Definition prec : Z := 53.
Definition emax : Z := 1024.

Definition fadd : float -> float -> float := SFadd prec emax.
Definition fsub : float -> float -> float := SFsub prec emax.
Definition feqb : float -> float -> bool := SFeqb.
Definition fleb : float -> float -> bool := SFleb.

Definition fzero : float := S754_zero false.

(** [math.isfinite] *)
Definition isfinite (f : float) : bool :=
  match f with
  | S754_zero _ | S754_finite _ _ _ => true
  | S754_infinity _ | S754_nan => false
  end.

(** The binary64 number nearest to the integer [z] (ties to even); an
    infinity when [z] is out of range. *)
Definition round_int (z : Z) : float := binary_normalize prec emax z 0 false.

(** The binary64 number nearest to [m * 10^e10] with sign [neg], as the
    decimal-to-binary conversion of [float(str)] computes it.  Out of range
    gives an infinity, too small gives a zero. *)
Definition round_decimal (neg : bool) (m : Z) (e10 : Z) : float :=
  match m with
  | Zpos p =>
      if 0 <=? e10 then
        binary_round prec emax neg (p * Z.to_pos (10 ^ e10)) 0
      else
        let '(q, e, l) :=
          SFdiv_core_binary prec emax (Zpos p) 0 (10 ^ (- e10)) 0 in
        binary_round_aux prec emax neg q e l
  | _ => S754_zero neg
  end.

(** ** Text *)

Definition code (c : ascii) : Z := Z.of_nat (nat_of_ascii c).

(** [str.isspace] on the code points a [string] can hold. *)
Definition isspace (c : ascii) : bool :=
  let n := code c in
  ((9 <=? n) && (n <=? 13)) || ((28 <=? n) && (n <=? 32))
  || (n =? 133) || (n =? 160).

(** The white space [float] skips at both ends of a [str]: the ASCII white
    space of C and the white space beyond ASCII. *)
Definition isspace_float (c : ascii) : bool :=
  let n := code c in
  ((9 <=? n) && (n <=? 13)) || (n =? 32) || (n =? 133) || (n =? 160).

Definition isdigit (c : ascii) : bool :=
  let n := code c in (48 <=? n) && (n <=? 57).

Definition lower (c : ascii) : ascii :=
  let n := code c in
  if (65 <=? n) && (n <=? 90) then ascii_of_nat (Z.to_nat (n + 32)) else c.

Fixpoint lower_str (s : string) : string :=
  match s with
  | EmptyString => EmptyString
  | String c s' => String (lower c) (lower_str s')
  end.

Fixpoint lstrip (space : ascii -> bool) (s : string) : string :=
  match s with
  | EmptyString => EmptyString
  | String c s' => if space c then lstrip space s' else s
  end.

Fixpoint rstrip (space : ascii -> bool) (s : string) : string :=
  match s with
  | EmptyString => EmptyString
  | String c s' =>
      match rstrip space s' with
      | EmptyString => if space c then EmptyString else String c EmptyString
      | r => String c r
      end
  end.

(** [str.strip()] *)
Definition strip (s : string) : string := rstrip isspace (lstrip isspace s).

Definition nl : string := String (ascii_of_nat 10) EmptyString.

(** ** [float(str)] *)

(** Underscores may only stand between two digits; they are dropped. *)
Fixpoint drop_underscores (prev : ascii) (s : string) : option string :=
  match s with
  | EmptyString => if Ascii.eqb prev "_" then None else Some EmptyString
  | String c s' =>
      if Ascii.eqb c "_" then
        if isdigit prev then drop_underscores c s' else None
      else if Ascii.eqb prev "_" && negb (isdigit c) then None
      else option_map (String c) (drop_underscores c s')
  end.

(** Reads a run of decimal digits: the number read so far, how many digits
    were read, and the rest of the text. *)
Fixpoint digits (s : string) (acc : Z) (n : Z) : Z * Z * string :=
  match s with
  | String c s' =>
      if isdigit c then digits s' (10 * acc + (code c - 48)) (n + 1)
      else (acc, n, s)
  | EmptyString => (acc, n, s)
  end.

Definition sign (s : string) : bool * string :=
  match s with
  | String "-" s' => (true, s')
  | String "+" s' => (false, s')
  | _ => (false, s)
  end.

(** The exponent part, when the text starts with a well-formed one. *)
Definition exponent (s : string) : option (Z * string) :=
  match s with
  | String c s' =>
      if Ascii.eqb (lower c) "e" then
        let '(neg, s1) := sign s' in
        let '(e, n, rest) := digits s1 0 0 in
        if 0 <? n then Some (if neg then - e else e, rest) else None
      else None
  | EmptyString => None
  end.

(** A decimal number: digits, an optional point and more digits (at least
    one digit in all), an optional exponent; nothing may follow. *)
Definition decimal (neg : bool) (s : string) : option float :=
  let '(ip, ni, s1) := digits s 0 0 in
  let '(m, nf, s2) :=
    match s1 with
    | String "." s1' => let '(m, nf, s2) := digits s1' ip 0 in (m, nf, s2)
    | _ => (ip, 0, s1)
    end in
  if 0 <? ni + nf then
    match s2 with
    | EmptyString => Some (round_decimal neg m (- nf))
    | _ =>
        match exponent s2 with
        | Some (e, EmptyString) => Some (round_decimal neg m (e - nf))
        | _ => None
        end
    end
  else None.

Definition inf_or_nan (neg : bool) (s : string) : option float :=
  let t := lower_str s in
  if String.eqb t "inf" || String.eqb t "infinity" then Some (S754_infinity neg)
  else if String.eqb t "nan" then Some S754_nan
  else None.

(** [float(s)] for a [str]; [None] stands for [ValueError]. *)
Definition float_of_str (s : string) : option float :=
  match
    drop_underscores zero (rstrip isspace_float (lstrip isspace_float s))
  with
  | Some t =>
      let '(neg, u) := sign t in
      match decimal neg u with
      | Some f => Some f
      | None => inf_or_nan neg u
      end
  | None => None
  end.


(** ** Values *)

(** What [json.load] produces, and what the program stores back. *)
Inductive pyval : Type :=
| VNone
| VBool (b : bool)
| VInt (z : Z)
| VFloat (f : float)
| VStr (s : string)
| VList (l : list pyval)
| VDict (d : list (string * pyval)).

(** A [dict] with [str] keys, in insertion order. *)
Definition dict : Type := list (string * pyval).

Inductive exn : Type :=
| JSONDecodeError
| OSError (detail : string)
| TypeError
| KeyError
| ValueError
| OverflowError
| AttributeError.

(** [str(e)], which the program prints for the errors of the file system
    only; an [OSError] carries the text the environment gave it. *)
Definition exn_text (e : exn) : string :=
  match e with
  | OSError detail => detail
  | _ => EmptyString
  end.

(** Pure computations that may raise. *)
Definition res (A : Type) : Type := (exn + A)%type.

Definition ebind {A B : Type} (c : res A) (k : A -> res B) : res B :=
  match c with
  | inl e => inl e
  | inr a => k a
  end.

Notation "'let!' x ':=' c 'in' k" := (ebind c (fun x => k))
  (at level 10, x name, c at level 100, k at level 200).

(** A [for] loop whose body may raise. *)
Fixpoint efold {A B : Type} (body : A -> B -> res A) (l : list B) (a : A)
  : res A :=
  match l with
  | [] => inr a
  | b :: l' => let! a' := body a b in efold body l' a'
  end.

(** ** Dictionaries *)

Fixpoint dict_get (d : dict) (k : string) : option pyval :=
  match d with
  | [] => None
  | (k', v) :: d' => if String.eqb k k' then Some v else dict_get d' k
  end.

(** [d[k] = v]: the value of an existing key is replaced where it stands, a
    new key goes to the end. *)
Fixpoint dict_set (d : dict) (k : string) (v : pyval) : dict :=
  match d with
  | [] => [(k, v)]
  | (k', v') :: d' =>
      if String.eqb k k' then (k', v) :: d' else (k', v') :: dict_set d' k v
  end.

Definition dict_mem (d : dict) (k : string) : bool :=
  match dict_get d k with Some _ => true | None => false end.

(** [{k: v for k in keys}] *)
Definition dict_const (keys : list string) (v : pyval) : dict :=
  map (fun k => (k, v)) keys.

Definition is_str (k : string) (v : pyval) : bool :=
  match v with
  | VStr s => String.eqb k s
  | _ => false
  end.

Definition is_substring (k s : string) : bool :=
  match String.index 0 k s with Some _ => true | None => false end.

(** [k in x] for a [str] [k] *)
Definition py_contains (x : pyval) (k : string) : res bool :=
  match x with
  | VDict d => inr (dict_mem d k)
  | VList l => inr (existsb (is_str k) l)
  | VStr s => inr (is_substring k s)
  | _ => inl TypeError
  end.

(** [x[k]] for a [str] [k] *)
Definition py_getitem (x : pyval) (k : string) : res pyval :=
  match x with
  | VDict d =>
      match dict_get d k with
      | Some v => inr v
      | None => inl KeyError
      end
  | _ => inl TypeError
  end.

(** [x[k] = v] for a [str] [k] *)
Definition py_setitem (x : pyval) (k : string) (v : pyval) : res pyval :=
  match x with
  | VDict d => inr (VDict (dict_set d k v))
  | _ => inl TypeError
  end.

(** [x[k1][k2] = v]: the inner object is updated in place, so the update is
    seen through [x]. *)
Definition py_setitem2 (x : pyval) (k1 k2 : string) (v : pyval) : res pyval :=
  let! inner := py_getitem x k1 in
  let! inner' := py_setitem inner k2 v in
  py_setitem x k1 inner'.

(** [x.get(k, {})] *)
Definition py_get (x : pyval) (k : string) : res pyval :=
  match x with
  | VDict d =>
      match dict_get d k with
      | Some v => inr v
      | None => inr (VDict [])
      end
  | _ => inl AttributeError
  end.

(** [x.values()] *)
Definition py_values (x : pyval) : res (list pyval) :=
  match x with
  | VDict d => inr (map snd d)
  | _ => inl AttributeError
  end.

Definition isinstance_dict (x : pyval) : bool :=
  match x with
  | VDict _ => true
  | _ => false
  end.

(** ** Numbers *)

(** [float(n)] for an [int] *)
Definition float_of_int (z : Z) : res float :=
  let f := round_int z in
  if isfinite f then inr f else inl OverflowError.

(** [float(x)] *)
Definition py_float (x : pyval) : res float :=
  match x with
  | VBool b => float_of_int (if b then 1 else 0)
  | VInt z => float_of_int z
  | VFloat f => inr f
  | VStr s =>
      match float_of_str s with
      | Some f => inr f
      | None => inl ValueError
      end
  | VNone | VList _ | VDict _ => inl TypeError
  end.

Definition as_int (x : pyval) : option Z :=
  match x with
  | VBool b => Some (if b then 1 else 0)
  | VInt z => Some z
  | _ => None
  end.

(** The operand of a mixed [int]/[float] operation, as a [float]. *)
Definition as_float (x : pyval) : res float :=
  match x with
  | VBool _ | VInt _ | VFloat _ => py_float x
  | _ => inl TypeError
  end.

(** [a - b] on numbers *)
Definition py_sub (a b : pyval) : res pyval :=
  match as_int a, as_int b with
  | Some x, Some y => inr (VInt (x - y))
  | _, _ =>
      let! x := as_float a in
      let! y := as_float b in
      inr (VFloat (fsub x y))
  end.

(** [x + v] where [v] is a [float], as [x += v] computes it *)
Definition py_add_float (x : pyval) (v : float) : res pyval :=
  let! a := as_float x in
  inr (VFloat (fadd a v)).

(** [sum(fs)] over floats: the start value is the [int] [0], the floats are
    added from left to right, as CPython does up to version 3.11 (later
    versions carry a correction term along, which can change the last bits
    of the result). *)
Definition py_sum (fs : list float) : pyval :=
  match fs with
  | [] => VInt 0
  | _ => VFloat (fold_left fadd fs fzero)
  end.

(** [x == 0] *)
Definition py_eq0 (x : pyval) : bool :=
  match x with
  | VBool b => negb b
  | VInt z => z =? 0
  | VFloat f => feqb f fzero
  | _ => false
  end.

(** [float(v) for v in vs], stopping at the first value that raises *)
Fixpoint floats (vs : list pyval) : res (list float) :=
  match vs with
  | [] => inr []
  | v :: vs' =>
      let! f := py_float v in
      let! fs := floats vs' in
      inr (f :: fs)
  end.

(** ** File names *)

(** The text before the last dot and the text from it on. *)
Fixpoint rsplit_dot (s : string) : option (string * string) :=
  match s with
  | EmptyString => None
  | String c s' =>
      match rsplit_dot s' with
      | Some (a, b) => Some (String c a, b)
      | None => if Ascii.eqb c "." then Some (EmptyString, s) else None
      end
  end.

(** [PurePath.suffix] of a file name: from the last dot on, unless that dot
    is the first or the last character. *)
Definition suffix (name : string) : string :=
  match rsplit_dot name with
  | Some (String _ _, (String _ (String _ _) as suf)) => suf
  | _ => EmptyString
  end.

(** [PurePath.with_suffix] on a file name *)
Definition with_suffix (name suf : string) : string :=
  match rsplit_dot name with
  | Some (String _ _ as stem, String _ (String _ _)) => stem ++ suf
  | _ => name ++ suf
  end.

End Py.

Import Py.

(* ================================================================== *)
(** * The world the program runs in *)
(* ================================================================== *)

(** What a file holds, seen through [json.load]: a text that decodes to a
    value, or a text the decoder rejects with [JSONDecodeError] (the empty
    text of a file just opened for writing among them).  The text
    [json.dump] writes for a value decodes to that value. *)
Inductive content : Type :=
| Json (v : pyval)
| Corrupt.

(** A [messagebox] call: [showinfo], [showwarning], [showerror]. *)
Inductive dialog : Type :=
| Info (title message : string)
| Warning (title message : string)
| Error (title message : string).

(** The two paths the store works on. *)
Inductive slot : Type := Primary | Backup.

Record world : Type := mkWorld {
  program : string;               (* PROGRAM_FILENAME *)
  primary : option content;       (* the file at _summary_path() *)
  backup : option content;        (* the file at the backup path *)
  faults : list (option string);  (* answers to the coming fallible calls:
                                     [Some text] makes the call raise
                                     [OSError(text)]; none left, none fail *)
  dialogs : list dialog;          (* the dialogs shown so far, oldest first *)
  income_entry : string;
  income_var : string;
  expense_entry : string;
  expense_var : string;
  page : string
}.

Definition file (s : slot) (w : world) : option content :=
  match s with
  | Primary => primary w
  | Backup => backup w
  end.

Definition set_file (s : slot) (c : option content) (w : world) : world :=
  match s with
  | Primary =>
      mkWorld (program w) c (backup w) (faults w) (dialogs w)
        (income_entry w) (income_var w) (expense_entry w) (expense_var w)
        (page w)
  | Backup =>
      mkWorld (program w) (primary w) c (faults w) (dialogs w)
        (income_entry w) (income_var w) (expense_entry w) (expense_var w)
        (page w)
  end.

Definition set_faults (fs : list (option string)) (w : world) : world :=
  mkWorld (program w) (primary w) (backup w) fs (dialogs w)
    (income_entry w) (income_var w) (expense_entry w) (expense_var w) (page w).

Definition add_dialog (d : dialog) (w : world) : world :=
  mkWorld (program w) (primary w) (backup w) (faults w) (dialogs w ++ [d])
    (income_entry w) (income_var w) (expense_entry w) (expense_var w) (page w).

Definition set_income_entry (s : string) (w : world) : world :=
  mkWorld (program w) (primary w) (backup w) (faults w) (dialogs w)
    s (income_var w) (expense_entry w) (expense_var w) (page w).

Definition set_expense_entry (s : string) (w : world) : world :=
  mkWorld (program w) (primary w) (backup w) (faults w) (dialogs w)
    (income_entry w) (income_var w) s (expense_var w) (page w).

Definition set_page (s : string) (w : world) : world :=
  mkWorld (program w) (primary w) (backup w) (faults w) (dialogs w)
    (income_entry w) (income_var w) (expense_entry w) (expense_var w) s.

(** ** Computations *)

Inductive result (A : Type) : Type :=
| Ret (a : A) (w : world)
| Raise (e : exn) (w : world).

Arguments Ret {A} a w.
Arguments Raise {A} e w.

Definition M (A : Type) : Type := world -> result A.

Definition ret {A : Type} (a : A) : M A := fun w => Ret a w.

Definition raise {A : Type} (e : exn) : M A := fun w => Raise e w.

Definition bind {A B : Type} (c : M A) (k : A -> M B) : M B :=
  fun w =>
    match c w with
    | Ret a w' => k a w'
    | Raise e w' => Raise e w'
    end.

(** [try: c  except ...: h e] *)
Definition catch {A : Type} (c : M A) (h : exn -> M A) : M A :=
  fun w =>
    match c w with
    | Ret a w' => Ret a w'
    | Raise e w' => h e w'
    end.

Definition gets {A : Type} (f : world -> A) : M A := fun w => Ret (f w) w.

Definition modify (f : world -> world) : M unit := fun w => Ret tt (f w).

Definition lift {A : Type} (r : res A) : M A :=
  match r with
  | inl e => raise e
  | inr a => ret a
  end.

Declare Scope io_scope.
Delimit Scope io_scope with io.

Notation "x <- c ;; k" := (bind c (fun x => k))
  (at level 61, c at next level, right associativity) : io_scope.
Notation "c ;; k" := (bind c (fun _ => k))
  (at level 61, right associativity) : io_scope.

Local Open Scope io_scope.

(** ** The file system and the dialogs *)

(** A call that can fail for reasons outside the program takes the next
    answer of the environment. *)
Definition ask : M unit :=
  fun w =>
    match faults w with
    | [] => Ret tt w
    | None :: fs => Ret tt (set_faults fs w)
    | Some text :: fs => Raise (OSError text) (set_faults fs w)
    end.

(** [path.exists()] *)
Definition path_exists (s : slot) : M bool :=
  gets (fun w => match file s w with Some _ => true | None => false end).

(** [open(path, "w")]: the file is created or emptied. *)
Definition open_w (s : slot) : M unit :=
  ask ;; modify (set_file s (Some Corrupt)).

(** [json.dump(v, f, indent=4)] and the closing of [f]: the text is complete
    in the file only when this succeeds. *)
Definition json_dump (s : slot) (v : pyval) : M unit :=
  ask ;; modify (set_file s (Some (Json v))).

(** [with open(path, "w", encoding="utf-8") as f: json.dump(v, f, indent=4)] *)
Definition write_json (s : slot) (v : pyval) : M unit :=
  open_w s ;; json_dump s v.

(** [with open(path, "r", encoding="utf-8") as f: data = json.load(f)] *)
Definition read_json (s : slot) : M pyval :=
  ask ;;
  c <- gets (file s) ;;
  match c with
  | Some (Json v) => ret v
  | Some Corrupt => raise JSONDecodeError
  | None => raise (OSError "No such file or directory")
  end.

(** [path.unlink(missing_ok=...)] *)
Definition unlink (s : slot) (missing_ok : bool) : M unit :=
  ask ;;
  c <- gets (file s) ;;
  match c with
  | Some _ => modify (set_file s None)
  | None =>
      if missing_ok then ret tt
      else raise (OSError "No such file or directory")
  end.

(** [shutil.copyfile(src, dst)]: both files are opened, which empties the
    destination, then the text is transferred. *)
Definition copyfile (src dst : slot) : M unit :=
  ask ;;
  c <- gets (file src) ;;
  match c with
  | None => raise (OSError "No such file or directory")
  | Some text =>
      modify (set_file dst (Some Corrupt)) ;;
      ask ;;
      modify (set_file dst (Some text))
  end.

Definition showinfo (title message : string) : M unit :=
  modify (add_dialog (Info title message)).

Definition showwarning (title message : string) : M unit :=
  modify (add_dialog (Warning title message)).

Definition showerror (title message : string) : M unit :=
  modify (add_dialog (Error title message)).

(* ================================================================== *)
(** * The program *)
(* ================================================================== *)

(** ** Configuration *)

(** [PROGRAM_FILENAME] is the stem of the name the program was started
    under; the world carries it. *)
Definition SUMMARY_FILENAME (w : world) : string :=
  program w ++ "_summary.json".

Definition BACKUP_SUFFIX : string := ".backup".

Definition INCOME_CATEGORIES : list string :=
  ["Salary"; "Gift"; "Investment"; "Other"].

Definition EXPENSE_CATEGORIES : list string :=
  ["Food"; "Housing"; "Transportation"; "Entertainment"; "Health";
   "Education"; "Other"].

Definition DEFAULT_SUMMARY : pyval :=
  VDict [("income", VDict (dict_const INCOME_CATEGORIES (VFloat fzero)));
         ("expenses", VDict (dict_const EXPENSE_CATEGORIES (VFloat fzero)))].

(** ** File utilities *)

(** The state of the repair loop: [data], [repairs], [repaired]. *)
Definition repair_state : Type := (pyval * list string * bool)%type.

(** The body of [for cat in expected] *)
Definition repair_category (section : string) (st : repair_state)
  (cat : string) : res repair_state :=
  let '(data, repairs, repaired) := st in
  let! sec := py_getitem data section in
  let! present := py_contains sec cat in
  let! st1 :=
    (if negb present then
       let! data1 := py_setitem2 data section cat (VFloat fzero) in
       inr (data1,
            app repairs
              ["Added missing '" ++ cat ++ "' in '" ++ section ++ "'."],
            true)
     else inr (data, repairs, repaired)) in
  let '(data, repairs, repaired) := st1 in
  match
    (let! sec := py_getitem data section in
     let! v := py_getitem sec cat in
     let! f := py_float v in
     py_setitem2 data section cat (VFloat f))
  with
  | inr data2 => inr (data2, repairs, repaired)
  | inl _ =>
      let! data2 := py_setitem2 data section cat (VFloat fzero) in
      inr (data2,
           app repairs
             ["Reset invalid value for '" ++ cat ++ "' in '" ++ section
              ++ "'."],
           true)
  end.

(** The body of [for section, expected in (...)] *)
Definition repair_section (st : repair_state)
  (se : string * list string) : res repair_state :=
  let '(section, expected) := se in
  let '(data, repairs, repaired) := st in
  let! present := py_contains data section in
  let! replace :=
    (if negb present then inr true
     else let! sec := py_getitem data section in
          inr (negb (isinstance_dict sec))) in
  if replace then
    let! data1 := py_setitem data section
                    (VDict (dict_const expected (VFloat fzero))) in
    inr (data1,
         app repairs ["Added or replaced section '" ++ section ++ "'."],
         true)
  else efold (repair_category section) expected (data, repairs, repaired).

(** Lines 81 to 101 of [load_summary_data] *)
Definition repair (data : pyval) : res repair_state :=
  efold repair_section
    [("income", INCOME_CATEGORIES); ("expenses", EXPENSE_CATEGORIES)]
    (data, [], false).

(** [json.loads(json.dumps(DEFAULT_SUMMARY))] is a fresh copy of the
    default document; with values instead of objects it is the document. *)
Definition load_summary_data : M pyval :=
  name <- gets SUMMARY_FILENAME ;;
  present <- path_exists Primary ;;
  if negb present then
    write_json Primary DEFAULT_SUMMARY ;;
    showinfo "Summary File Created" ("Created '" ++ name ++ "'.") ;;
    ret DEFAULT_SUMMARY
  else
    r <- catch (data <- read_json Primary ;; ret (inl data))
           (fun e =>
              match e with
              | JSONDecodeError =>
                  unlink Primary true ;;
                  write_json Primary DEFAULT_SUMMARY ;;
                  showwarning "Corrupted File Replaced"
                    "Corrupted summary file replaced with a new blank file." ;;
                  ret (inr DEFAULT_SUMMARY)
              | _ =>
                  showerror "File Error"
                    ("Unable to read summary file:" ++ nl ++ exn_text e) ;;
                  ret (inr DEFAULT_SUMMARY)
              end) ;;
    match r with
    | inr default => ret default
    | inl data =>
        st <- lift (repair data) ;;
        let '(data, repairs, repaired) := st in
        (if repaired : bool then
           write_json Primary data ;;
           showinfo "Repairs Made" (String.concat nl repairs)
         else ret tt) ;;
        ret data
    end.

(** The name of [path.with_suffix(path.suffix + BACKUP_SUFFIX)] *)
Definition backup_name (w : world) : string :=
  with_suffix (SUMMARY_FILENAME w) (suffix (SUMMARY_FILENAME w) ++ BACKUP_SUFFIX).

Definition save_summary_data (data : pyval) : M bool :=
  catch (present <- path_exists Primary ;;
         if present : bool then copyfile Primary Backup else ret tt)
        (fun _ => ret tt) ;;
  saved <- catch (write_json Primary data ;; ret true)
             (fun e =>
                name <- gets backup_name ;;
                showerror "Save Error"
                  ("Could not save summary. Backup preserved as '" ++ name
                   ++ "'." ++ nl ++ "Details: " ++ exn_text e) ;;
                ret false) ;;
  if saved : bool then
    catch (present <- path_exists Backup ;;
           if present : bool then unlink Backup false else ret tt)
          (fun _ => ret tt) ;;
    ret true
  else ret false.

(** ** Helper functions *)

(** What [validate_number] returns: [(False, message)] or [(True, v)]. *)
Inductive validation : Type :=
| Invalid (message : string)
| Valid (v : float).

Definition validate_number (txt : string) : validation :=
  let s := strip txt in
  match s with
  | EmptyString => Invalid "No input provided."
  | _ =>
      match float_of_str s with
      | None =>
          Invalid ("Number is invalid or input was not a number." ++ nl
                   ++ "Example: 500; 503.81" ++ nl ++ "No Symbols.")
      | Some v =>
          if fleb v fzero then Invalid "Value must be greater than 0."
          else Valid v
      end
  end.

(** ** Summary calculator *)

(** [sum(float(v) for v in data.get(section, {}).values())] *)
Definition total (data : pyval) (section : string) : res pyval :=
  let! sec := py_get data section in
  let! vs := py_values sec in
  let! fs := floats vs in
  inr (py_sum fs).

Definition calculate_summary : M pyval :=
  data <- load_summary_data ;;
  total_income <- lift (total data "income") ;;
  total_expenses <- lift (total data "expenses") ;;
  if py_eq0 total_income && py_eq0 total_expenses then ret VNone
  else
    net_balance <- lift (py_sub total_income total_expenses) ;;
    income <- lift (py_get data "income") ;;
    expenses <- lift (py_get data "expenses") ;;
    ret (VDict [("total_income", total_income);
                ("total_expenses", total_expenses);
                ("net_balance", net_balance);
                ("income", income);
                ("expenses", expenses)]).

(** ** The application *)

(** [_populate_summary]: the labels it builds are not part of the model. *)
Definition _populate_summary : M unit :=
  _ <- calculate_summary ;; ret tt.

(** [show_page]: the page becomes the current one and its [on_show] hook,
    which only the summary page has, runs. *)
Definition show_page (key : string) : M unit :=
  modify (set_page key) ;;
  if String.eqb key "summary" then _populate_summary else ret tt.

Definition _submit_income : M unit :=
  txt <- gets income_entry ;;
  match validate_number txt with
  | Invalid val => showerror "Invalid Input" val
  | Valid val =>
      data <- load_summary_data ;;
      cat <- gets income_var ;;
      data <- lift (let! sec := py_getitem data "income" in
                    let! old := py_getitem sec cat in
                    let! new := py_add_float old val in
                    py_setitem2 data "income" cat new) ;;
      saved <- save_summary_data data ;;
      if saved : bool then
        showinfo "Success" "Income added successfully." ;;
        modify (set_income_entry EmptyString) ;;
        show_page "main"
      else ret tt
  end.

Definition _submit_expense : M unit :=
  txt <- gets expense_entry ;;
  match validate_number txt with
  | Invalid val => showerror "Invalid Input" val
  | Valid val =>
      data <- load_summary_data ;;
      cat <- gets expense_var ;;
      data <- lift (let! sec := py_getitem data "expenses" in
                    let! old := py_getitem sec cat in
                    let! new := py_add_float old val in
                    py_setitem2 data "expenses" cat new) ;;
      saved <- save_summary_data data ;;
      if saved : bool then
        showinfo "Success" "Expense added successfully." ;;
        modify (set_expense_entry EmptyString) ;;
        show_page "main"
      else ret tt
  end.

(** [_on_exit], once the user has answered the question; the end of the
    main loop is not part of the model. *)
Definition _on_exit (yes : bool) : M unit :=
  if yes then
    d <- load_summary_data ;;
    _ <- save_summary_data d ;;
    ret tt
  else ret tt.

(** ** Presentation helpers *)

Module PyText.

(** The digit of a value below the base, in lower case. *)
Definition digit_char (d : Z) : ascii :=
  ascii_of_nat (Z.to_nat (if d <? 10 then 48 + d else 87 + d)).

(** The digits of a natural number in a base, most significant first; the
    fuel bounds their number. *)
Fixpoint digits_rev (fuel : nat) (base n : Z) : list ascii :=
  match fuel with
  | O => []
  | S fuel' =>
      if n <? base then [digit_char n]
      else digit_char (n mod base) :: digits_rev fuel' base (n / base)
  end.

Definition numeral (base n : Z) : list ascii :=
  rev (digits_rev (S (Z.to_nat (Z.log2 n))) base n).

Fixpoint text (l : list ascii) : string :=
  match l with
  | [] => EmptyString
  | c :: l' => String c (text l')
  end.

(** A comma before every group of three digits but the last; the digits
    come least significant first, [k] of them still fit the group. *)
Fixpoint commas_rev (l : list ascii) (k : nat) : list ascii :=
  match l with
  | [] => []
  | c :: l' =>
      match k with
      | O => ","%char :: c :: commas_rev l' 2
      | S k' => c :: commas_rev l' k'
      end
  end.

Definition grouped (n : Z) : string :=
  text (rev (commas_rev (rev (numeral 10 n)) 3)).

(** [n / d] rounded to the nearest integer, ties to even *)
Definition round_half_even (n d : Z) : Z :=
  let q := n / d in
  match 2 * (n mod d) ?= d with
  | Lt => q
  | Gt => q + 1
  | Eq => if Z.even q then q else q + 1
  end.

(** The hundredths in [m * 2^e], rounded *)
Definition cents (m : positive) (e : Z) : Z :=
  if 0 <=? e then 100 * Zpos m * 2 ^ e
  else round_half_even (100 * Zpos m) (2 ^ (- e)).

Definition minus (s : bool) : string := if s then "-" else EmptyString.

(** [format(f, ",.2f")]: the decimal expansion of the float, correctly
    rounded to two places, the integer part in groups of three. *)
Definition format_2f (f : float) : string :=
  match f with
  | S754_nan => "nan"
  | S754_infinity s => minus s ++ "inf"
  | S754_zero s => minus s ++ "0.00"
  | S754_finite s m e =>
      let c := cents m e in
      minus s ++ grouped (c / 100) ++ "."
      ++ text [digit_char (c mod 100 / 10); digit_char (c mod 10)]
  end.

(** [format(n, "02x")] for an [int] *)
Definition format_02x (n : Z) : string :=
  if (0 <=? n) && (n <? 16) then text ["0"%char; digit_char n]
  else minus (n <? 0) ++ text (numeral 16 (Z.abs n)).

Definition hexval (c : ascii) : option Z :=
  let n := code c in
  if isdigit c then Some (n - 48)
  else if (97 <=? n) && (n <=? 102) then Some (n - 87)
  else if (65 <=? n) && (n <=? 70) then Some (n - 55)
  else None.

(** A run of hexadecimal digits to the end of the text, single underscores
    allowed between two digits; [prev] tells whether the character before
    was a digit. *)
Fixpoint hexrun (s : string) (prev : bool) (acc : Z) : option Z :=
  match s with
  | EmptyString => if prev then Some acc else None
  | String c s' =>
      if Ascii.eqb c "_" then (if prev then hexrun s' false acc else None)
      else match hexval c with
           | Some d => hexrun s' true (16 * acc + d)
           | None => None
           end
  end.

(** [int(s, 16)]; [None] stands for [ValueError]. *)
Definition int16 (s : string) : option Z :=
  let t := rstrip isspace_float (lstrip isspace_float s) in
  let '(neg, u) := sign t in
  let digits :=
    match u with
    | String "0" (String x r) =>
        if Ascii.eqb (lower x) "x"
        then match r with
             | String "_" (String c r') => String c r'
             | _ => r
             end
        else u
    | _ => u
    end in
  match digits with
  | String "_" _ => None
  | _ =>
      match hexrun digits false 0 with
      | Some n => Some (if neg then - n else n)
      | None => None
      end
  end.

(** [int(f)] for a float: towards zero *)
Definition int_of_float (f : float) : res Z :=
  match f with
  | S754_nan => inl ValueError
  | S754_infinity _ => inl OverflowError
  | S754_zero _ => inr 0
  | S754_finite s m e =>
      let n := if 0 <=? e then Zpos m * 2 ^ e else Zpos m / 2 ^ (- e) in
      inr (if s then - n else n)
  end.

Definition fmul : float -> float -> float := SFmul prec emax.

(** [x > 0] and [x < 0] on numbers *)
Definition py_gt0 (x : pyval) : res bool :=
  match x with
  | VBool b => inr b
  | VInt z => inr (0 <? z)
  | VFloat f => inr (SFltb fzero f)
  | _ => inl TypeError
  end.

Definition py_lt0 (x : pyval) : res bool :=
  match x with
  | VBool _ => inr false
  | VInt z => inr (z <? 0)
  | VFloat f => inr (SFltb f fzero)
  | _ => inl TypeError
  end.

(** [x.get(k, default)] *)
Definition py_get_or (x : pyval) (k : string) (default : pyval) : res pyval :=
  match x with
  | VDict d =>
      match dict_get d k with
      | Some v => inr v
      | None => inr default
      end
  | _ => inl AttributeError
  end.

End PyText.

Import PyText.

(** The inner function [h2r] of [interp_color] *)
Definition h2r (h : string) : res (Z * Z * Z) :=
  let h := lstrip (Ascii.eqb "#") h in
  match int16 (substring 0 2 h) with
  | None => inl ValueError
  | Some r =>
      match int16 (substring 2 2 h) with
      | None => inl ValueError
      | Some g =>
          match int16 (substring 4 2 h) with
          | None => inl ValueError
          | Some b => inr (r, g, b)
          end
      end
  end.

(** [int(a + (b - a) * t)] for ints [a], [b] and a float [t] *)
Definition blend (a b : Z) (t : float) : res Z :=
  let! d := float_of_int (b - a) in
  let! x := float_of_int a in
  int_of_float (fadd x (fmul d t)).

Definition interp_color (c1 c2 : string) (t : float) : res string :=
  let! rgb1 := h2r c1 in
  let! rgb2 := h2r c2 in
  let '(r1, g1, b1) := rgb1 in
  let '(r2, g2, b2) := rgb2 in
  let! r := blend r1 r2 t in
  let! g := blend g1 g2 t in
  let! b := blend b1 b2 t in
  inr ("#" ++ format_02x r ++ format_02x g ++ format_02x b).

Definition format_currency (val : pyval) : string :=
  match py_float val with
  | inr f => "$" ++ format_2f f
  | inl _ => "$0.00"
  end.

(** A label of the summary frame: its text and its colour. *)
Definition label : Type := (string * string)%type.

(** The frame after a run of label making: the labels packed, and the
    exception that ended the run, if one did. *)
Definition frame : Type := (list label * option exn)%type.

(** One more label, then the rest, unless making the label raises. *)
Definition pack (l : res label) (rest : frame) : frame :=
  match l with
  | inl e => ([], Some e)
  | inr x => (x :: fst rest, snd rest)
  end.

(** The colour of the net balance *)
Definition net_color (net : pyval) : res string :=
  let! positive := py_gt0 net in
  if positive : bool then inr "#9CFF00"
  else
    let! negative := py_lt0 net in
    inr (if negative : bool then "#FF6B6B" else "#FFFFFF").

(** The labels of [for cat in ...: tk.Label(...)] *)
Fixpoint category_labels (rep : pyval) (section : string)
  (cats : list string) (rest : frame) : frame :=
  match cats with
  | [] => rest
  | cat :: cats' =>
      pack (let! sec := py_getitem rep section in
            let! v := py_get_or sec cat (VFloat fzero) in
            inr ("  " ++ cat ++ ": " ++ format_currency v, "white"))
        (category_labels rep section cats' rest)
  end.

(** What [_populate_summary] packs into the emptied summary frame, given
    what [calculate_summary] returned *)
Definition summary_labels (rep : pyval) : frame :=
  match rep with
  | VNone => ([("No entries yet.", "white")], None)
  | _ =>
      pack (let! ti := py_getitem rep "total_income" in
            inr ("Total Income: " ++ format_currency ti, "white"))
        (pack (let! te := py_getitem rep "total_expenses" in
               inr ("Total Expenses: " ++ format_currency te, "white"))
           (match py_getitem rep "net_balance" with
            | inl e => ([], Some e)
            | inr net =>
                pack (let! color := net_color net in
                      inr ("Net Balance: " ++ format_currency net, color))
                  (pack (inr ("Income by Category:", "#9CFF00"))
                     (category_labels rep "income" INCOME_CATEGORIES
                        (pack (inr ("Expenses by Category:", "#9CFF00"))
                           (category_labels rep "expenses"
                              EXPENSE_CATEGORIES ([], None)))))
            end))
  end.

(** ** The validator on any text

    An entry field gives a [str] of any code points; [string] holds those
    below 256.  The validator is modelled on both: on [string] above, and
    here on lists of code points, with the white space and the decimal
    digits of every script. *)

Module PyStr.

(** A [str] as the list of its code points, each from 0 to 0x10FFFF. *)
Definition ustr : Type := list Z.

(** [str.isspace] of a code point *)
Definition uspace (cp : Z) : bool :=
  ((9 <=? cp) && (cp <=? 13)) || ((28 <=? cp) && (cp <=? 32))
  || (cp =? 133) || (cp =? 160) || (cp =? 5760)
  || ((8192 <=? cp) && (cp <=? 8202))
  || (cp =? 8232) || (cp =? 8233) || (cp =? 8239) || (cp =? 8287)
  || (cp =? 12288).

(** The code points of the digit zero of every script that has decimal
    digits; the nine code points after each are its digits one to nine
    (Unicode 14, which CPython 3.11 carries). *)
Definition zeros : list Z :=
  [48; 1632; 1776; 1984; 2406; 2534; 2662; 2790; 2918; 3046; 3174; 3302;
   3430; 3558; 3664; 3792; 3872; 4160; 4240; 6112; 6160; 6470; 6608; 6784;
   6800; 6992; 7088; 7232; 7248; 42528; 43216; 43264; 43472; 43504; 43600;
   44016; 65296; 66720; 68912; 69734; 69872; 69942; 70096; 70384; 70736;
   70864; 71248; 71360; 71472; 71904; 72016; 72784; 73040; 73120; 92768;
   92864; 93008; 120782; 120792; 120802; 120812; 120822; 123200; 123632;
   125264; 130032].

(** The decimal value of a code point that is a decimal digit *)
Definition udecimal (cp : Z) : option Z :=
  match find (fun z => (z <=? cp) && (cp <? z + 10)) zeros with
  | Some z => Some (cp - z)
  | None => None
  end.

Definition ascii_of (cp : Z) : ascii := ascii_of_nat (Z.to_nat cp).

Fixpoint ulstrip (t : ustr) : ustr :=
  match t with
  | [] => []
  | cp :: t' => if uspace cp then ulstrip t' else t
  end.

Fixpoint urstrip (t : ustr) : ustr :=
  match t with
  | [] => []
  | cp :: t' =>
      match urstrip t' with
      | [] => if uspace cp then [] else [cp]
      | r => cp :: r
      end
  end.

(** [str.strip()] *)
Definition ustrip (t : ustr) : ustr := urstrip (ulstrip t).

(** The ASCII text [float] parses in place of a [str]: a code point below
    127 stands for itself, white space beyond becomes a blank, a decimal
    digit of any script the ASCII digit of its value; at the first code
    point that is none of these the text ends with a question mark. *)
Fixpoint to_ascii (t : ustr) : string :=
  match t with
  | [] => EmptyString
  | cp :: t' =>
      if cp <? 127 then String (ascii_of cp) (to_ascii t')
      else if uspace cp then String " " (to_ascii t')
      else match udecimal cp with
           | Some d => String (ascii_of (48 + d)) (to_ascii t')
           | None => "?"
           end
  end.

(** [float(s)] for a [str] of any code points *)
Definition float_of_ustr (t : ustr) : option float := float_of_str (to_ascii t).

End PyStr.

Module Unicode.
Import PyStr.

(** [validate_number] on the text of an entry field, which can hold any
    code point. *)
Definition validate_number (txt : ustr) : validation :=
  let s := ustrip txt in
  match s with
  | [] => Invalid "No input provided."
  | _ =>
      match float_of_ustr s with
      | None =>
          Invalid ("Number is invalid or input was not a number." ++ nl
                   ++ "Example: 500; 503.81" ++ nl ++ "No Symbols.")
      | Some v =>
          if fleb v fzero then Invalid "Value must be greater than 0."
          else Valid v
      end
  end.

End Unicode.

Import PyStr.

(** ** Vocabulary of the statements *)

(** The message for a text that is no number. *)
Definition not_a_number : string :=
  "Number is invalid or input was not a number." ++ nl
  ++ "Example: 500; 503.81" ++ nl ++ "No Symbols.".

(** The floats 0.01 and 500.0. *)
Definition f_0_01 : float := S754_finite false 5764607523034235 (-59).
Definition f_500 : float := S754_finite false 8796093022208000 (-44).

(** No call fails: every answer left is a success. *)
Definition quiet (fs : list (option string)) : bool :=
  forallb (fun a => match a with None => true | Some _ => false end) fs.

(** The next [n] calls do not fail. *)
Fixpoint calm (n : nat) (fs : list (option string)) {struct fs} : bool :=
  match fs, n with
  | [], _ | _, O => true
  | None :: fs', S n' => calm n' fs'
  | Some _ :: _, S _ => false
  end.

(** The world after [n] answers were taken. *)
Definition answered (n : nat) (w : world) : world :=
  set_faults (skipn n (faults w)) w.

(** How many answers the backup copy of [save_summary_data] takes: none
    without a primary file, one when the files cannot be opened, else two. *)
Definition copy_answers (w : world) : nat :=
  match primary w, faults w with
  | None, _ => 0
  | Some _, Some _ :: _ => 1
  | Some _, _ => 2
  end.

(** The answers to the two calls of the write in [save_summary_data], and to
    the delete of the backup after them. *)
Definition write_answers (w : world) : list (option string) :=
  skipn (copy_answers w) (faults w).

Definition delete_answers (w : world) : list (option string) :=
  skipn 2 (write_answers w).

(** The document in the primary file *)
Definition stored (w : world) : option pyval :=
  match primary w with
  | Some (Json data) => Some data
  | _ => None
  end.

(** [data[section][cat]], when both keys are there *)
Definition entry (data : pyval) (section cat : string) : option pyval :=
  match data with
  | VDict d =>
      match dict_get d section with
      | Some (VDict sec) => dict_get sec cat
      | _ => None
      end
  | _ => None
  end.

Definition registry : list (string * string) :=
  (map (pair "income") INCOME_CATEGORIES
   ++ map (pair "expenses") EXPENSE_CATEGORIES)%list.

Definition is_float (v : option pyval) : bool :=
  match v with
  | Some (VFloat _) => true
  | _ => false
  end.

(** Every registry category is there and holds a [float]. *)
Definition complete (data : pyval) : bool :=
  forallb (fun sc => is_float (entry data (fst sc) (snd sc))) registry.

(** Whether [float(v)] returns, for the value under a key *)
Definition convertible (v : option pyval) : bool :=
  match v with
  | Some x => match py_float x with inr _ => true | inl _ => false end
  | None => false
  end.

(** Every registry category is there and holds a value [float] accepts;
    false when a section is missing or is no dict, a category is missing or
    its value is rejected. *)
Definition intact (data : pyval) : bool :=
  forallb (fun sc => convertible (entry data (fst sc) (snd sc))) registry.

(** What the repair leaves under a key: the converted value, 0.0 when there
    was none or [float] raised. *)
Definition mended (v : option pyval) : float :=
  match v with
  | Some x => match py_float x with inr f => f | inl _ => fzero end
  | None => fzero
  end.

Definition mend_category (sec : dict) (cat : string) : dict :=
  dict_set sec cat (VFloat (mended (dict_get sec cat))).

Definition mend_section (expected : list string) (sec : dict) : dict :=
  fold_left mend_category expected sec.

Definition mend (expected : list string) (v : option pyval) : dict :=
  match v with
  | Some (VDict sec) => mend_section expected sec
  | _ => dict_const expected (VFloat fzero)
  end.

Definition section_intact (expected : list string) (v : option pyval) : bool :=
  match v with
  | Some (VDict sec) => forallb (fun cat => convertible (dict_get sec cat)) expected
  | _ => false
  end.

(** Every value of a mapping is one [float] accepts; said of what stands
    under a section key, it holds as well when that is no mapping, which the
    repair replaces. *)
Definition numeric (sec : dict) : bool :=
  forallb (fun kv => convertible (Some (snd kv))) sec.

Definition numeric_section (v : option pyval) : bool :=
  match v with
  | Some (VDict sec) => numeric sec
  | _ => true
  end.

(** The document the repair makes of a JSON object *)
Definition mend_document (d : dict) : dict :=
  dict_set
    (dict_set d "income"
       (VDict (mend INCOME_CATEGORIES (dict_get d "income"))))
    "expenses" (VDict (mend EXPENSE_CATEGORIES (dict_get d "expenses"))).

(** A file that lacks the expenses section and three income categories and
    holds the text "inf" as salary. *)
Definition doc_inf : pyval :=
  VDict [("income", VDict [("Salary", VStr "inf")])].

(** A file that lacks the expenses section and holds a salary in words. *)
Definition dict_words : dict :=
  [("income", VDict [("Salary", VStr "a lot"); ("Gift", VInt 3);
                     ("Investment", VFloat f_500); ("Other", VStr "12.5")])].

Definition doc_words : pyval := VDict dict_words.

(** What [load_summary_data] returns or raises. *)
Definition load_value (w : world) : res pyval :=
  match load_summary_data w with
  | Ret data _ => inr data
  | Raise e _ => inl e
  end.

(** The floats 100.0, 150.0 and 200.0. *)
Definition f_100 : float := S754_finite false 7036874417766400 (-46).
Definition f_150 : float := S754_finite false 5277655813324800 (-45).

(** The document with the given salary and 0.0 everywhere else. *)
Definition doc_salary (f : float) : pyval :=
  VDict [("income",
          VDict (("Salary", VFloat f)
                 :: dict_const ["Gift"; "Investment"; "Other"] (VFloat fzero)));
         ("expenses", VDict (dict_const EXPENSE_CATEGORIES (VFloat fzero)))].

(** [save(load())], the body of [_on_exit] *)
Definition save_load : M bool :=
  d <- load_summary_data ;; save_summary_data d.

(** A world for examples: program [pf_tracker], nothing on disk, no
    failure ahead, the main page shown, the first category selected. *)
Definition fresh : world :=
  mkWorld "pf_tracker" None None [] [] EmptyString "Salary" EmptyString
    "Food" "main".

Definition with_primary (c : option content) (w : world) : world :=
  set_file Primary c w.

(** A salary of 100.0 is on disk; the backup copy and the opening of the
    file will succeed, then the device is full. *)
Definition disk_full : world :=
  set_faults [None; None; None; Some "No space left on device"]
    (with_primary (Some (Json (doc_salary f_100))) fresh).

(** A text of white space only, for [str.strip] *)
Fixpoint blank (s : string) : bool :=
  match s with
  | EmptyString => true
  | String c s' => isspace c && blank s'
  end.

(** A text that neither starts nor ends with white space; the empty text
    is one. *)
Fixpoint last_char (c : ascii) (s : string) : ascii :=
  match s with
  | EmptyString => c
  | String c' s' => last_char c' s'
  end.

Definition trimmed (s : string) : bool :=
  match s with
  | EmptyString => true
  | String c s' => negb (isspace c) && negb (isspace (last_char c s'))
  end.







(** Whether a float is exactly the integer [z]. *)
Definition float_is_int (f : float) (z : Z) : bool :=
  match f with
  | S754_zero _ => z =? 0
  | S754_finite s m e =>
      if 0 <=? e then cond_Zopp s (Zpos m * 2 ^ e) =? z
      else cond_Zopp s (Zpos m) =? z * 2 ^ (- e)
  | _ => false
  end.

(** [a == b] on the numbers a category can hold: an [int] and a float are
    equal when the float is exactly the integer. *)
Definition number_eq (a b : pyval) : bool :=
  match a, b with
  | VInt x, VInt y => x =? y
  | VFloat x, VFloat y => SFeqb x y
  | VInt x, VFloat y => float_is_int y x
  | VFloat x, VInt y => float_is_int x y
  | _, _ => false
  end.

(** Every registry category is there and holds a number. *)
Definition numbers (data : pyval) : bool :=
  forallb (fun sc => match entry data (fst sc) (snd sc) with
                     | Some (VInt _) | Some (VFloat _) => true
                     | _ => false
                     end)
    registry.

(** The two documents hold equal numbers under every registry category. *)
Definition same_values (a b : pyval) : bool :=
  forallb (fun sc => match entry a (fst sc) (snd sc),
                           entry b (fst sc) (snd sc) with
                     | Some x, Some y => number_eq x y
                     | _, _ => false
                     end)
    registry.

(** A complete document whose salary is the integer 2^53 + 1, which is no
    binary64 number; every other category holds 0.0. *)
Definition dict_odd : dict :=
  [("income",
    VDict (("Salary", VInt 9007199254740993)
           :: dict_const ["Gift"; "Investment"; "Other"] (VFloat fzero)));
   ("expenses", VDict (dict_const EXPENSE_CATEGORIES (VFloat fzero)))].

(** The float 2^53 *)
Definition f_2_53 : float := S754_finite false 4503599627370496 1.

(** ** Vocabulary of the further properties *)

(** The world a run ends in, whether it returns or raises. *)
Definition final {A : Type} (r : result A) : world :=
  match r with
  | Ret _ w => w
  | Raise _ w => w
  end.

(** The program name and the widgets are the same in both worlds, and the
    second has seen the dialogs of the first, then possibly more. *)
Definition same_form (w w' : world) : Prop :=
  program w' = program w
  /\ income_entry w' = income_entry w /\ income_var w' = income_var w
  /\ expense_entry w' = expense_entry w /\ expense_var w' = expense_var w
  /\ page w' = page w
  /\ exists shown, dialogs w' = (dialogs w ++ shown)%list.

(** A file with keys of its own: a bonus in words under income, a note at
    top level; the expenses section is missing. *)
Definition dict_extras : dict :=
  [("income", VDict [("Salary", VFloat f_100); ("Bonus", VStr "soon")]);
   ("note", VStr "mine")].

(** The characters of a text *)
Fixpoint chars (s : string) : list ascii :=
  match s with
  | EmptyString => []
  | String c s' => c :: chars s'
  end.

(** The characters a text [float] accepts is made of, apart from the white
    space around it: digits, signs, the point, the underscore, and the
    letters of the exponent mark, of "infinity" and of "nan". *)
Definition float_char (c : ascii) : bool :=
  isdigit c
  || existsb (Ascii.eqb c) ["+"; "-"; "."; "_"]%char
  || existsb (Ascii.eqb (lower c)) ["e"; "i"; "n"; "f"; "t"; "y"; "a"]%char.

(** A mapping in which every value is the float zero, of either sign *)
Definition zero_value (v : pyval) : bool :=
  match v with
  | VFloat (S754_zero _) => true
  | _ => false
  end.

Definition all_zero (sec : dict) : bool :=
  forallb (fun kv => zero_value (snd kv)) sec.

(** The two sections and their registry categories *)
Definition sections : list (string * list string) :=
  [("income", INCOME_CATEGORIES); ("expenses", EXPENSE_CATEGORIES)].

(** A file in which the income mapping has a key of its own with a value
    in words. *)
Definition dict_bonus : dict :=
  [("income",
    VDict (("Salary", VFloat f_100) :: ("Bonus", VStr "soon")
           :: dict_const ["Gift"; "Investment"; "Other"] (VFloat fzero)));
   ("expenses", VDict (dict_const EXPENSE_CATEGORIES (VFloat fzero)))].

(** How a submit handler that returns can leave the world [w'] it was
    started in as [w]: the amount was rejected, and only the dialog that
    says so is new; or the document was saved, the entry field [field] is
    cleared, the main page is shown and the last dialog is the [success]
    one; or the save failed, the entry field and the page are as they were
    and the last dialog is the "Save Error" one. *)
Definition submit_outcome (field : world -> string) (success : string)
  (w w' : world) : Prop :=
  (exists message,
      validate_number (field w) = Invalid message
      /\ w' = add_dialog (Error "Invalid Input" message) w)
  \/ (exists v data shown,
         validate_number (field w) = Valid v
         /\ stored w' = Some data
         /\ field w' = EmptyString /\ page w' = "main"
         /\ dialogs w'
            = (dialogs w ++ shown ++ [Info "Success" success])%list)
  \/ (exists v shown message,
         validate_number (field w) = Valid v
         /\ field w' = field w /\ page w' = page w
         /\ dialogs w'
            = (dialogs w ++ shown ++ [Error "Save Error" message])%list).

(** A salary of 100.0 is on disk and 50 in the income field; the load and
    the backup copy will succeed, the file will open, then the device is
    full. *)
Definition submit_disk_full : world :=
  set_income_entry "50"
    (set_faults [None; None; None; None; Some "No space left on device"]
       (with_primary (Some (Json (doc_salary f_100))) fresh)).

(** The income field holds 50 and a category the registry does not have
    is selected. *)
Definition submit_unknown : world :=
  mkWorld "pf_tracker" (Some (Json (doc_salary f_100))) None [] [] "50"
    "Lottery" EmptyString "Food" "income".

(** An amount of [c] hundredths as it is typed, and as it is shown: the
    units, the point, two decimals; shown with the currency sign and the
    units in groups of three. *)
Definition decimals (c : Z) : string :=
  "." ++ text [digit_char (c mod 100 / 10); digit_char (c mod 10)].

Definition typed (c : Z) : string := text (numeral 10 (c / 100)) ++ decimals c.

Definition shown (c : Z) : string := "$" ++ grouped (c / 100) ++ decimals c.

(** The typed amount of [c] hundredths is accepted and then shown as
    [shown c]. *)
Definition shown_as_typed (c : Z) : bool :=
  match validate_number (typed c) with
  | Valid v => String.eqb (format_currency (VFloat v)) (shown c)
  | Invalid _ => false
  end.

(** [test] holds for the [n] integers from [c] on. *)
Fixpoint holds_from (test : Z -> bool) (n : nat) (c : Z) : bool :=
  match n with
  | O => true
  | S n' => test c && holds_from test n' (c + 1)
  end.

(** The float 1.0 *)
Definition f_1 : float := S754_finite false 4503599627370496 (-52).

(** The colour written from three channels, as the last line of
    [interp_color] writes it. *)
Definition colour (rgb : Z * Z * Z) : string :=
  let '(r, g, b) := rgb in
  "#" ++ format_02x r ++ format_02x g ++ format_02x b.

(** What [int(s, 16)] can return for a text of at most two characters. *)
Definition channel (n : Z) : bool := (-15 <=? n) && (n <=? 255).

Definition returns (r : res Z) (n : Z) : bool :=
  match r with
  | inr m => m =? n
  | inl _ => false
  end.

Definition same_float (x y : float) : bool :=
  match x, y with
  | S754_zero s, S754_zero s' => Bool.eqb s s'
  | S754_finite s m e, S754_finite s' m' e' =>
      Bool.eqb s s' && Pos.eqb m m' && (e =? e')
  | _, _ => false
  end.

(** What [float(a)] is for a small [a]: the zero for 0, else
    [a = (-1)^s * m * 2^e] with [e] between -52 and -44; times 1.0 it is
    itself, and [int] of it is [a]. *)
Definition small_float (a : Z) : bool :=
  match float_of_int a with
  | inr x =>
      same_float (fmul x f_1) x
      && returns (int_of_float x) a
      && match x with
         | S754_zero s => negb s && (a =? 0)
         | S754_finite s m e =>
             (-52 <=? e) && (e <=? -44)
             && (cond_Zopp s (Zpos m) =? a * 2 ^ (- e))
         | _ => false
         end
  | inl _ => false
  end.

(** [int] of the float that [n * 2^k] times [2^-k] is normalized to. *)
Definition int_normal (n k : Z) : bool :=
  returns (int_of_float (binary_normalize prec emax (n * 2 ^ k) (- k) false))
    n.

(** [format(n, "02x")] gives two characters, the first no [#], which
    [int(_, 16)] reads back as [n]. *)
Definition reads_back (n : Z) : bool :=
  match format_02x n with
  | String a (String b EmptyString) =>
      negb (Ascii.eqb "#" a)
      && match int16 (String a (String b EmptyString)) with
         | Some m => m =? n
         | None => false
         end
  | _ => false
  end.

(** The line of a category in the summary: the amount the document holds
    under it, 0.0 when it holds none. *)
Definition category_line (data : pyval) (section cat : string) : label :=
  ("  " ++ cat ++ ": "
   ++ format_currency
        (match entry data section cat with
         | Some v => v
         | None => VFloat fzero
         end),
   "white").

(** Green above zero, red below, white for zero and for a NaN. *)
Definition balance_colour (net : float) : string :=
  if SFltb fzero net then "#9CFF00"
  else if SFltb net fzero then "#FF6B6B"
  else "#FFFFFF".

(** The sixteen labels of a report, top to bottom. *)
Definition report_labels (data : pyval) (ti te : float) : list label :=
  app [("Total Income: " ++ format_currency (VFloat ti), "white");
       ("Total Expenses: " ++ format_currency (VFloat te), "white");
       ("Net Balance: " ++ format_currency (VFloat (fsub ti te)),
        balance_colour (fsub ti te));
       ("Income by Category:", "#9CFF00")]
    (app (map (category_line data "income") INCOME_CATEGORIES)
       (("Expenses by Category:", "#9CFF00")
        :: map (category_line data "expenses") EXPENSE_CATEGORIES)).

(** A code point numbers are written with: below 127 one that
    [float_char] names, beyond a decimal digit of some script. *)
Definition ufloat_char (cp : Z) : bool :=
  if cp <? 127 then float_char (ascii_of cp)
  else match udecimal cp with
       | Some _ => true
       | None => false
       end.

(** The code points of a text of characters below 256 *)
Definition codes (s : string) : ustr := map code (chars s).

(* ================================================================== *)
(** * Tactics *)
(* ================================================================== *)

Arguments repair : simpl never.
Arguments String.concat : simpl never.
Arguments backup_name : simpl never.

(** Runs the program as far as the answers known so far allow. *)
Ltac run := cbn -[skipn].

(** Reduces the projections of a world that is given field by field. *)
Ltac fields :=
  cbn [program primary backup faults dialogs income_entry income_var
       expense_entry expense_var page] in *.

(** Case analysis on the answers a hypothesis says are no failures. *)
Ltac answers :=
  repeat match goal with
    | H : calm _ ?fs = true |- _ =>
        is_var fs; destruct fs as [|[?|] ?]; simpl in H; try discriminate H
    end.

(** Unfolds the computations down to the matches on the world. *)
Ltac unfold_io :=
  unfold write_json, open_w, json_dump, read_json, unlink, copyfile,
    path_exists, showinfo, showwarning, showerror, bind, catch, gets, modify,
    ret, raise, lift, ask.

(** Case analysis on the next answer the program waits for. *)
Ltac next_answer :=
  match goal with
  | |- context [match ?fs with [] => _ | _ :: _ => _ end] =>
      is_var fs; destruct fs as [|[?|] ?]
  end.

(** Closes the conjuncts a finished run leaves. *)
Ltac settle :=
  repeat match goal with
    | |- _ /\ _ => split
    | |- _ -> _ => intro
    | |- forall _, _ => intro
    | H : _ /\ _ |- _ => destruct H
    end;
  fields;
  try discriminate; try congruence; try reflexivity; auto.


(* ================================================================== *)
(** * [float] on text, by example *)
(* ================================================================== *)

(** Decimal texts are rounded to the nearest binary64 number, ties to
    even. *)
Example float_of_tenth :
  float_of_str "0.1" = Some (S754_finite false 7205759403792794 (-56)).
Proof. vm_compute. reflexivity. Qed.

Example float_of_1e23 :
  float_of_str "1e23" = Some (S754_finite false 5960464477539062 24).
Proof. vm_compute. reflexivity. Qed.

Example float_of_tie :
  float_of_str "9007199254740993"
  = Some (S754_finite false 4503599627370496 1)
  /\ float_of_str "9007199254740995"
     = Some (S754_finite false 4503599627370498 1).
Proof. split; vm_compute; reflexivity. Qed.

(** The smallest positive number, and the texts just below and above half
    of it. *)
Example float_of_tiny :
  float_of_str "5e-324" = Some (S754_finite false 1 (-1074))
  /\ float_of_str "2.4703282292062327e-324" = Some (S754_zero false)
  /\ float_of_str "2.4703282292062328e-324"
     = Some (S754_finite false 1 (-1074)).
Proof. repeat split; vm_compute; reflexivity. Qed.

(** Out of range is an infinity, not an error. *)
Example float_of_huge :
  float_of_str "1.7976931348623157e308"
  = Some (S754_finite false 9007199254740991 971)
  /\ float_of_str "1.7976931348623159e308" = Some (S754_infinity false)
  /\ float_of_str "-1e400" = Some (S754_infinity true).
Proof. repeat split; vm_compute; reflexivity. Qed.

Example float_of_forms :
  float_of_str "-0" = Some (S754_zero true)
  /\ float_of_str "+.5" = Some (S754_finite false 4503599627370496 (-53))
  /\ float_of_str "5." = float_of_str "5"
  /\ float_of_str "1_000" = float_of_str "1000"
  /\ float_of_str "-Infinity" = Some (S754_infinity true)
  /\ float_of_str "NaN" = Some S754_nan.
Proof. repeat split; vm_compute; reflexivity. Qed.

Example float_of_rejected :
  map float_of_str
    ["."; "1e"; "1e+"; "1__0"; "_1"; "1_"; "1_.5"; "0x10"; "1 0"; "--5";
     "infinit"; "$5"; "1,000"]
  = repeat None 13.
Proof. vm_compute. reflexivity. Qed.

(** [float] skips less white space than [str.strip] removes. *)
Example float_white_space :
  float_of_str (String (ascii_of_nat 28) "1") = None
  /\ strip (String (ascii_of_nat 28) "1") = "1"
  /\ float_of_str (String (ascii_of_nat 9) "1 ") = float_of_str "1".
Proof. repeat split; vm_compute; reflexivity. Qed.

(** [float] on an [int] rounds the same way and refuses what is out of
    range. *)
Example float_of_ints :
  py_float (VInt 9007199254740993)
  = inr (S754_finite false 4503599627370496 1)
  /\ py_float (VInt (2 ^ 1024)) = inl OverflowError
  /\ py_float (VBool true) = inr (S754_finite false 4503599627370496 (-52))
  /\ py_float VNone = inl TypeError
  /\ py_float (VStr "abc") = inl ValueError.
Proof. repeat split; vm_compute; reflexivity. Qed.

(* ================================================================== *)
(** * The input validator *)
(* ================================================================== *)

Lemma lstrip_blank (l s : string) :
  blank l = true -> lstrip isspace (l ++ s) = lstrip isspace s.
Proof.
  induction l as [|c l IH]; cbn [blank append lstrip]; [reflexivity|].
  intros H. apply andb_true_iff in H as [Hc Hl]. rewrite Hc. now apply IH.
Qed.

Lemma rstrip_blank_all (r : string) :
  blank r = true -> rstrip isspace r = EmptyString.
Proof.
  induction r as [|c r IH]; cbn [blank rstrip]; [reflexivity|].
  intros H. apply andb_true_iff in H as [Hc Hr]. now rewrite (IH Hr), Hc.
Qed.

Lemma rstrip_blank (s r : string) :
  blank r = true -> rstrip isspace (s ++ r) = rstrip isspace s.
Proof.
  intros Hr. induction s as [|c s IH]; cbn [append rstrip].
  - now apply rstrip_blank_all.
  - now rewrite IH.
Qed.

Lemma strip_blank_right (s r : string) :
  blank r = true -> strip (s ++ r) = strip s.
Proof.
  intros Hr. unfold strip. induction s as [|c s IH]; cbn [append lstrip].
  - clear - Hr. induction r as [|c r IH]; cbn [blank lstrip] in *;
      [reflexivity|].
    apply andb_true_iff in Hr as [Hc Hr]. rewrite Hc. now apply IH.
  - destruct (isspace c); [exact IH|].
    change (String c (s ++ r)) with (String c s ++ r).
    now apply rstrip_blank.
Qed.

(** A text that ends with no white space loses nothing on the right. *)
Lemma rstrip_last (space : ascii -> bool) (s : string) :
  forall c, space (last_char c s) = false ->
            rstrip space (String c s) = String c s.
Proof.
  induction s as [|c' s IH]; intros c Hc.
  - cbn [last_char] in Hc. cbn [rstrip]. now rewrite Hc.
  - cbn [last_char] in Hc. specialize (IH c' Hc).
    change (rstrip space (String c (String c' s)))
      with (match rstrip space (String c' s) with
            | EmptyString =>
                if space c then EmptyString else String c EmptyString
            | r => String c r
            end).
    now rewrite IH.
Qed.

Lemma strip_trimmed (s : string) : trimmed s = true -> strip s = s.
Proof.
  destruct s as [|c s]; [reflexivity|]. cbn [trimmed].
  rewrite andb_true_iff, !negb_true_iff. intros [Hc Hlast].
  unfold strip. cbn [lstrip]. rewrite Hc. now apply rstrip_last.
Qed.

(** The text between the white space at both ends is what is judged. *)
Lemma strip_core (l core r : string) :
  blank l = true -> blank r = true -> trimmed core = true ->
  strip (l ++ core ++ r) = core.
Proof.
  intros Hl Hr Hcore. unfold strip at 1. rewrite (lstrip_blank _ _ Hl).
  change (strip (core ++ r) = core).
  rewrite (strip_blank_right _ _ Hr). now apply strip_trimmed.
Qed.

Lemma lstrip_split (s : string) :
  exists l, s = l ++ lstrip isspace s /\ blank l = true.
Proof.
  induction s as [|c s (l & Hs & Hl)]; [now exists EmptyString|].
  cbn [lstrip]. destruct (isspace c) eqn:Hc.
  - exists (String c l). cbn [append blank]. rewrite Hc, Hl. split; [|reflexivity].
    now rewrite <- Hs.
  - now exists EmptyString.
Qed.

Lemma rstrip_split (s : string) :
  exists r, s = rstrip isspace s ++ r /\ blank r = true.
Proof.
  induction s as [|c s (r & Hs & Hr)]; [now exists EmptyString|].
  cbn [rstrip]. destruct (rstrip isspace s) as [|c' u] eqn:Hu.
  - destruct (isspace c) eqn:Hc.
    + exists (String c s). split; [reflexivity|].
      cbn [blank]. rewrite Hc. cbn [append] in Hs. now rewrite Hs.
    + exists r. split; [|exact Hr]. cbn [append] in *. now rewrite <- Hs.
  - exists r. split; [|exact Hr]. cbn [append] in *. now rewrite <- Hs.
Qed.

Lemma rstrip_ends (s : string) (c : ascii) (u : string) :
  rstrip isspace s = String c u -> isspace (last_char c u) = false.
Proof.
  revert c u. induction s as [|c0 s IH]; intros c u; cbn [rstrip];
    [discriminate|].
  destruct (rstrip isspace s) as [|c' u'] eqn:Hu.
  - destruct (isspace c0) eqn:Hc; [discriminate|].
    intros H. injection H as <- <-. exact Hc.
  - intros H. injection H as <- <-. cbn [last_char]. now apply IH.
Qed.

Lemma rstrip_first (s : string) (c : ascii) :
  isspace c = false ->
  exists u, rstrip isspace (String c s) = String c u.
Proof.
  intros Hc. cbn [rstrip]. destruct (rstrip isspace s) as [|c' u].
  - rewrite Hc. now eexists.
  - now eexists.
Qed.

Lemma strip_is_trimmed (s : string) : trimmed (strip s) = true.
Proof.
  unfold strip. destruct (lstrip isspace s) as [|c u] eqn:Hl; [reflexivity|].
  assert (Hc : isspace c = false).
  { clear - Hl. induction s as [|c0 s IH]; cbn [lstrip] in Hl; [discriminate|].
    destruct (isspace c0) eqn:H0; [now apply IH|].
    injection Hl as <- _. exact H0. }
  destruct (rstrip_first u c Hc) as [v Hv]. rewrite Hv. cbn [trimmed].
  rewrite Hc, (rstrip_ends _ _ _ Hv). reflexivity.
Qed.

(** Every text is white space, a trimmed text, white space. *)
Lemma strip_split (txt : string) :
  exists l r,
    txt = l ++ strip txt ++ r /\ blank l = true /\ blank r = true.
Proof.
  destruct (lstrip_split txt) as (l & Hl & Hbl).
  destruct (rstrip_split (lstrip isspace txt)) as (r & Hr & Hbr).
  exists l, r. unfold strip. now rewrite <- Hr, <- Hl.
Qed.

(** C3.  [validate_number] trims the text: every text is white space, a
    core that neither starts nor ends with white space, and white space,
    and the verdict is that of the core.  An empty core, so every text of
    white space only, is invalid with "No input provided."; a core [float]
    rejects is invalid; a parsed value [v] with [v <= 0] is invalid with
    "Value must be greater than 0."; any other parsed value is valid and
    returned.  The six inputs of the specification behave as listed, " 500 "
    as "500"; the floats returned for "0.01" and " 500 " are the binary64
    numbers nearest to 1/100 and equal to 500. *)
Theorem validate_number_spec :
  (forall txt : string,
      exists l core r,
        txt = l ++ core ++ r
        /\ blank l = true /\ blank r = true /\ trimmed core = true)
  /\ (forall l core r : string,
         blank l = true -> blank r = true -> trimmed core = true ->
         (core = EmptyString ->
          validate_number (l ++ core ++ r) = Invalid "No input provided.")
         /\ (core <> EmptyString -> float_of_str core = None ->
             validate_number (l ++ core ++ r) = Invalid not_a_number)
         /\ (forall v, core <> EmptyString ->
                       float_of_str core = Some v ->
                       fleb v fzero = true ->
                       validate_number (l ++ core ++ r)
                       = Invalid "Value must be greater than 0.")
         /\ (forall v, core <> EmptyString ->
                       float_of_str core = Some v ->
                       fleb v fzero = false ->
                       validate_number (l ++ core ++ r) = Valid v))
  /\ (forall txt : string,
         blank txt = true ->
         validate_number txt = Invalid "No input provided.")
  /\ validate_number "0" = Invalid "Value must be greater than 0."
  /\ validate_number "0.01" = Valid f_0_01
  /\ validate_number EmptyString = Invalid "No input provided."
  /\ validate_number "   " = Invalid "No input provided."
  /\ validate_number "-5" = Invalid "Value must be greater than 0."
  /\ validate_number "abc" = Invalid not_a_number
  /\ validate_number " 500 " = Valid f_500
  /\ validate_number "500" = Valid f_500
  /\ Z.abs (100 * 5764607523034235 - 2 ^ 59) * 2 <= 100
  /\ 8796093022208000 = 500 * 2 ^ 44.
Proof.
  split; [|split; [|split]].
  - intros txt. destruct (strip_split txt) as (l & r & Htxt & Hl & Hr).
    exists l, (strip txt), r. auto using strip_is_trimmed.
  - intros l core r Hl Hr Hcore. unfold validate_number.
    rewrite (strip_core l core r Hl Hr Hcore).
    destruct core as [|c s].
    + repeat split; intros; congruence.
    + repeat split; try congruence.
      * intros _ Hf. rewrite Hf. reflexivity.
      * intros v _ Hf Hle. rewrite Hf, Hle. reflexivity.
      * intros v _ Hf Hle. rewrite Hf, Hle. reflexivity.
  - intros txt Hb. unfold validate_number.
    replace txt with (txt ++ EmptyString ++ EmptyString).
    + now rewrite (strip_core txt EmptyString EmptyString Hb).
    + cbn [append]. clear. induction txt; cbn; congruence.
  - repeat split; try (vm_compute; reflexivity); vm_compute; congruence.
Qed.

Lemma validate_number_spec_witness :
  validate_number ("  " ++ "12.5" ++ " ")
  = Valid (S754_finite false 7036874417766400 (-49)).
Proof.
  destruct validate_number_spec as (_ & general & _).
  destruct (general "  " "12.5" " " eq_refl eq_refl eq_refl)
    as (_ & _ & _ & valid).
  apply valid.
  - discriminate.
  - vm_compute. reflexivity.
  - vm_compute. reflexivity.
Defined.

(** C10.  The validator accepts texts that parse to floats that are not
    finite: "inf" is valid with the positive infinity, "nan" is valid with
    the NaN, for which [v <= 0] is false; submitted as income, the infinity
    reaches the stored document. *)
Theorem validate_number_accepts_non_finite :
  validate_number "inf" = Valid (S754_infinity false)
  /\ isfinite (S754_infinity false) = false
  /\ validate_number "nan" = Valid S754_nan
  /\ fleb S754_nan fzero = false
  /\ isfinite S754_nan = false
  /\ (exists w,
         _submit_income (set_income_entry "inf" fresh) = Ret tt w
         /\ option_map (fun data => entry data "income" "Salary") (stored w)
            = Some (Some (VFloat (S754_infinity false)))).
Proof.
  repeat split; try (vm_compute; reflexivity).
  eexists. split; vm_compute; reflexivity.
Qed.

(* ================================================================== *)
(** * The summary store: loading *)
(* ================================================================== *)

Lemma default_entries (section cat : string) :
  In (section, cat) registry ->
  entry DEFAULT_SUMMARY section cat = Some (VFloat fzero).
Proof.
  unfold registry. simpl. intros H.
  repeat (destruct H as [H|H]; [injection H as <- <-; reflexivity|]).
  contradiction.
Qed.





(** ** Dictionaries *)

Lemma dict_get_set_same (d : dict) (k : string) (v : pyval) :
  dict_get (dict_set d k v) k = Some v.
Proof.
  induction d as [|[k' v'] d IH]; simpl.
  - now rewrite String.eqb_refl.
  - destruct (String.eqb k k') eqn:E; simpl; rewrite E; auto.
Qed.

Lemma dict_get_set_other (d : dict) (k k' : string) (v : pyval) :
  k' <> k -> dict_get (dict_set d k v) k' = dict_get d k'.
Proof.
  intros Hne. induction d as [|[k0 v0] d IH]; simpl.
  - destruct (String.eqb_spec k' k); congruence.
  - destruct (String.eqb_spec k k0) as [->|]; simpl.
    + destruct (String.eqb_spec k' k0); congruence.
    + now rewrite IH.
Qed.

Lemma dict_set_set (d : dict) (k : string) (v v' : pyval) :
  dict_set (dict_set d k v) k v' = dict_set d k v'.
Proof.
  induction d as [|[k0 v0] d IH]; simpl.
  - now rewrite String.eqb_refl.
  - destruct (String.eqb k k0) eqn:E; simpl; rewrite E; congruence.
Qed.

Create Rewrite HintDb dict.
#[local] Hint Rewrite dict_get_set_same dict_set_set : dict.

Lemma dict_set_same (d : dict) (k : string) (v : pyval) :
  dict_get d k = Some v -> dict_set d k v = d.
Proof.
  induction d as [|[k0 v0] d IH]; simpl; [discriminate|].
  destruct (String.eqb_spec k k0) as [->|]; intros H.
  - congruence.
  - now rewrite IH.
Qed.

Lemma dict_get_const (keys : list string) (v : pyval) (k : string) :
  In k keys -> dict_get (dict_const keys v) k = Some v.
Proof.
  induction keys as [|k0 keys IH]; simpl; [contradiction|].
  intros [->|H].
  - now rewrite String.eqb_refl.
  - destruct (String.eqb k k0); auto.
Qed.

(** ** The repair loop on a JSON object *)

Lemma mended_float (f : float) : mended (Some (VFloat f)) = f.
Proof. reflexivity. Qed.

Lemma convertible_float (f : float) : convertible (Some (VFloat f)) = true.
Proof. reflexivity. Qed.

(** One category: the value under [cat] becomes [mended], the flag is
    raised exactly when there was nothing [float] accepts. *)
Lemma repair_category_dict (section cat : string) (d sec : dict)
  (repairs : list string) (repaired : bool) :
  dict_get d section = Some (VDict sec) ->
  exists repairs',
    repair_category section (VDict d, repairs, repaired) cat
    = inr (VDict (dict_set d section (VDict (mend_category sec cat))),
           repairs',
           repaired || negb (convertible (dict_get sec cat))).
Proof.
  intros Hsec.
  unfold repair_category, mend_category, mended, convertible, py_setitem2,
    py_getitem, py_setitem, py_contains, ebind, dict_mem.
  rewrite Hsec.
  destruct (dict_get sec cat) as [v|] eqn:Hcat; cbn [negb].
  - rewrite Hsec, Hcat.
    destruct (py_float v) as [e|f]; rewrite ?Hsec; eexists;
      rewrite ?orb_false_r, ?orb_true_r; reflexivity.
  - autorewrite with dict. cbn [py_float]. autorewrite with dict.
    eexists. rewrite orb_true_r. reflexivity.
Qed.

Lemma mend_category_get_same (sec : dict) (cat : string) :
  dict_get (mend_category sec cat) cat
  = Some (VFloat (mended (dict_get sec cat))).
Proof. apply dict_get_set_same. Qed.

Lemma mend_category_get_other (sec : dict) (cat k : string) :
  k <> cat -> dict_get (mend_category sec cat) k = dict_get sec k.
Proof. apply dict_get_set_other. Qed.

(** Mending once more changes neither the value nor what [float] says. *)
Lemma mend_category_mended (sec : dict) (cat k : string) :
  mended (dict_get (mend_category sec cat) k) = mended (dict_get sec k).
Proof.
  destruct (String.eqb_spec k cat) as [->|Hne].
  - rewrite mend_category_get_same. apply mended_float.
  - now rewrite mend_category_get_other.
Qed.

Lemma mend_section_mended (expected : list string) (sec : dict) (k : string) :
  mended (dict_get (mend_section expected sec) k) = mended (dict_get sec k).
Proof.
  revert sec. induction expected as [|cat expected IH]; intros sec.
  - reflexivity.
  - cbn [mend_section fold_left]. fold (mend_section expected).
    rewrite IH. apply mend_category_mended.
Qed.

(** A key of the registry holds the mended float, any other key what it
    held. *)
Lemma mend_section_get (expected : list string) (sec : dict) (k : string) :
  dict_get (mend_section expected sec) k
  = if in_dec string_dec k expected
    then Some (VFloat (mended (dict_get sec k)))
    else dict_get sec k.
Proof.
  revert sec. induction expected as [|cat expected IH]; intros sec.
  - reflexivity.
  - cbn [mend_section fold_left]. fold (mend_section expected).
    rewrite IH.
    destruct (in_dec string_dec k expected) as [Hin|Hnin];
      destruct (in_dec string_dec k (cat :: expected)) as [Hin'|Hnin'].
    + now rewrite mend_category_mended.
    + exfalso. apply Hnin'. now right.
    + destruct Hin' as [->|Hin']; [|contradiction].
      apply mend_category_get_same.
    + apply mend_category_get_other. intros ->. apply Hnin'. now left.
Qed.

Lemma mend_get (expected : list string) (v : option pyval) (k : string) :
  In k expected ->
  dict_get (mend expected v) k
  = Some (VFloat (mended (match v with
                          | Some (VDict sec) => dict_get sec k
                          | _ => None
                          end))).
Proof.
  intros Hin. unfold mend.
  destruct v as [[| | | | | |sec]|]; try (now apply dict_get_const).
  rewrite mend_section_get.
  destruct (in_dec string_dec k expected); [reflexivity|contradiction].
Qed.

Lemma forallb_pointwise {A : Type} (f g : A -> bool) (l : list A) :
  (forall x, f x = g x) -> forallb f l = forallb g l.
Proof.
  intros Hfg. induction l as [|x l IH]; cbn; [reflexivity|].
  now rewrite Hfg, IH.
Qed.

(** The flag after a section that is a dict: raised exactly when some
    expected category held nothing [float] accepts. *)
Lemma repair_categories_dict (section : string) (expected : list string) :
  forall (d sec : dict) (repairs : list string) (repaired : bool),
    dict_get d section = Some (VDict sec) ->
    exists repairs',
      efold (repair_category section) expected (VDict d, repairs, repaired)
      = inr (VDict (dict_set d section (VDict (mend_section expected sec))),
             repairs',
             repaired
             || negb (forallb (fun cat => convertible (dict_get sec cat))
                        expected)).
Proof.
  induction expected as [|cat expected IH]; intros d sec repairs repaired Hsec.
  - exists repairs. cbn. rewrite orb_false_r.
    now rewrite (dict_set_same _ _ _ Hsec).
  - cbn [efold].
    destruct (repair_category_dict section cat d sec repairs repaired Hsec)
      as [repairs1 ->].
    cbn [ebind].
    destruct (IH (dict_set d section (VDict (mend_category sec cat)))
                (mend_category sec cat) repairs1
                (repaired || negb (convertible (dict_get sec cat)))
                (dict_get_set_same _ _ _)) as [repairs2 ->].
    exists repairs2. rewrite dict_set_set. cbn [mend_section fold_left forallb].
    f_equal. f_equal.
    destruct (convertible (dict_get sec cat)) eqn:Hc; cbn [negb andb].
    + rewrite orb_false_r. f_equal. f_equal.
      apply forallb_pointwise. intros k.
      destruct (String.eqb_spec k cat) as [->|Hne].
      * rewrite mend_category_get_same, Hc. reflexivity.
      * now rewrite mend_category_get_other.
    + now rewrite !orb_true_r.
Qed.

Lemma repair_section_dict (section : string) (expected : list string)
  (d : dict) (repairs : list string) (repaired : bool) :
  exists repairs',
    repair_section (VDict d, repairs, repaired) (section, expected)
    = inr (VDict (dict_set d section
                    (VDict (mend expected (dict_get d section)))),
           repairs',
           repaired || negb (section_intact expected (dict_get d section))).
Proof.
  unfold repair_section, py_contains, py_getitem, py_setitem, dict_mem, mend,
    section_intact.
  destruct (dict_get d section) as [v|] eqn:Hsec; cbn [negb ebind].
  - destruct v as [| | | | | |sec]; cbn [isinstance_dict negb];
      try (eexists; rewrite orb_true_r; reflexivity).
    apply repair_categories_dict. exact Hsec.
  - eexists. rewrite orb_true_r. reflexivity.
Qed.

Lemma intact_sections (d : dict) :
  intact (VDict d)
  = section_intact INCOME_CATEGORIES (dict_get d "income")
    && section_intact EXPENSE_CATEGORIES (dict_get d "expenses").
Proof.
  unfold intact, registry. rewrite forallb_app.
  unfold section_intact, entry. cbn [map forallb fst snd INCOME_CATEGORIES
                                      EXPENSE_CATEGORIES].
  destruct (dict_get d "income") as [[| | | | | |inc]|];
    destruct (dict_get d "expenses") as [[| | | | | |exp]|];
    cbn [convertible andb]; rewrite ?andb_false_r; reflexivity.
Qed.

(** The whole loop on a JSON object. *)
Lemma repair_dict (d : dict) :
  exists repairs,
    repair (VDict d)
    = inr (VDict (mend_document d), repairs, negb (intact (VDict d))).
Proof.
  unfold repair. cbn [efold].
  destruct (repair_section_dict "income" INCOME_CATEGORIES d [] false)
    as [repairs1 ->].
  cbn [ebind].
  destruct (repair_section_dict "expenses" EXPENSE_CATEGORIES
              (dict_set d "income"
                 (VDict (mend INCOME_CATEGORIES (dict_get d "income"))))
              repairs1
              (false || negb (section_intact INCOME_CATEGORIES
                                (dict_get d "income"))))
    as [repairs2 ->].
  cbn [ebind]. exists repairs2. unfold mend_document.
  rewrite dict_get_set_other by discriminate.
  rewrite intact_sections, negb_andb. reflexivity.
Qed.

Lemma in_registry (section cat : string) :
  In (section, cat) registry ->
  (section = "income" /\ In cat INCOME_CATEGORIES)
  \/ (section = "expenses" /\ In cat EXPENSE_CATEGORIES).
Proof.
  unfold registry. rewrite in_app_iff, !in_map_iff.
  intros [(c & Heq & Hin)|(c & Heq & Hin)]; injection Heq as <- <-; auto.
Qed.

(** What the repaired document holds for a registry category. *)
Lemma mend_document_entry (d : dict) (section cat : string) :
  In (section, cat) registry ->
  entry (VDict (mend_document d)) section cat
  = Some (VFloat (mended (entry (VDict d) section cat))).
Proof.
  intros Hin. unfold entry, mend_document.
  destruct (in_registry _ _ Hin) as [[-> Hcat]|[-> Hcat]].
  - rewrite dict_get_set_other by discriminate.
    rewrite dict_get_set_same, (mend_get _ _ _ Hcat).
    destruct (dict_get d "income") as [[| | | | | |sec]|]; reflexivity.
  - rewrite dict_get_set_same, (mend_get _ _ _ Hcat).
    destruct (dict_get d "expenses") as [[| | | | | |sec]|]; reflexivity.
Qed.

Lemma mend_document_complete (d : dict) :
  complete (VDict (mend_document d)) = true.
Proof.
  unfold complete. apply forallb_forall. intros [section cat] Hin.
  cbn [fst snd]. now rewrite (mend_document_entry d section cat Hin).
Qed.

Lemma mend_section_id (expected : list string) (sec : dict) :
  (forall cat, In cat expected -> is_float (dict_get sec cat) = true) ->
  mend_section expected sec = sec.
Proof.
  induction expected as [|cat expected IH]; intros Hfl; [reflexivity|].
  cbn [mend_section fold_left]. fold (mend_section expected).
  assert (Hcat : mend_category sec cat = sec).
  { unfold mend_category. specialize (Hfl cat (or_introl eq_refl)).
    destruct (dict_get sec cat) as [[| | |f| | |]|] eqn:E; try discriminate.
    now apply dict_set_same. }
  rewrite Hcat. apply IH. intros c Hc. apply Hfl. now right.
Qed.

Lemma complete_section (d : dict) (section : string) (expected : list string) :
  expected <> [] ->
  (forall cat, In cat expected ->
               is_float (entry (VDict d) section cat) = true) ->
  exists sec, dict_get d section = Some (VDict sec)
              /\ mend expected (dict_get d section) = sec.
Proof.
  intros Hne Hfl. destruct expected as [|c0 expected]; [congruence|].
  pose proof (Hfl c0 (or_introl eq_refl)) as H0. unfold entry in *.
  destruct (dict_get d section) as [[| | | | | |sec]|]; try discriminate H0.
  exists sec. split; [reflexivity|]. apply mend_section_id. exact Hfl.
Qed.

(** A complete document is left as it is. *)
Lemma mend_document_id (d : dict) :
  complete (VDict d) = true -> mend_document d = d.
Proof.
  unfold complete. rewrite forallb_forall. intros Hall.
  destruct (complete_section d "income" INCOME_CATEGORIES) as (inc & Hi & Hmi);
    [discriminate| |].
  { intros cat Hcat. apply (Hall ("income", cat)). unfold registry.
    apply in_or_app. left. now apply in_map. }
  destruct (complete_section d "expenses" EXPENSE_CATEGORIES)
    as (exp & He & Hme); [discriminate| |].
  { intros cat Hcat. apply (Hall ("expenses", cat)). unfold registry.
    apply in_or_app. right. now apply in_map. }
  unfold mend_document. rewrite Hmi, Hme.
  rewrite (dict_set_same d "income" _ Hi). now apply dict_set_same.
Qed.

Lemma complete_intact (data : pyval) :
  complete data = true -> intact data = true.
Proof.
  unfold complete, intact. rewrite !forallb_forall. intros H sc Hin.
  specialize (H sc Hin).
  destruct (entry data (fst sc) (snd sc)) as [[| | |f| | |]|];
    try discriminate; reflexivity.
Qed.

(** ** Loading a JSON object *)

Lemma load_object (w : world) (d : dict) :
  primary w = Some (Json (VDict d)) ->
  calm (if intact (VDict d) then 1 else 3) (faults w) = true ->
  exists repairs,
    load_summary_data w
    = Ret (VDict (mend_document d))
        (if intact (VDict d) then answered 1 w
         else add_dialog (Info "Repairs Made" (String.concat nl repairs))
                (answered 3
                   (with_primary (Some (Json (VDict (mend_document d)))) w))).
Proof.
  intros Hp Hcalm. destruct (repair_dict d) as [repairs Hrep].
  exists repairs.
  destruct w as [prog prim bak fs ds ie iv ee ev pg]. fields. subst prim.
  destruct (intact (VDict d)); answers; run; rewrite Hrep; reflexivity.
Qed.

(** A JSON text that is no object makes [load_summary_data] raise: the
    membership test, the subscript or the item assignment on it is a
    [TypeError], which nothing catches. *)
Lemma load_non_object_raises (w : world) (v : pyval) :
  primary w = Some (Json v) ->
  isinstance_dict v = false ->
  calm 1 (faults w) = true ->
  load_summary_data w = Raise TypeError (answered 1 w).
Proof.
  intros Hp Hv Hcalm.
  assert (Hrep : repair v = inl TypeError).
  { unfold repair. cbn [efold]. unfold repair_section, py_contains.
    destruct v as [| | | | s | l | d]; try discriminate Hv; try reflexivity.
    - destruct (is_substring "income" s); reflexivity.
    - destruct (existsb (is_str "income") l); reflexivity. }
  destruct w as [prog prim bak fs ds ie iv ee ev pg]. fields. subst prim.
  answers; run; rewrite Hrep; reflexivity.
Qed.

(** C1, as amended.  When the file holds a JSON object that lacks a section
    or a registry category, or holds under one a value [float] rejects, and
    the read and the write succeed, [load_summary_data] returns the repaired
    document and leaves it in the file, after the dialog "Repairs Made".  In
    the repaired document every registry category holds a float: the value
    [float] makes of what was there (an infinity or a NaN when the file said
    so), 0.0 where there was nothing or [float] raised. *)
Theorem load_repairs_object (w : world) (d : dict) :
  primary w = Some (Json (VDict d)) ->
  intact (VDict d) = false ->
  calm 3 (faults w) = true ->
  exists repairs w',
    load_summary_data w = Ret (VDict (mend_document d)) w'
    /\ w' = add_dialog (Info "Repairs Made" (String.concat nl repairs))
              (answered 3
                 (with_primary (Some (Json (VDict (mend_document d)))) w))
    /\ stored w' = Some (VDict (mend_document d))
    /\ complete (VDict (mend_document d)) = true
    /\ (forall section cat,
           In (section, cat) registry ->
           entry (VDict (mend_document d)) section cat
           = Some (VFloat (mended (entry (VDict d) section cat)))).
Proof.
  intros Hp Hbad Hcalm.
  destruct (load_object w d Hp) as [repairs Hload].
  { now rewrite Hbad. }
  rewrite Hbad in Hload. exists repairs. eexists.
  split; [exact Hload|]. split; [reflexivity|].
  split; [reflexivity|]. split; [apply mend_document_complete|].
  intros section cat. apply mend_document_entry.
Qed.

Lemma load_repairs_object_witness :
  exists repairs w',
    load_summary_data (with_primary (Some (Json doc_words)) fresh)
    = Ret (VDict (mend_document dict_words)) w'
    /\ w' = add_dialog (Info "Repairs Made" (String.concat nl repairs))
              (answered 3
                 (with_primary (Some (Json (VDict (mend_document dict_words))))
                    (with_primary (Some (Json doc_words)) fresh))).
Proof.
  destruct (load_repairs_object (with_primary (Some (Json doc_words)) fresh)
              dict_words eq_refl eq_refl eq_refl)
    as (repairs & w' & H1 & H2 & _).
  exists repairs, w'. split; assumption.
Defined.

(** What the repair makes of [doc_words]. *)
Example load_doc_words :
  match load_summary_data (with_primary (Some (Json doc_words)) fresh) with
  | Ret data w' =>
      entry data "income" "Salary" = Some (VFloat fzero)
      /\ entry data "income" "Gift"
         = Some (VFloat (S754_finite false 6755399441055744 (-51)))
      /\ entry data "income" "Investment" = Some (VFloat f_500)
      /\ entry data "income" "Other"
         = Some (VFloat (S754_finite false 7036874417766400 (-49)))
      /\ entry data "expenses" "Food" = Some (VFloat fzero)
      /\ stored w' = Some data
      /\ dialogs w'
         = [Info "Repairs Made"
              ("Reset invalid value for 'Salary' in 'income'." ++ nl
               ++ "Added or replaced section 'expenses'.")]
  | Raise _ _ => False
  end.
Proof. vm_compute. repeat split. Qed.

(** C1, as stated, fails: the file [doc_inf] parses as JSON and lacks the
    expenses section, yet the document [load_summary_data] returns for it
    holds an infinity, which is no finite number, as salary. *)
Lemma load_repair_not_finite :
  ~ (forall (w : world) (v : pyval),
        primary w = Some (Json v) ->
        intact v = false ->
        quiet (faults w) = true ->
        exists data w',
          load_summary_data w = Ret data w'
          /\ stored w' = Some data
          /\ (forall section cat,
                 In (section, cat) registry ->
                 exists f, entry data section cat = Some (VFloat f)
                           /\ isfinite f = true)).
Proof.
  intros stated.
  destruct (stated (with_primary (Some (Json doc_inf)) fresh) doc_inf
              eq_refl eq_refl eq_refl) as (data & w' & Hload & _ & Hfin).
  vm_compute in Hload. injection Hload as <- _.
  destruct (Hfin "income" "Salary") as (f & Hf & Hfinite).
  { vm_compute. auto. }
  vm_compute in Hf. injection Hf as <-. discriminate Hfinite.
Qed.

(* ================================================================== *)
(** * The summary store: saving *)
(* ================================================================== *)

(** The backup file is named after the summary file, with the backup
    suffix appended. *)
Lemma rsplit_dot_json (p : string) :
  rsplit_dot (p ++ "_summary.json") = Some (p ++ "_summary", ".json").
Proof.
  induction p as [|c p IH].
  - reflexivity.
  - change (rsplit_dot (String c p ++ "_summary.json"))
      with (match rsplit_dot (p ++ "_summary.json") with
            | Some (a, b) => Some (String c a, b)
            | None =>
                if Ascii.eqb c "." then Some (EmptyString, String c (p ++ "_summary.json"))
                else None
            end).
    now rewrite IH.
Qed.

Lemma backup_name_appended (w : world) :
  backup_name w = SUMMARY_FILENAME w ++ BACKUP_SUFFIX.
Proof.
  unfold backup_name, with_suffix, suffix, SUMMARY_FILENAME.
  rewrite rsplit_dot_json.
  assert (H : forall a b c : string, (a ++ b) ++ c = a ++ b ++ c).
  { intros a b c. induction a as [|x a IH]; cbn; congruence. }
  destruct (program w) as [|c p]; cbn [append]; [reflexivity|].
  rewrite !H. reflexivity.
Qed.

(** [save_summary_data] raises nothing, whatever fails. *)
Lemma save_returns (data : pyval) (w : world) :
  exists saved w', save_summary_data data w = Ret saved w'.
Proof.
  destruct w as [prog [c|] [b|] fs ds ie iv ee ev pg];
    unfold save_summary_data; unfold_io; run;
    repeat (next_answer; run); eexists; eexists; reflexivity.
Qed.

Lemma calm_0 (fs : list (option string)) : calm 0 fs = true.
Proof. destruct fs as [|[?|] ?]; reflexivity. Qed.

Lemma quiet_calm (n : nat) (fs : list (option string)) :
  quiet fs = true -> calm n fs = true.
Proof.
  revert n. induction fs as [|[t|] fs IH]; intros [|n] H; cbn in *;
    try reflexivity; try discriminate; auto.
Qed.

Lemma quiet_skipn (n : nat) (fs : list (option string)) :
  quiet fs = true -> quiet (skipn n fs) = true.
Proof.
  revert fs. induction n as [|n IH]; intros [|[t|] fs] H; cbn in *;
    try reflexivity; try discriminate; auto.
Qed.

(** C5.  [save_summary_data] raises nothing.  It first copies the primary
    file, when there is one, to the backup path, which is the summary path
    with the backup suffix appended, and goes on whether the copy fails or
    not.  It returns [True] exactly when neither call of the write fails;
    the document is then in the primary file, no dialog is shown, and the
    backup is deleted unless the delete fails, which is ignored.  When the
    write fails it returns [False] after the error dialog "Save Error" that
    names the backup file; the backup then holds the previous text whenever
    the copy succeeded. *)
Theorem save_summary_data_spec (data : pyval) (w : world) :
  backup_name w = SUMMARY_FILENAME w ++ BACKUP_SUFFIX
  /\ exists saved w',
    save_summary_data data w = Ret saved w'
    /\ saved = calm 2 (write_answers w)
    /\ (saved = true ->
        primary w' = Some (Json data)
        /\ dialogs w' = dialogs w
        /\ (calm 1 (delete_answers w) = true -> backup w' = None))
    /\ (saved = false ->
        (exists detail,
            dialogs w'
            = (dialogs w
               ++ [Error "Save Error"
                     ("Could not save summary. Backup preserved as '"
                      ++ backup_name w ++ "'." ++ nl
                      ++ "Details: " ++ detail)])%list)
        /\ primary w' = (if calm 1 (write_answers w) then Some Corrupt
                         else primary w))
    /\ (forall c, primary w = Some c -> calm 2 (faults w) = true ->
                  saved = false -> backup w' = Some c)
    /\ (quiet (faults w) = true -> saved = true /\ backup w' = None).
Proof.
  split; [apply backup_name_appended|].
  destruct w as [prog [c|] [b|] fs ds ie iv ee ev pg];
    unfold save_summary_data; unfold_io; run;
    repeat (next_answer; run);
    eexists; eexists; (split; [reflexivity|]);
    unfold write_answers, delete_answers, copy_answers; run;
    cbn [skipn calm]; rewrite ?calm_0; settle; try (eexists; reflexivity).
Qed.

Lemma save_summary_data_spec_witness :
  exists w',
    save_summary_data (doc_salary f_150) disk_full = Ret false w'
    /\ backup w' = Some (Json (doc_salary f_100))
    /\ primary w' = Some Corrupt.
Proof.
  destruct (save_summary_data_spec (doc_salary f_150) disk_full)
    as (_ & saved & w' & Hsave & Hsaved & _ & Hfail & Hcopy & _).
  change (calm 2 (write_answers disk_full)) with false in Hsaved. subst saved.
  exists w'. split; [exact Hsave|]. split.
  - apply Hcopy; reflexivity.
  - apply (proj2 (Hfail eq_refl)).
Defined.

(** ** A save that fails *)

(** What [load_summary_data] returns depends on the primary file and on the
    answers of the environment only. *)
Lemma load_value_ext (w w' : world) :
  primary w = primary w' -> faults w = faults w' ->
  load_value w = load_value w'.
Proof.
  destruct w as [prog prim bak fs ds ie iv ee ev pg].
  destruct w' as [prog' prim' bak' fs' ds' ie' iv' ee' ev' pg'].
  fields. intros <- <-.
  unfold load_value, load_summary_data. unfold_io.
  destruct prim as [[v|]|]; run; repeat (next_answer; run); try reflexivity;
    destruct (repair v) as [e|[[data repairs] [|]]]; run;
    repeat (next_answer; run); reflexivity.
Qed.

Lemma load_value_corrupt (w : world) :
  primary w = Some Corrupt -> calm 4 (faults w) = true ->
  load_value w = inr DEFAULT_SUMMARY.
Proof.
  intros Hp Hcalm.
  destruct w as [prog prim bak fs ds ie iv ee ev pg]. fields. subst prim.
  unfold load_value. answers; reflexivity.
Qed.

(** C6, as amended.  When [save_summary_data] returns [False], either the
    primary file could not be opened for writing: it is then untouched, and
    a load after the save returns what a load before it returns, nothing of
    the document that was to be saved; or the write failed with the file
    open: the file is then left with an incomplete text, for which a load
    returns the default document, and the previous text is in the backup
    file whenever the backup copy succeeded. *)
Theorem failed_save_leaves_file (data : pyval) (w w' : world) :
  save_summary_data data w = Ret false w' ->
  (calm 1 (write_answers w) = false ->
   primary w' = primary w
   /\ forall fs, load_value (set_faults fs w') = load_value (set_faults fs w))
  /\ (calm 1 (write_answers w) = true ->
      primary w' = Some Corrupt
      /\ forall fs, calm 4 fs = true ->
                    load_value (set_faults fs w') = inr DEFAULT_SUMMARY)
  /\ (forall c, primary w = Some c -> calm 2 (faults w) = true ->
                backup w' = Some c).
Proof.
  destruct w as [prog [c|] [b|] fs ds ie iv ee ev pg];
    unfold save_summary_data; unfold_io; run;
    repeat (next_answer; run);
    intros Hsave; try discriminate Hsave; injection Hsave as <-;
    unfold write_answers, copy_answers; run;
    cbn [skipn calm]; rewrite ?calm_0; settle;
    try (apply load_value_ext; reflexivity);
    try (apply load_value_corrupt; [reflexivity|assumption]).
Qed.

Lemma failed_save_leaves_file_witness :
  exists w',
    save_summary_data (doc_salary f_150) disk_full = Ret false w'
    /\ primary w' = Some Corrupt
    /\ load_value (set_faults [] w') = inr DEFAULT_SUMMARY
    /\ backup w' = Some (Json (doc_salary f_100)).
Proof.
  eexists. split; [reflexivity|].
  destruct (failed_save_leaves_file (doc_salary f_150) disk_full _ eq_refl)
    as (_ & Htorn & Hcopy).
  destruct (Htorn eq_refl) as [Hp Hload].
  split; [exact Hp|]. split; [apply Hload; reflexivity|].
  apply Hcopy; reflexivity.
Defined.

(** C6, as stated, fails: in the world [disk_full] the save of a salary of
    150.0 returns [False], yet a load after it returns the default document,
    every total 0.0, where a load before it returns the salary of 100.0. *)
Lemma failed_save_loses_document :
  ~ (forall (data : pyval) (w w' : world),
        save_summary_data data w = Ret false w' ->
        forall fs, quiet fs = true ->
                   load_value (set_faults fs w') = load_value (set_faults fs w)).
Proof.
  intros stated.
  specialize (stated (doc_salary f_150) disk_full _ eq_refl [] eq_refl).
  vm_compute in stated. discriminate stated.
Qed.

(* ================================================================== *)
(** * Load, then save *)
(* ================================================================== *)

(** A save in which nothing fails. *)
Lemma save_quiet (data : pyval) (w : world) :
  quiet (faults w) = true ->
  exists n,
    save_summary_data data w
    = Ret true
        (set_file Backup None
           (answered n (with_primary (Some (Json data)) w))).
Proof.
  destruct w as [prog [c|] [b|] fs ds ie iv ee ev pg]; fields; intros Hq;
    unfold save_summary_data; unfold_io; run;
    repeat (next_answer; run); cbn in Hq; try discriminate Hq;
    first [ exists 0%nat; reflexivity | exists 1%nat; reflexivity
          | exists 2%nat; reflexivity | exists 3%nat; reflexivity
          | exists 4%nat; reflexivity | exists 5%nat; reflexivity ].
Qed.

(** A load of a JSON object in which nothing fails. *)
Lemma load_quiet (w : world) (d : dict) :
  primary w = Some (Json (VDict d)) ->
  quiet (faults w) = true ->
  exists w1,
    load_summary_data w = Ret (VDict (mend_document d)) w1
    /\ quiet (faults w1) = true
    /\ (primary w1 = primary w
        \/ primary w1 = Some (Json (VDict (mend_document d))))
    /\ program w1 = program w
    /\ income_entry w1 = income_entry w /\ income_var w1 = income_var w
    /\ expense_entry w1 = expense_entry w /\ expense_var w1 = expense_var w
    /\ page w1 = page w.
Proof.
  intros Hp Hq. destruct (load_object w d Hp) as [repairs Hload].
  { now apply quiet_calm. }
  eexists. split; [exact Hload|].
  destruct (intact (VDict d)); destruct w; cbn -[skipn];
    (split; [now apply quiet_skipn|]); auto 10.
Qed.

(** C9.  With a JSON object in the file and nothing failing, [save(load())]
    twice in a row succeeds both times and persists, both times, the
    document the first load returned: the round trip is idempotent.  Under
    every registry category the persisted document holds what [float] makes
    of the original value; a category that held a float holds the same float
    afterwards, and when the original document is complete (every registry
    category holds a float) the persisted document is the original one. *)
Theorem save_load_twice (w : world) (d : dict) :
  primary w = Some (Json (VDict d)) ->
  quiet (faults w) = true ->
  exists w1 w2,
    save_load w = Ret true w1
    /\ save_load w1 = Ret true w2
    /\ stored w1 = Some (VDict (mend_document d))
    /\ stored w2 = stored w1
    /\ (forall section cat,
           In (section, cat) registry ->
           option_map (fun data => entry data section cat) (stored w2)
           = Some (Some (VFloat (mended (entry (VDict d) section cat)))))
    /\ (forall section cat f,
           In (section, cat) registry ->
           entry (VDict d) section cat = Some (VFloat f) ->
           option_map (fun data => entry data section cat) (stored w2)
           = Some (Some (VFloat f)))
    /\ (complete (VDict d) = true -> stored w2 = Some (VDict d)).
Proof.
  intros Hp Hq.
  destruct (load_quiet w d Hp Hq) as (wa & Hload & Hqa & _).
  destruct (save_quiet (VDict (mend_document d)) wa Hqa) as [n Hsave].
  set (w1 := set_file Backup None
               (answered n
                  (with_primary (Some (Json (VDict (mend_document d)))) wa)))
    in *.
  assert (Hp1 : primary w1 = Some (Json (VDict (mend_document d))))
    by reflexivity.
  assert (Hq1 : quiet (faults w1) = true)
    by (destruct wa; apply quiet_skipn; assumption).
  destruct (load_quiet w1 _ Hp1 Hq1) as (wb & Hload1 & Hqb & _).
  rewrite (mend_document_id _ (mend_document_complete d)) in Hload1.
  destruct (save_quiet (VDict (mend_document d)) wb Hqb) as [m Hsave1].
  exists w1. eexists.
  split; [unfold save_load, bind; now rewrite Hload|].
  split; [unfold save_load, bind; rewrite Hload1; exact Hsave1|].
  split; [reflexivity|]. split; [reflexivity|].
  cbn [stored primary set_file with_primary answered set_faults option_map].
  split; [|split].
  - intros section cat Hin.
    now rewrite (mend_document_entry d section cat Hin).
  - intros section cat f Hin Hf.
    rewrite (mend_document_entry d section cat Hin), Hf. reflexivity.
  - intros Hc. now rewrite (mend_document_id d Hc).
Qed.

Lemma save_load_twice_witness :
  exists w1 w2,
    save_load (with_primary (Some (Json (doc_salary f_100))) fresh)
    = Ret true w1
    /\ save_load w1 = Ret true w2
    /\ stored w2 = Some (doc_salary f_100).
Proof.
  destruct (save_load_twice
              (with_primary (Some (Json (doc_salary f_100))) fresh)
              _ eq_refl eq_refl)
    as (w1 & w2 & H1 & H2 & _ & _ & _ & _ & Hsame).
  exists w1, w2. split; [exact H1|]. split; [exact H2|].
  apply Hsame. reflexivity.
Defined.

(** C9, as stated, fails: with the complete document [dict_odd] in the
    file, whose salary is the integer 2^53 + 1, and nothing failing,
    [save(load())] twice in a row succeeds both times and shows no dialog,
    yet the salary persisted is the float 2^53, which is not equal to the
    original. *)
Lemma save_load_rounds_integer :
  ~ (forall (w w1 w2 : world) (d : dict),
        primary w = Some (Json (VDict d)) ->
        numbers (VDict d) = true ->
        quiet (faults w) = true ->
        save_load w = Ret true w1 ->
        save_load w1 = Ret true w2 ->
        exists data,
          stored w2 = Some data /\ same_values (VDict d) data = true).
Proof.
  intros stated.
  destruct (stated (with_primary (Some (Json (VDict dict_odd))) fresh)
              (with_primary (Some (Json (doc_salary f_2_53))) fresh)
              (with_primary (Some (Json (doc_salary f_2_53))) fresh)
              dict_odd eq_refl eq_refl eq_refl eq_refl eq_refl)
    as (data & Hstored & Hsame).
  injection Hstored as <-. vm_compute in Hsame. discriminate Hsame.
Qed.

(* ================================================================== *)
(** * Submitting an amount *)
(* ================================================================== *)

Lemma bind_Ret {A B : Type} (c : M A) (k : A -> M B) (w w1 : world) (a : A) :
  c w = Ret a w1 -> bind c k w = k a w1.
Proof. intros H. unfold bind. now rewrite H. Qed.

Lemma bind_gets {A B : Type} (f : world -> A) (k : A -> M B) (w : world) :
  bind (gets f) k w = k (f w) w.
Proof. reflexivity. Qed.

Lemma bind_lift {A B : Type} (r : res A) (k : A -> M B) (w : world) (a : A) :
  r = inr a -> bind (lift r) k w = k a w.
Proof. intros ->. reflexivity. Qed.

(** [data[section][cat] += v] on a float: that entry grows by [v], every
    other entry stays. *)
Lemma add_to_entry (data : pyval) (section cat : string) (old v : float) :
  entry data section cat = Some (VFloat old) ->
  exists data',
    (let! sec := py_getitem data section in
     let! x := py_getitem sec cat in
     let! new := py_add_float x v in
     py_setitem2 data section cat new) = inr data'
    /\ entry data' section cat = Some (VFloat (fadd old v))
    /\ (forall s c, (s, c) <> (section, cat) ->
                    entry data' s c = entry data s c).
Proof.
  unfold entry. destruct data as [| | | | | |d]; try discriminate.
  destruct (dict_get d section) as [[| | | | | |sec]|] eqn:Hsec;
    try discriminate.
  intros Hcat. eexists.
  unfold py_setitem2, py_getitem, py_setitem, ebind. rewrite Hsec, Hcat.
  cbn [py_add_float as_float py_float ebind]. split; [reflexivity|].
  split.
  - now autorewrite with dict.
  - intros s c Hne. destruct (String.eqb_spec s section) as [->|Hs].
    + rewrite dict_get_set_same, Hsec. apply dict_get_set_other. congruence.
    + now rewrite dict_get_set_other.
Qed.

Lemma in_income (cat : string) :
  In cat INCOME_CATEGORIES -> In ("income", cat) registry.
Proof. intros H. apply in_or_app. left. now apply in_map. Qed.

Lemma in_expenses (cat : string) :
  In cat EXPENSE_CATEGORIES -> In ("expenses", cat) registry.
Proof. intros H. apply in_or_app. right. now apply in_map. Qed.



(* ================================================================== *)
(** * The summary calculator *)
(* ================================================================== *)

(** A total is the [int] [0] or a float, so the difference of two totals
    is defined. *)
Lemma total_shape (data : pyval) (section : string) (t : pyval) :
  total data section = inr t ->
  (t = VInt 0 \/ exists f, t = VFloat f)
  /\ exists sec, py_get data section = inr sec.
Proof.
  unfold total, ebind.
  destruct (py_get data section) as [e|sec]; [discriminate|].
  destruct (py_values sec) as [e|vs]; [discriminate|].
  destruct (floats vs) as [e|fs]; [discriminate|].
  intros H. injection H as <-. split; [|now exists sec].
  destruct fs; [now left|right; eexists; reflexivity].
Qed.

Lemma py_sub_totals (a b : pyval) :
  (a = VInt 0 \/ exists f, a = VFloat f) ->
  (b = VInt 0 \/ exists f, b = VFloat f) ->
  exists net, py_sub a b = inr net.
Proof.
  intros [->|[f ->]] [->|[g ->]]; eexists; reflexivity.
Qed.

(** The totals are defined when every value of the two mappings is one
    [float] accepts; the repaired registry categories are, other keys need
    not be. *)
Lemma floats_defined (vs : list pyval) :
  forallb (fun v => convertible (Some v)) vs = true ->
  exists fs, floats vs = inr fs.
Proof.
  induction vs as [|v vs IH]; cbn [forallb floats convertible].
  - now exists [].
  - rewrite andb_true_iff. intros [Hv Hvs].
    destruct (py_float v) as [e|f]; [discriminate|].
    destruct (IH Hvs) as [fs ->]. eexists. reflexivity.
Qed.

Lemma numeric_set (sec : dict) (k : string) (f : float) :
  numeric sec = true -> numeric (dict_set sec k (VFloat f)) = true.
Proof.
  unfold numeric. induction sec as [|[k0 v0] sec IH]; cbn [dict_set forallb].
  - reflexivity.
  - rewrite andb_true_iff. intros [H0 Hsec]. cbn [snd] in H0.
    destruct (String.eqb k k0); cbn [forallb snd].
    + exact Hsec.
    + rewrite H0. now apply IH.
Qed.

Lemma numeric_mend (expected : list string) (v : option pyval) :
  numeric_section v = true -> numeric (mend expected v) = true.
Proof.
  unfold mend.
  assert (Hconst : numeric (dict_const expected (VFloat fzero)) = true).
  { unfold numeric, dict_const. induction expected; cbn; auto. }
  destruct v as [[| | | | | |sec]|]; auto.
  cbn [numeric_section]. clear Hconst. revert sec.
  induction expected as [|cat expected IH]; intros sec Hsec; [exact Hsec|].
  cbn [mend_section fold_left]. apply IH. now apply numeric_set.
Qed.

Lemma total_numeric (d sec : dict) (section : string) :
  dict_get d section = Some (VDict sec) ->
  numeric sec = true ->
  exists t, total (VDict d) section = inr t.
Proof.
  intros Hsec Hnum. unfold total, py_get, py_values, ebind. rewrite Hsec.
  destruct (floats_defined (map snd sec)) as [fs ->].
  - unfold numeric in Hnum. clear Hsec.
    induction sec as [|kv sec IH]; cbn [map forallb] in *; [reflexivity|].
    apply andb_true_iff in Hnum as [H0 Hnum]. rewrite H0. now apply IH.
  - eexists. reflexivity.
Qed.

(** After the load of a JSON object both totals are defined, provided the
    keys the file holds besides the registry have values [float] accepts. *)
Lemma totals_defined (d : dict) :
  numeric_section (dict_get d "income") = true ->
  numeric_section (dict_get d "expenses") = true ->
  exists ti te,
    total (VDict (mend_document d)) "income" = inr ti
    /\ total (VDict (mend_document d)) "expenses" = inr te.
Proof.
  intros Hi He.
  destruct (total_numeric (mend_document d)
              (mend INCOME_CATEGORIES (dict_get d "income")) "income")
    as [ti Hti].
  { unfold mend_document. rewrite dict_get_set_other by discriminate.
    apply dict_get_set_same. }
  { now apply numeric_mend. }
  destruct (total_numeric (mend_document d)
              (mend EXPENSE_CATEGORIES (dict_get d "expenses")) "expenses")
    as [te Hte].
  { apply dict_get_set_same. }
  { now apply numeric_mend. }
  now exists ti, te.
Qed.






(* ================================================================== *)
(** * Further properties of the summary store *)
(* ================================================================== *)

(** X1.  When the file is there but reading it fails with anything other
    than a decoding error, [load_summary_data] shows the error dialog "File
    Error" with the text of the error and returns the default document;
    the file is left as it was, whatever it holds, and nothing is written. *)
Theorem load_read_error (w : world) (c : content) (text : string)
  (fs : list (option string)) :
  primary w = Some c ->
  faults w = Some text :: fs ->
  load_summary_data w
  = Ret DEFAULT_SUMMARY
      (add_dialog
         (Error "File Error" ("Unable to read summary file:" ++ nl ++ text))
         (answered 1 w))
  /\ primary (answered 1 w) = Some c.
Proof.
  intros Hp Hf.
  destruct w as [prog prim bak fs0 ds ie iv ee ev pg]. fields. subst prim fs0.
  split; reflexivity.
Qed.

Lemma load_read_error_witness :
  load_summary_data
    (set_faults [Some "Permission denied"]
       (with_primary (Some (Json (doc_salary f_100))) fresh))
  = Ret DEFAULT_SUMMARY
      (add_dialog
         (Error "File Error"
            ("Unable to read summary file:" ++ nl ++ "Permission denied"))
         (with_primary (Some (Json (doc_salary f_100))) fresh)).
Proof.
  exact (proj1 (load_read_error
                  (set_faults [Some "Permission denied"]
                     (with_primary (Some (Json (doc_salary f_100))) fresh))
                  _ _ _ eq_refl eq_refl)).
Defined.

Lemma repair_non_object (v : pyval) :
  isinstance_dict v = false -> repair v = inl TypeError.
Proof.
  intros Hv. unfold repair. cbn [efold]. unfold repair_section, py_contains.
  destruct v as [| | | | s | l | d]; try discriminate Hv; try reflexivity.
  - destruct (is_substring "income" s); reflexivity.
  - destruct (existsb (is_str "income") l); reflexivity.
Qed.

(** What the loop makes of any decoded value. *)
Lemma repair_cases (v : pyval) :
  repair v = inl TypeError
  \/ exists d repairs repaired,
       v = VDict d /\ repair v = inr (VDict (mend_document d), repairs, repaired).
Proof.
  destruct (isinstance_dict v) eqn:Hv.
  - right. destruct v as [| | | | | |d]; try discriminate Hv.
    destruct (repair_dict d) as [repairs Hrep].
    exists d, repairs, (negb (intact (VDict d))). now split.
  - left. now apply repair_non_object.
Qed.

Lemma default_complete : complete DEFAULT_SUMMARY = true.
Proof. reflexivity. Qed.

(** X3.  Whatever the file holds and whatever fails, a document that
    [load_summary_data] returns is complete: every registry category of
    both mappings is there and holds a float. *)
Theorem load_returns_complete (w w' : world) (data : pyval) :
  load_summary_data w = Ret data w' -> complete data = true.
Proof.
  destruct w as [prog [[v|]|] bak fs ds ie iv ee ev pg];
    unfold load_summary_data; unfold_io; run.
  - destruct (repair_cases v) as [Hrep|(d & repairs & repaired & -> & Hrep)];
      repeat (next_answer; run); rewrite ?Hrep; run;
      try destruct repaired; run; repeat (next_answer; run);
      intros H; try discriminate H; injection H as <- _;
      first [apply default_complete | apply mend_document_complete].
  - repeat (next_answer; run);
      intros H; try discriminate H; injection H as <- _;
      apply default_complete.
  - repeat (next_answer; run);
      intros H; try discriminate H; injection H as <- _;
      apply default_complete.
Qed.

Lemma load_returns_complete_witness :
  complete (VDict (mend_document dict_words)) = true.
Proof.
  apply (load_returns_complete (with_primary (Some (Json doc_words)) fresh)
           (final (load_summary_data
                     (with_primary (Some (Json doc_words)) fresh)))).
  vm_compute. reflexivity.
Defined.

(** X4.  With a JSON object in the file and nothing failing, a second
    [load_summary_data] right after a first returns the same document and
    leaves the world as it found it, one answer apart: it writes nothing
    and shows no dialog, whether the first load had to repair or not. *)
Theorem load_twice (w : world) (d : dict) :
  primary w = Some (Json (VDict d)) ->
  quiet (faults w) = true ->
  exists w1,
    load_summary_data w = Ret (VDict (mend_document d)) w1
    /\ load_summary_data w1 = Ret (VDict (mend_document d)) (answered 1 w1).
Proof.
  intros Hp Hq.
  destruct (load_object w d Hp) as [repairs Hload];
    [now apply quiet_calm|].
  eexists. split; [exact Hload|].
  destruct (intact (VDict d)) eqn:Hint.
  - destruct (load_object (answered 1 w) d) as [repairs1 Hload1].
    + destruct w; exact Hp.
    + rewrite Hint. destruct w; cbn -[skipn]. apply quiet_calm.
      now apply quiet_skipn.
    + now rewrite Hint in Hload1.
  - set (w1 := add_dialog _ _).
    destruct (load_object w1 (mend_document d)) as [repairs1 Hload1].
    + reflexivity.
    + rewrite (complete_intact _ (mend_document_complete d)).
      destruct w; cbn -[skipn]. apply quiet_calm. now apply quiet_skipn.
    + rewrite (complete_intact _ (mend_document_complete d)) in Hload1.
      now rewrite (mend_document_id _ (mend_document_complete d)) in Hload1.
Qed.

Lemma load_twice_witness :
  exists w1,
    load_summary_data (with_primary (Some (Json doc_words)) fresh)
    = Ret (VDict (mend_document dict_words)) w1
    /\ load_summary_data w1
       = Ret (VDict (mend_document dict_words)) (answered 1 w1).
Proof.
  exact (load_twice (with_primary (Some (Json doc_words)) fresh) dict_words
           eq_refl eq_refl).
Defined.

Lemma dict_get_const_other (keys : list string) (v : pyval) (k : string) :
  ~ In k keys -> dict_get (dict_const keys v) k = None.
Proof.
  induction keys as [|k0 keys IH]; cbn; [reflexivity|].
  intros Hnin. destruct (String.eqb_spec k k0) as [->|Hne].
  - exfalso. apply Hnin. now left.
  - apply IH. intros H. apply Hnin. now right.
Qed.

(** X5.  The repair touches the registry only: in the document
    [load_summary_data] returns for a JSON object, a top-level key other
    than the two sections holds what the file held, and so does every key
    of a section that is a mapping, unless it is a registry category of
    that section. *)
Theorem load_keeps_extras (w : world) (d : dict) :
  primary w = Some (Json (VDict d)) ->
  calm 3 (faults w) = true ->
  exists w',
    load_summary_data w = Ret (VDict (mend_document d)) w'
    /\ (forall k, k <> "income" -> k <> "expenses" ->
                  dict_get (mend_document d) k = dict_get d k)
    /\ (forall sec k,
           dict_get d "income" = Some (VDict sec) ->
           ~ In k INCOME_CATEGORIES ->
           entry (VDict (mend_document d)) "income" k = dict_get sec k)
    /\ (forall sec k,
           dict_get d "expenses" = Some (VDict sec) ->
           ~ In k EXPENSE_CATEGORIES ->
           entry (VDict (mend_document d)) "expenses" k = dict_get sec k).
Proof.
  intros Hp Hcalm.
  destruct (load_object w d Hp) as [repairs Hload].
  { destruct (intact (VDict d)); [|exact Hcalm].
    destruct (faults w) as [|[t|] fs]; cbn in *; try congruence.
    apply calm_0. }
  eexists. split; [exact Hload|]. unfold mend_document, entry.
  split; [|split].
  - intros k Hi He. now rewrite !dict_get_set_other.
  - intros sec k Hsec Hnin. rewrite dict_get_set_other by discriminate.
    rewrite dict_get_set_same, Hsec. cbn [mend]. rewrite mend_section_get.
    destruct (in_dec string_dec k INCOME_CATEGORIES); [contradiction|].
    reflexivity.
  - intros sec k Hsec Hnin. rewrite dict_get_set_same, Hsec. cbn [mend].
    rewrite mend_section_get.
    destruct (in_dec string_dec k EXPENSE_CATEGORIES); [contradiction|].
    reflexivity.
Qed.

Lemma load_keeps_extras_witness :
  exists w',
    load_summary_data (with_primary (Some (Json (VDict dict_extras))) fresh)
    = Ret (VDict (mend_document dict_extras)) w'
    /\ entry (VDict (mend_document dict_extras)) "income" "Bonus"
       = Some (VStr "soon")
    /\ dict_get (mend_document dict_extras) "note" = Some (VStr "mine").
Proof.
  destruct (load_keeps_extras
              (with_primary (Some (Json (VDict dict_extras))) fresh)
              dict_extras eq_refl eq_refl)
    as (w' & Hload & Htop & Hinc & _).
  exists w'. split; [exact Hload|]. split.
  - rewrite (Hinc [("Salary", VFloat f_100); ("Bonus", VStr "soon")] "Bonus");
      [reflexivity|reflexivity|].
    cbn. intros H. repeat (destruct H as [H|H]; [discriminate H|]). exact H.
  - rewrite Htop; [reflexivity|discriminate|discriminate].
Defined.

(** X6.  When there is no file and the default document cannot be written,
    [load_summary_data] raises the error of the file system instead of
    returning, and shows no dialog: if the file cannot be opened there is
    still no file; if the write fails with the file open, an empty file is
    left, which the next load finds corrupted. *)
Theorem load_create_fails (w : world) (text : string)
  (fs : list (option string)) :
  primary w = None ->
  (faults w = Some text :: fs ->
   load_summary_data w = Raise (OSError text) (answered 1 w))
  /\ (faults w = None :: Some text :: fs ->
      load_summary_data w
      = Raise (OSError text) (answered 2 (with_primary (Some Corrupt) w))).
Proof.
  intros Hp.
  destruct w as [prog prim bak fs0 ds ie iv ee ev pg]. fields. subst prim.
  split; intros ->; reflexivity.
Qed.

Lemma load_create_fails_witness :
  load_summary_data (set_faults [None; Some "No space left on device"] fresh)
  = Raise (OSError "No space left on device")
      (with_primary (Some Corrupt) fresh).
Proof.
  exact (proj2 (load_create_fails
                  (set_faults [None; Some "No space left on device"] fresh)
                  _ _ eq_refl) eq_refl).
Defined.

(** X7.  A save in which nothing fails, followed by a load, gives the
    saved document back when that is complete; the load shows no dialog
    and leaves the document in the file. *)
Theorem save_then_load (w : world) (d : dict) :
  complete (VDict d) = true ->
  quiet (faults w) = true ->
  exists w1 w2,
    save_summary_data (VDict d) w = Ret true w1
    /\ load_summary_data w1 = Ret (VDict d) w2
    /\ dialogs w2 = dialogs w
    /\ stored w2 = Some (VDict d)
    /\ backup w2 = None.
Proof.
  intros Hc Hq.
  destruct (save_quiet (VDict d) w Hq) as [n Hsave].
  set (w1 := set_file Backup None _) in Hsave.
  destruct (load_object w1 d eq_refl) as [repairs Hload].
  { destruct w. cbn -[skipn]. apply quiet_calm. now apply quiet_skipn. }
  rewrite (complete_intact _ Hc), (mend_document_id d Hc) in Hload.
  exists w1, (answered 1 w1). split; [exact Hsave|].
  split; [exact Hload|]. destruct w; repeat split.
Qed.

Lemma save_then_load_witness :
  exists w1 w2,
    save_summary_data (doc_salary f_150)
      (with_primary (Some (Json (doc_salary f_100))) fresh) = Ret true w1
    /\ load_summary_data w1 = Ret (doc_salary f_150) w2
    /\ stored w2 = Some (doc_salary f_150).
Proof.
  destruct (save_then_load
              (with_primary (Some (Json (doc_salary f_100))) fresh)
              _ (eq_refl : complete (doc_salary f_150) = true) eq_refl)
    as (w1 & w2 & H1 & H2 & _ & H3 & _).
  exists w1, w2. auto.
Defined.

(** The widgets survive a load and a save, and the dialogs only grow. *)
Lemma same_form_refl (w : world) : same_form w w.
Proof.
  repeat split. exists []. now rewrite app_nil_r.
Qed.

Ltac form :=
  repeat split;
  first [ exists []; cbn; now rewrite app_nil_r
        | eexists; cbn; reflexivity
        | eexists; cbn; rewrite <- app_assoc; reflexivity ].

Lemma load_same_form (w : world) :
  same_form w (final (load_summary_data w)).
Proof.
  destruct w as [prog [[v|]|] bak fs ds ie iv ee ev pg];
    unfold load_summary_data; unfold_io; run.
  - repeat (next_answer; run); try form;
      destruct (repair v) as [e|[[data repairs] [|]]]; run;
      repeat (next_answer; run); form.
  - repeat (next_answer; run); form.
  - repeat (next_answer; run); form.
Qed.

Lemma save_same_form (data : pyval) (w : world) :
  same_form w (final (save_summary_data data w)).
Proof.
  destruct w as [prog [c|] [b|] fs ds ie iv ee ev pg];
    unfold save_summary_data; unfold_io; run;
    repeat (next_answer; run); form.
Qed.

(** X8.  The store never touches the form: after [load_summary_data] and
    after [save_summary_data], whether they return or raise and whatever
    fails, the program name, both entry fields, both selected categories
    and the page are what they were, and every dialog shown before is still
    there, in order, before the new ones. *)
Theorem store_keeps_form (data : pyval) (w : world) :
  same_form w (final (load_summary_data w))
  /\ same_form w (final (save_summary_data data w)).
Proof.
  split; [apply load_same_form|apply save_same_form].
Qed.

(* ================================================================== *)
(** * Further properties of the input validator *)
(* ================================================================== *)

(** X9.  An amount [validate_number] accepts is never zero and never
    negative: it is a positive number, the positive infinity or a NaN.  A
    text it rejects gets one of its three messages. *)
Theorem validate_number_range (txt : string) :
  (forall v, validate_number txt = Valid v ->
             match v with
             | S754_zero _ => False
             | S754_infinity s | S754_finite s _ _ => s = false
             | S754_nan => True
             end)
  /\ (forall message, validate_number txt = Invalid message ->
                      message = "No input provided."
                      \/ message = not_a_number
                      \/ message = "Value must be greater than 0.").
Proof.
  unfold validate_number. destruct (strip txt) as [|c s].
  - split; intros x H; [discriminate H|injection H as <-; auto].
  - destruct (float_of_str (String c s)) as [v|].
    + destruct (fleb v fzero) eqn:Hle; split; intros x H;
        try discriminate H; injection H as <-; auto.
      destruct v as [s0|[|]|  |[|] m e]; try discriminate Hle;
        reflexivity || exact I.
    + split; intros x H; [discriminate H|injection H as <-; auto].
Qed.

Lemma validate_number_range_witness :
  match f_0_01 with
  | S754_zero _ => False
  | S754_infinity s | S754_finite s _ _ => s = false
  | S754_nan => True
  end.
Proof.
  apply (proj1 (validate_number_range "0.01") f_0_01).
  vm_compute. reflexivity.
Defined.

(** X10.  White space around the amount does not matter: a text padded
    with white space on either side is judged as the text itself. *)
Theorem validate_number_padding (l txt r : string) :
  blank l = true -> blank r = true ->
  validate_number (l ++ txt ++ r) = validate_number txt.
Proof.
  intros Hl Hr.
  assert (Hs : strip (l ++ txt ++ r) = strip txt).
  { unfold strip at 1. rewrite (lstrip_blank _ _ Hl).
    now apply strip_blank_right. }
  unfold validate_number. now rewrite Hs.
Qed.

Lemma validate_number_padding_witness :
  validate_number ("  " ++ "12.5" ++ String (ascii_of_nat 9) " ")
  = validate_number "12.5".
Proof.
  apply validate_number_padding; reflexivity.
Defined.

(** ** What a text the validator accepts is made of *)

Lemma lstrip_keeps (space : ascii -> bool) (s : string) (c : ascii) :
  In c (chars s) -> space c = false -> In c (chars (lstrip space s)).
Proof.
  induction s as [|c0 s IH]; cbn [chars lstrip]; [auto|].
  intros [->|Hin] Hc.
  - rewrite Hc. now left.
  - destruct (space c0); [now apply IH|now right].
Qed.

Lemma rstrip_keeps (space : ascii -> bool) (s : string) (c : ascii) :
  In c (chars s) -> space c = false -> In c (chars (rstrip space s)).
Proof.
  induction s as [|c0 s IH]; cbn [chars rstrip]; [auto|].
  intros [->|Hin] Hc.
  - destruct (rstrip space s); [rewrite Hc|]; now left.
  - specialize (IH Hin Hc).
    destruct (rstrip space s); [contradiction|now right].
Qed.

Lemma isspace_float_isspace (c : ascii) :
  isspace c = false -> isspace_float c = false.
Proof.
  unfold isspace, isspace_float. set (n := code c).
  rewrite !orb_false_iff, !andb_false_iff, !Z.leb_gt, !Z.eqb_neq. lia.
Qed.

Lemma digits_chars (s : string) :
  forall acc n a m rest c,
    digits s acc n = (a, m, rest) ->
    In c (chars s) -> isdigit c = true \/ In c (chars rest).
Proof.
  induction s as [|c0 s IH]; intros acc n a m rest c; cbn [digits chars].
  - intros _ [].
  - destruct (isdigit c0) eqn:Hd.
    + intros Hdig [->|Hin]; [now left|]. exact (IH _ _ _ _ _ _ Hdig Hin).
    + intros Hdig Hin. injection Hdig as _ _ <-. now right.
Qed.

Lemma sign_chars (s u : string) (neg : bool) (c : ascii) :
  sign s = (neg, u) ->
  In c (chars s) -> c = "+"%char \/ c = "-"%char \/ In c (chars u).
Proof.
  unfold sign. destruct s as [|c0 s]; [intros _ []|].
  destruct (Ascii.eqb_spec c0 "-") as [->|Hm].
  - intros H [<-|Hin]; [auto|]. injection H as _ <-. auto.
  - destruct (Ascii.eqb_spec c0 "+") as [->|Hp].
    + intros H [<-|Hin]; [auto|]. injection H as _ <-. auto.
    + intros H Hin.
      assert (Hu : u = String c0 s).
      { destruct c0 as [[|] [|] [|] [|] [|] [|] [|] [|]];
          try (injection H as _ <-; reflexivity); congruence. }
      subst u. auto.
Qed.

Lemma drop_underscores_chars (s : string) :
  forall prev t c,
    drop_underscores prev s = Some t ->
    In c (chars s) -> c = "_"%char \/ In c (chars t).
Proof.
  induction s as [|c0 s IH]; intros prev t c; cbn [drop_underscores chars].
  - intros _ [].
  - destruct (Ascii.eqb_spec c0 "_") as [->|Hne].
    + destruct (isdigit prev); [|discriminate].
      intros H [<-|Hin]; [now left|]. exact (IH _ _ _ H Hin).
    + destruct (Ascii.eqb prev "_" && negb (isdigit c0)); [discriminate|].
      destruct (drop_underscores c0 s) as [t'|] eqn:Hrest; [|discriminate].
      cbn [option_map]. intros H. injection H as <-. cbn [chars].
      intros [<-|Hin]; [right; now left|].
      destruct (IH _ _ _ Hrest Hin); auto. right. now right.
Qed.

Lemma float_char_digit (c : ascii) : isdigit c = true -> float_char c = true.
Proof. intros H. unfold float_char. now rewrite H. Qed.

Lemma float_char_letter (c : ascii) :
  In (lower c) ["e"; "i"; "n"; "f"; "t"; "y"; "a"]%char ->
  float_char c = true.
Proof.
  intros H. unfold float_char.
  assert (Hl : existsb (Ascii.eqb (lower c))
                 ["e"; "i"; "n"; "f"; "t"; "y"; "a"]%char = true).
  { apply existsb_exists. exists (lower c). split; [exact H|].
    apply Ascii.eqb_refl. }
  rewrite Hl. apply orb_true_r.
Qed.

Lemma lower_chars (s : string) (c : ascii) :
  In c (chars s) -> In (lower c) (chars (lower_str s)).
Proof.
  induction s as [|c0 s IH]; cbn [chars lower_str]; [auto|].
  intros [->|Hin]; [now left|right; now apply IH].
Qed.

Lemma inf_or_nan_chars (neg : bool) (s : string) (f : float) (c : ascii) :
  inf_or_nan neg s = Some f -> In c (chars s) -> float_char c = true.
Proof.
  unfold inf_or_nan. intros H Hin. apply lower_chars in Hin.
  apply float_char_letter.
  destruct (String.eqb_spec (lower_str s) "inf") as [E|_].
  { rewrite E in Hin. cbn in Hin. cbn. tauto. }
  destruct (String.eqb_spec (lower_str s) "infinity") as [E|_].
  { rewrite E in Hin. cbn in Hin. cbn. tauto. }
  destruct (String.eqb_spec (lower_str s) "nan") as [E|_].
  { rewrite E in Hin. cbn in Hin. cbn. tauto. }
  discriminate H.
Qed.

Lemma exponent_chars (s rest : string) (e : Z) (c : ascii) :
  exponent s = Some (e, rest) ->
  In c (chars s) -> float_char c = true \/ In c (chars rest).
Proof.
  unfold exponent. destruct s as [|c0 s]; [discriminate|].
  destruct (Ascii.eqb_spec (lower c0) "e") as [He|]; [|discriminate].
  destruct (sign s) as [neg s1] eqn:Hsign.
  destruct (digits s1 0 0) as [[e' n] r] eqn:Hdig.
  destruct (0 <? n); [|discriminate].
  intros H. injection H as _ <-. cbn [chars]. intros [<-|Hin].
  - left. apply float_char_letter. rewrite He. now left.
  - destruct (sign_chars _ _ _ _ Hsign Hin) as [->|[->|Hin1]];
      [left; reflexivity|left; reflexivity|].
    destruct (digits_chars _ _ _ _ _ _ _ Hdig Hin1);
      [left; now apply float_char_digit|now right].
Qed.

Lemma decimal_chars (neg : bool) (s : string) (f : float) (c : ascii) :
  decimal neg s = Some f -> In c (chars s) -> float_char c = true.
Proof.
  unfold decimal.
  destruct (digits s 0 0) as [[ip ni] s1] eqn:Hint.
  intros H Hin.
  destruct (digits_chars _ _ _ _ _ _ _ Hint Hin) as [Hd|Hin1];
    [now apply float_char_digit|].
  assert (Htail : forall m nf s2,
             (if 0 <? ni + nf
              then match s2 with
                   | EmptyString => Some (round_decimal neg m (- nf))
                   | String _ _ =>
                       match exponent s2 with
                       | Some (e, EmptyString) =>
                           Some (round_decimal neg m (e - nf))
                       | _ => None
                       end
                   end
              else None) = Some f ->
             forall x, In x (chars s2) -> float_char x = true).
  { intros m nf s2 Hs2 x Hx. destruct (0 <? ni + nf); [|discriminate].
    destruct s2 as [|c2 s2]; [destruct Hx|].
    destruct (exponent (String c2 s2)) as [[e [|? ?]]|] eqn:Hexp;
      try discriminate.
    destruct (exponent_chars _ _ _ _ Hexp Hx) as [?|[]]. assumption. }
  destruct s1 as [|c1 s1]; [destruct Hin1|].
  destruct (Ascii.eqb_spec c1 ".") as [->|Hne].
  - destruct (digits s1 ip 0) as [[m nf] s2] eqn:Hfrac.
    destruct Hin1 as [<-|Hin1]; [reflexivity|].
    destruct (digits_chars _ _ _ _ _ _ _ Hfrac Hin1) as [Hd|Hin2];
      [now apply float_char_digit|].
    exact (Htail m nf s2 H c Hin2).
  - assert (H' : (if 0 <? ni + 0
                  then match String c1 s1 with
                       | EmptyString => Some (round_decimal neg ip (- 0))
                       | String _ _ =>
                           match exponent (String c1 s1) with
                           | Some (e, EmptyString) =>
                               Some (round_decimal neg ip (e - 0))
                           | _ => None
                           end
                       end
                  else None) = Some f).
    { destruct c1 as [[|] [|] [|] [|] [|] [|] [|] [|]];
        try exact H; congruence. }
    exact (Htail ip 0 (String c1 s1) H' c Hin1).
Qed.

Lemma float_of_str_stripped (s : string) (c : ascii) :
  In c (chars (rstrip isspace_float (lstrip isspace_float s))) ->
  float_char c = false ->
  float_of_str s = None.
Proof.
  intros Hin1 Hfc.
  destruct (float_of_str s) as [f|] eqn:Hf; [|reflexivity].
  exfalso. unfold float_of_str in Hf.
  destruct (drop_underscores zero _) as [t|] eqn:Hdrop; [|discriminate].
  destruct (drop_underscores_chars _ _ _ _ Hdrop Hin1) as [->|Hin2];
    [discriminate Hfc|].
  destruct (sign t) as [neg u] eqn:Hsign.
  destruct (sign_chars _ _ _ _ Hsign Hin2) as [->|[->|Hin3]];
    [discriminate Hfc|discriminate Hfc|].
  destruct (decimal neg u) as [g|] eqn:Hdec.
  - rewrite (decimal_chars _ _ _ _ Hdec Hin3) in Hfc. discriminate.
  - rewrite (inf_or_nan_chars _ _ _ _ Hf Hin3) in Hfc. discriminate.
Qed.

Lemma ascii_of_code (c : ascii) : ascii_of (code c) = c.
Proof.
  unfold ascii_of, code. rewrite Nat2Z.id. apply ascii_nat_embedding.
Qed.

(** On the characters below 256 the two notions of white space agree; none
    from 127 on is one numbers are written with, nor a decimal digit. *)
Lemma latin_1 (c : ascii) :
  uspace (code c) = isspace c
  /\ ((code c <? 127) = false ->
      float_char c = false /\ udecimal (code c) = None).
Proof.
  destruct c as [[] [] [] [] [] [] [] []]; split;
    try (vm_compute; reflexivity); vm_compute; first [discriminate | auto].
Qed.

Lemma ulstrip_keeps (t : ustr) (cp : Z) :
  In cp t -> uspace cp = false -> In cp (ulstrip t).
Proof.
  induction t as [|x t IH]; cbn [In ulstrip]; [auto|].
  intros [->|Hin] Hc.
  - rewrite Hc. now left.
  - destruct (uspace x); [now apply IH|now right].
Qed.

Lemma urstrip_keeps (t : ustr) (cp : Z) :
  In cp t -> uspace cp = false -> In cp (urstrip t).
Proof.
  induction t as [|x t IH]; cbn [In urstrip]; [auto|].
  intros [->|Hin] Hc.
  - destruct (urstrip t); [rewrite Hc|]; now left.
  - specialize (IH Hin Hc).
    destruct (urstrip t); [contradiction|now right].
Qed.

Lemma ascii_of_space (cp : Z) :
  cp < 127 -> uspace cp = false -> isspace_float (ascii_of cp) = false.
Proof.
  intros Hlt Hsp. destruct (Z.le_gt_cases 0 cp) as [Hpos|Hneg].
  - apply isspace_float_isspace.
    rewrite <- (proj1 (latin_1 (ascii_of cp))).
    replace (code (ascii_of cp)) with cp; [exact Hsp|].
    unfold code, ascii_of. rewrite nat_ascii_embedding by lia. lia.
  - unfold ascii_of. destruct cp; try lia. reflexivity.
Qed.

(** What [float] parses in place of a text with a symbol holds a
    character that is no white space and none numbers are written with. *)
Lemma to_ascii_symbol (t : ustr) (cp : Z) :
  In cp t -> uspace cp = false -> ufloat_char cp = false ->
  exists c,
    In c (chars (to_ascii t))
    /\ isspace_float c = false /\ float_char c = false.
Proof.
  intros Hin Hsp Hfc. induction t as [|x t IH]; [destruct Hin|].
  cbn [to_ascii].
  assert (Htail : In cp t ->
                  forall c0, exists c,
                    In c (chars (String c0 (to_ascii t)))
                    /\ isspace_float c = false /\ float_char c = false).
  { intros Ht c0. destruct (IH Ht) as (c & Hc & H1 & H2).
    exists c. split; [now right|now split]. }
  destruct (x <? 127) eqn:Hx.
  - destruct Hin as [->|Ht]; [|now apply Htail].
    exists (ascii_of cp). split; [now left|]. split.
    + apply ascii_of_space; [now apply Z.ltb_lt|exact Hsp].
    + unfold ufloat_char in Hfc. now rewrite Hx in Hfc.
  - destruct (uspace x) eqn:Hux.
    + destruct Hin as [->|Ht]; [congruence|now apply Htail].
    + destruct (udecimal x) as [d|] eqn:Hd.
      * destruct Hin as [->|Ht]; [|now apply Htail].
        unfold ufloat_char in Hfc. rewrite Hx, Hd in Hfc. discriminate.
      * exists "?"%char. split; [now left|]. split; reflexivity.
Qed.

(** X11.  No symbols: a text of any code points that holds, anywhere, one
    that is neither white space nor one numbers are written with (a
    currency sign, a comma, a percent sign, a letter such as x; not a
    decimal digit of any script) is rejected with the message about the
    expected format. *)
Theorem validate_number_no_symbols (txt : ustr) (cp : Z) :
  In cp txt ->
  uspace cp = false ->
  ufloat_char cp = false ->
  Unicode.validate_number txt = Invalid not_a_number.
Proof.
  intros Hin Hsp Hfc.
  assert (Hs : In cp (ustrip txt)).
  { unfold ustrip. apply urstrip_keeps; [|exact Hsp].
    now apply ulstrip_keeps. }
  unfold Unicode.validate_number.
  destruct (ustrip txt) as [|x s] eqn:Hstrip; [destruct Hs|].
  destruct (to_ascii_symbol _ _ Hs Hsp Hfc) as (c & Hc & Hcs & Hcf).
  unfold float_of_ustr. rewrite (float_of_str_stripped _ c); [reflexivity| |exact Hcf].
  apply rstrip_keeps; [|exact Hcs]. now apply lstrip_keeps.
Qed.

Lemma validate_number_no_symbols_witness :
  Unicode.validate_number [36; 1633; 1634; 46; 1637]
  = Invalid not_a_number.
Proof.
  apply (validate_number_no_symbols _ 36).
  - now left.
  - reflexivity.
  - reflexivity.
Defined.

(** ** The two models of the validator agree *)

Lemma ulstrip_codes (s : string) :
  ulstrip (codes s) = codes (lstrip isspace s).
Proof.
  induction s as [|c s IH]; [reflexivity|].
  cbn [codes chars map ulstrip lstrip]. rewrite (proj1 (latin_1 c)).
  destruct (isspace c); [exact IH|reflexivity].
Qed.

Lemma urstrip_codes (s : string) :
  urstrip (codes s) = codes (rstrip isspace s).
Proof.
  induction s as [|c s IH]; [reflexivity|].
  cbn [codes chars map urstrip rstrip]. fold (codes s). rewrite IH.
  rewrite (proj1 (latin_1 c)).
  destruct (rstrip isspace s); [destruct (isspace c)|]; reflexivity.
Qed.

Lemma ustrip_codes (s : string) : ustrip (codes s) = codes (strip s).
Proof.
  unfold ustrip, strip. now rewrite ulstrip_codes, urstrip_codes.
Qed.

(** A text of characters below 127 is parsed as it stands. *)
Lemma to_ascii_codes (u : string) :
  forallb (fun c => code c <? 127) (chars u) = true ->
  to_ascii (codes u) = u.
Proof.
  induction u as [|c u IH]; [reflexivity|].
  cbn [codes chars map forallb to_ascii]. rewrite andb_true_iff.
  intros [Hc Hu]. rewrite Hc, ascii_of_code. f_equal. now apply IH.
Qed.

(** With a character from 127 on, what is parsed holds a blank or a
    question mark in its place or before it. *)
Lemma to_ascii_high (u : string) :
  forallb (fun c => code c <? 127) (chars u) = false ->
  exists d, In d (chars (to_ascii (codes u))) /\ float_char d = false.
Proof.
  induction u as [|c u IH]; [discriminate|].
  cbn [codes chars map forallb to_ascii]. fold (codes u).
  destruct (code c <? 127) eqn:Hc.
  - cbn [andb]. intros Hu. destruct (IH Hu) as (d & Hd & Hfd).
    exists d. split; [now right|exact Hfd].
  - intros _. destruct (latin_1 c) as [_ Hhigh].
    destruct (Hhigh Hc) as [_ Hdec]. rewrite Hdec.
    destruct (uspace (code c)).
    + exists " "%char. split; [now left|reflexivity].
    + exists "?"%char. split; [now left|reflexivity].
Qed.

(** What is parsed in place of a text that starts with no white space
    starts with none. *)
Lemma to_ascii_first (c : ascii) (u : string) :
  isspace c = false ->
  exists c1 a,
    to_ascii (codes (String c u)) = String c1 a /\ isspace c1 = false.
Proof.
  intros Hc. cbn [codes chars map to_ascii]. destruct (latin_1 c) as [Hsp Hhigh].
  destruct (code c <? 127).
  - rewrite ascii_of_code. now eexists; eexists.
  - destruct (Hhigh eq_refl) as [_ Hdec]. rewrite Hsp, Hc, Hdec.
    now eexists; eexists.
Qed.

(** ... and one that ends with no white space ends with none. *)
Lemma to_ascii_last (u : string) :
  forall c,
    isspace (last_char c u) = false ->
    exists c1 a,
      to_ascii (codes (String c u)) = String c1 a
      /\ isspace (last_char c1 a) = false.
Proof.
  induction u as [|c' u IH]; intros c Hlast; cbn [last_char] in Hlast.
  - cbn [codes chars map to_ascii]. destruct (latin_1 c) as [Hsp Hhigh].
    destruct (code c <? 127).
    + rewrite ascii_of_code. now eexists; eexists.
    + destruct (Hhigh eq_refl) as [_ Hdec]. rewrite Hsp, Hlast, Hdec.
      now eexists; eexists.
  - destruct (IH c' Hlast) as (c1 & a & Ha & Hl).
    change (codes (String c (String c' u)))
      with (code c :: codes (String c' u)).
    cbn [to_ascii]. rewrite Ha.
    destruct (code c <? 127); [now eexists; eexists|].
    destruct (uspace (code c)); [now eexists; eexists|].
    destruct (udecimal (code c)); now eexists; eexists.
Qed.

Lemma strip_float_trimmed (s : string) :
  trimmed s = true ->
  rstrip isspace_float (lstrip isspace_float s) = s.
Proof.
  destruct s as [|c s]; [reflexivity|]. cbn [trimmed].
  rewrite andb_true_iff, !negb_true_iff. intros [Hc Hlast].
  cbn [lstrip]. rewrite (isspace_float_isspace c Hc).
  apply rstrip_last. now apply isspace_float_isspace.
Qed.

(** [float] makes the same of a trimmed text of characters below 256,
    read as code points or as characters. *)
Lemma float_of_codes (u : string) :
  trimmed u = true -> float_of_ustr (codes u) = float_of_str u.
Proof.
  intros Hu. unfold float_of_ustr.
  destruct (forallb (fun c => code c <? 127) (chars u)) eqn:Hlow.
  - now rewrite to_ascii_codes.
  - destruct u as [|c u]; [discriminate|].
    assert (Hright : float_of_str (String c u) = None).
    { assert (Hex : exists x, In x (chars (String c u))
                              /\ float_char x = false).
      { clear - Hlow. induction (String c u) as [|x s IH]; [discriminate|].
        cbn [chars forallb] in Hlow. destruct (code x <? 127) eqn:Hx.
        - destruct (IH Hlow) as (y & Hy & Hfy). exists y. split; [now right|auto].
        - exists x. split; [now left|]. now apply (proj2 (latin_1 x)). }
      destruct Hex as (x & Hx & Hfx).
      apply (float_of_str_stripped _ x); [|exact Hfx].
      now rewrite (strip_float_trimmed _ Hu). }
    rewrite Hright.
    destruct (to_ascii_high _ Hlow) as (d & Hd & Hfd).
    apply (float_of_str_stripped _ d); [|exact Hfd].
    rewrite strip_float_trimmed; [exact Hd|].
    cbn [trimmed] in Hu. apply andb_true_iff in Hu as [Hc Hlast].
    apply negb_true_iff in Hc, Hlast.
    destruct (to_ascii_first c u Hc) as (c1 & a & Ha & Hc1).
    destruct (to_ascii_last u c Hlast) as (c2 & a' & Ha' & Hl).
    rewrite Ha in *. injection Ha' as <- <-.
    cbn [trimmed]. now rewrite Hc1, Hl.
Qed.

(** On a text of characters below 256 the validator is the one of the
    claims. *)
Lemma validate_number_codes (txt : string) :
  Unicode.validate_number (codes txt) = validate_number txt.
Proof.
  unfold Unicode.validate_number, validate_number.
  rewrite ustrip_codes.
  rewrite (float_of_codes _ (strip_is_trimmed txt)).
  now destruct (strip txt).
Qed.

(* ================================================================== *)
(** * Further properties of the summary calculator *)
(* ================================================================== *)

Lemma mend_document_section (d : dict) (section : string)
  (expected : list string) :
  In (section, expected) sections ->
  dict_get (mend_document d) section
  = Some (VDict (mend expected (dict_get d section))).
Proof.
  unfold mend_document.
  intros [H|[H|[]]]; injection H as <- <-.
  - rewrite dict_get_set_other by discriminate. apply dict_get_set_same.
  - apply dict_get_set_same.
Qed.

Lemma fold_zero (fs : list float) :
  forallb (fun f => zero_value (VFloat f)) fs = true ->
  fold_left fadd fs fzero = fzero.
Proof.
  induction fs as [|f fs IH]; cbn [forallb fold_left]; [reflexivity|].
  rewrite andb_true_iff. intros [Hf Hfs].
  destruct f as [[|]| | |]; try discriminate Hf; exact (IH Hfs).
Qed.

Lemma floats_zero (sec : dict) :
  all_zero sec = true ->
  exists fs, floats (map snd sec) = inr fs
             /\ forallb (fun f => zero_value (VFloat f)) fs = true.
Proof.
  unfold all_zero. induction sec as [|[k v] sec IH]; cbn [map forallb floats snd].
  - now exists [].
  - rewrite andb_true_iff. intros [Hv Hsec].
    destruct (IH Hsec) as (fs & -> & Hfs).
    destruct v as [| | |[s| | |]| | |]; try discriminate Hv.
    exists (S754_zero s :: fs). split; [reflexivity|].
    cbn [forallb]. now rewrite Hfs.
Qed.

Lemma total_zero (d sec : dict) (section : string) :
  dict_get d section = Some (VDict sec) ->
  all_zero sec = true ->
  exists t, total (VDict d) section = inr t /\ py_eq0 t = true.
Proof.
  intros Hsec Hzero. unfold total, py_get, py_values, ebind. rewrite Hsec.
  destruct (floats_zero sec Hzero) as (fs & -> & Hfs).
  eexists. split; [reflexivity|].
  destruct fs as [|f fs]; [reflexivity|].
  unfold py_sum. now rewrite (fold_zero _ Hfs).
Qed.

(** X12.  The empty state: when every value of both mappings of the loaded
    document is a zero, of either sign, [calculate_summary] returns [None],
    however many keys the mappings hold. *)
Theorem calculate_summary_all_zero (w w1 : world) (d inc exp : dict) :
  load_summary_data w = Ret (VDict d) w1 ->
  dict_get d "income" = Some (VDict inc) ->
  dict_get d "expenses" = Some (VDict exp) ->
  all_zero inc = true ->
  all_zero exp = true ->
  calculate_summary w = Ret VNone w1.
Proof.
  intros Hload Hinc Hexp Hzi Hze.
  destruct (total_zero d inc "income" Hinc Hzi) as (ti & Hti & Hi0).
  destruct (total_zero d exp "expenses" Hexp Hze) as (te & Hte & He0).
  unfold calculate_summary.
  rewrite (bind_Ret _ _ _ _ _ Hload).
  rewrite (bind_lift _ _ _ _ Hti), (bind_lift _ _ _ _ Hte).
  now rewrite Hi0, He0.
Qed.

Lemma calculate_summary_all_zero_witness :
  calculate_summary fresh
  = Ret VNone (final (load_summary_data fresh)).
Proof.
  apply (calculate_summary_all_zero fresh _
           [("income", VDict (dict_const INCOME_CATEGORIES (VFloat fzero)));
            ("expenses", VDict (dict_const EXPENSE_CATEGORIES (VFloat fzero)))]
           (dict_const INCOME_CATEGORIES (VFloat fzero))
           (dict_const EXPENSE_CATEGORIES (VFloat fzero)));
    reflexivity.
Defined.

Lemma dict_get_value (sec : dict) (k : string) (v : pyval) :
  dict_get sec k = Some v -> In v (map snd sec).
Proof.
  induction sec as [|[k0 v0] sec IH]; cbn [dict_get map snd]; [discriminate|].
  destruct (String.eqb k k0).
  - intros H. injection H as ->. now left.
  - intros H. right. now apply IH.
Qed.

Lemma floats_fail (vs : list pyval) (v : pyval) (e0 : exn) :
  In v vs -> py_float v = inl e0 -> exists e, floats vs = inl e.
Proof.
  induction vs as [|v0 vs IH]; cbn [floats]; [intros []|].
  intros [->|Hin] Hv.
  - rewrite Hv. now exists e0.
  - destruct (py_float v0) as [e|f]; [now exists e|].
    destruct (IH Hin Hv) as [e ->]. now exists e.
Qed.

Lemma total_fail (d sec : dict) (section k : string) (v : pyval) (e0 : exn) :
  dict_get d section = Some (VDict sec) ->
  dict_get sec k = Some v ->
  py_float v = inl e0 ->
  exists e, total (VDict d) section = inl e.
Proof.
  intros Hsec Hk Hv. unfold total, py_get, py_values, ebind. rewrite Hsec.
  destruct (floats_fail _ _ _ (dict_get_value _ _ _ Hk) Hv) as [e ->].
  now exists e.
Qed.

(** X13.  A key of its own in a section, with a value [float] rejects, is
    let through by the load but not by the calculator: with such a file
    [load_summary_data] returns the document, key and value included, and
    [calculate_summary] raises, with the world as the load left it. *)
Theorem calculate_summary_bad_extra (w : world) (d sec : dict)
  (section k : string) (expected : list string) (v : pyval) (e0 : exn) :
  primary w = Some (Json (VDict d)) ->
  calm 3 (faults w) = true ->
  In (section, expected) sections ->
  dict_get d section = Some (VDict sec) ->
  ~ In k expected ->
  dict_get sec k = Some v ->
  py_float v = inl e0 ->
  exists e w1,
    load_summary_data w = Ret (VDict (mend_document d)) w1
    /\ entry (VDict (mend_document d)) section k = Some v
    /\ calculate_summary w = Raise e w1.
Proof.
  intros Hp Hcalm Hin Hsec Hnin Hk Hv.
  destruct (load_object w d Hp) as [repairs Hload].
  { destruct (intact (VDict d)); [|exact Hcalm].
    destruct (faults w) as [|[t|] fs]; cbn in *; try congruence.
    apply calm_0. }
  pose proof (mend_document_section d _ _ Hin) as Hmend.
  rewrite Hsec in Hmend. cbn [mend] in Hmend.
  assert (Hk' : dict_get (mend_section expected sec) k = Some v).
  { rewrite mend_section_get.
    destruct (in_dec string_dec k expected); [contradiction|exact Hk]. }
  destruct (total_fail _ _ _ _ _ _ Hmend Hk' Hv) as [e He].
  match type of Hload with _ = Ret _ ?x => set (w1 := x) in * end.
  assert (Hrun : exists e', calculate_summary w = Raise e' w1).
  { unfold calculate_summary. rewrite (bind_Ret _ _ _ _ _ Hload).
    destruct Hin as [H|[H|[]]]; injection H as <- <-.
    - exists e. unfold bind. now rewrite He.
    - destruct (total (VDict (mend_document d)) "income") as [e1|ti] eqn:Hti.
      + exists e1. unfold bind. reflexivity.
      + rewrite (bind_lift _ _ _ _ eq_refl). exists e. unfold bind.
        now rewrite He. }
  destruct Hrun as [e' Hrun]. exists e', w1.
  split; [exact Hload|]. split; [|exact Hrun].
  unfold entry. now rewrite Hmend.
Qed.

Lemma calculate_summary_bad_extra_witness :
  exists e w1,
    load_summary_data (with_primary (Some (Json (VDict dict_bonus))) fresh)
    = Ret (VDict (mend_document dict_bonus)) w1
    /\ calculate_summary (with_primary (Some (Json (VDict dict_bonus))) fresh)
       = Raise e w1.
Proof.
  destruct (calculate_summary_bad_extra
              (with_primary (Some (Json (VDict dict_bonus))) fresh)
              dict_bonus
              (("Salary", VFloat f_100) :: ("Bonus", VStr "soon")
               :: dict_const ["Gift"; "Investment"; "Other"] (VFloat fzero))
              "income" "Bonus" INCOME_CATEGORIES (VStr "soon") ValueError
              eq_refl eq_refl (or_introl eq_refl) eq_refl)
    as (e & w1 & Hload & _ & Hrun).
  - cbn. intros H. repeat (destruct H as [H|H]; [discriminate H|]). exact H.
  - reflexivity.
  - reflexivity.
  - exists e, w1. split; assumption.
Defined.

(* ================================================================== *)
(** * Further properties of the application *)
(* ================================================================== *)

(** What a save leaves, by its result. *)
Lemma save_outcome (data : pyval) (w : world) :
  exists saved w',
    save_summary_data data w = Ret saved w'
    /\ (saved = true ->
        primary w' = Some (Json data) /\ dialogs w' = dialogs w)
    /\ (saved = false ->
        exists message,
          dialogs w' = (dialogs w ++ [Error "Save Error" message])%list).
Proof.
  destruct w as [prog [c|] [b|] fs ds ie iv ee ev pg];
    unfold save_summary_data; unfold_io; run;
    repeat (next_answer; run);
    eexists; eexists; (split; [reflexivity|]); split; intros H;
    try discriminate H; fields; try (split; reflexivity);
    eexists; reflexivity.
Qed.

Lemma same_form_final {A : Type} (c : M A) (w w' : world) (a : A) :
  same_form w (final (c w)) -> c w = Ret a w' -> same_form w w'.
Proof. intros H Hc. now rewrite Hc in H. Qed.

(** X14.  However the file and the environment are, a submit handler that
    returns has done one of three things: rejected the amount, touching
    nothing but the dialogs; or saved the document, cleared its entry field
    and shown the main page after the dialog "Success"; or failed to save,
    leaving its entry field and the page as they were, after the dialog
    "Save Error".  The field is cleared and the page left only after a
    save that succeeded. *)
Theorem submit_outcomes (w w' : world) :
  (_submit_income w = Ret tt w' ->
   submit_outcome income_entry "Income added successfully." w w')
  /\ (_submit_expense w = Ret tt w' ->
      submit_outcome expense_entry "Expense added successfully." w w').
Proof.
  split.
  - unfold _submit_income. rewrite bind_gets. cbv beta.
    destruct (validate_number (income_entry w)) as [message|v] eqn:Hv.
    + intros H. injection H as <-. left. exists message. now split.
    + unfold bind at 1.
      destruct (load_summary_data w) as [data w1|e w1] eqn:Hload;
        [|discriminate].
      pose proof (same_form_final _ _ _ _ (load_same_form w) Hload)
        as (_ & Hie1 & _ & _ & _ & Hpg1 & shown & Hds1).
      rewrite bind_gets. cbv beta. unfold bind at 1.
      match goal with
      | |- context [lift ?r] => destruct r as [e|data']
      end; [discriminate|]. cbn [lift ret].
      destruct (save_outcome data' w1) as (saved & w2 & Hsave & Hok & Hko).
      pose proof (same_form_final _ _ _ _ (save_same_form data' w1) Hsave)
        as (_ & Hie2 & _ & _ & _ & Hpg2 & _).
      rewrite (bind_Ret _ _ _ _ _ Hsave). destruct saved.
      * destruct (Hok eq_refl) as [Hp2 Hds2].
        intros H. injection H as <-. right. left.
        exists v, data', shown. split; [exact Hv|].
        destruct w2. cbn in *. rewrite Hp2, Hds2, Hds1.
        repeat split. now rewrite <- app_assoc.
      * destruct (Hko eq_refl) as [message Hds2].
        intros H. injection H as <-. right. right.
        exists v, shown, message. split; [exact Hv|].
        rewrite Hie2, Hie1, Hpg2, Hpg1, Hds2, Hds1.
        repeat split. now rewrite <- app_assoc.
  - unfold _submit_expense. rewrite bind_gets. cbv beta.
    destruct (validate_number (expense_entry w)) as [message|v] eqn:Hv.
    + intros H. injection H as <-. left. exists message. now split.
    + unfold bind at 1.
      destruct (load_summary_data w) as [data w1|e w1] eqn:Hload;
        [|discriminate].
      pose proof (same_form_final _ _ _ _ (load_same_form w) Hload)
        as (_ & _ & _ & Hee1 & _ & Hpg1 & shown & Hds1).
      rewrite bind_gets. cbv beta. unfold bind at 1.
      match goal with
      | |- context [lift ?r] => destruct r as [e|data']
      end; [discriminate|]. cbn [lift ret].
      destruct (save_outcome data' w1) as (saved & w2 & Hsave & Hok & Hko).
      pose proof (same_form_final _ _ _ _ (save_same_form data' w1) Hsave)
        as (_ & _ & _ & Hee2 & _ & Hpg2 & _).
      rewrite (bind_Ret _ _ _ _ _ Hsave). destruct saved.
      * destruct (Hok eq_refl) as [Hp2 Hds2].
        intros H. injection H as <-. right. left.
        exists v, data', shown. split; [exact Hv|].
        destruct w2. cbn in *. rewrite Hp2, Hds2, Hds1.
        repeat split. now rewrite <- app_assoc.
      * destruct (Hko eq_refl) as [message Hds2].
        intros H. injection H as <-. right. right.
        exists v, shown, message. split; [exact Hv|].
        rewrite Hee2, Hee1, Hpg2, Hpg1, Hds2, Hds1.
        repeat split. now rewrite <- app_assoc.
Qed.

Lemma submit_outcomes_witness :
  exists w',
    _submit_income submit_disk_full = Ret tt w'
    /\ submit_outcome income_entry "Income added successfully."
         submit_disk_full w'
    /\ income_entry w' = "50"
    /\ primary w' = Some Corrupt.
Proof.
  eexists. split; [vm_compute; reflexivity|].
  split; [|split; reflexivity].
  apply (proj1 (submit_outcomes submit_disk_full _)).
  vm_compute. reflexivity.
Defined.

(** X15.  A category that is not a key of the loaded mapping is not
    created: with a JSON object in the file, a valid amount and a selected
    category that is neither in the registry nor in the income mapping of
    the file, [_submit_income] raises [KeyError] once the load is done;
    nothing is saved and no "Success" is shown.  The same holds for
    [_submit_expense]. *)
Theorem submit_unknown_category (w : world) (d : dict) (v : float) :
  primary w = Some (Json (VDict d)) ->
  calm 3 (faults w) = true ->
  (validate_number (income_entry w) = Valid v ->
   ~ In (income_var w) INCOME_CATEGORIES ->
   entry (VDict d) "income" (income_var w) = None ->
   exists w1,
     load_summary_data w = Ret (VDict (mend_document d)) w1
     /\ _submit_income w = Raise KeyError w1)
  /\ (validate_number (expense_entry w) = Valid v ->
      ~ In (expense_var w) EXPENSE_CATEGORIES ->
      entry (VDict d) "expenses" (expense_var w) = None ->
      exists w1,
        load_summary_data w = Ret (VDict (mend_document d)) w1
        /\ _submit_expense w = Raise KeyError w1).
Proof.
  intros Hp Hcalm.
  destruct (load_object w d Hp) as [repairs Hload].
  { destruct (intact (VDict d)); [|exact Hcalm].
    destruct (faults w) as [|[t|] fs]; cbn in *; try congruence.
    apply calm_0. }
  match type of Hload with _ = Ret _ ?x => set (w1 := x) in * end.
  assert (Hvar : income_var w1 = income_var w /\ expense_var w1 = expense_var w).
  { subst w1. destruct (intact (VDict d)); destruct w; split; reflexivity. }
  destruct Hvar as [Hiv Hev].
  assert (Hmiss : forall section expected k,
             In (section, expected) sections ->
             ~ In k expected ->
             entry (VDict d) section k = None ->
             exists sec,
               dict_get (mend_document d) section = Some (VDict sec)
               /\ dict_get sec k = None).
  { intros section expected k Hin Hnin Hnone.
    eexists. split; [exact (mend_document_section d _ _ Hin)|].
    unfold entry in Hnone. unfold mend.
    destruct (dict_get d section) as [[| | | | | |sec]|];
      try (now apply dict_get_const_other).
    rewrite mend_section_get.
    destruct (in_dec string_dec k expected); [contradiction|exact Hnone]. }
  split; intros Hv Hnin Hnone; exists w1; (split; [exact Hload|]).
  - destruct (Hmiss "income" _ _ (or_introl eq_refl) Hnin Hnone)
      as (sec & Hsec & Hk).
    unfold _submit_income. rewrite bind_gets. cbv beta. rewrite Hv.
    rewrite (bind_Ret _ _ _ _ _ Hload), bind_gets. cbv beta. rewrite Hiv.
    unfold bind, py_getitem, ebind. now rewrite Hsec, Hk.
  - destruct (Hmiss "expenses" _ _ (or_intror (or_introl eq_refl)) Hnin Hnone)
      as (sec & Hsec & Hk).
    unfold _submit_expense. rewrite bind_gets. cbv beta. rewrite Hv.
    rewrite (bind_Ret _ _ _ _ _ Hload), bind_gets. cbv beta. rewrite Hev.
    unfold bind, py_getitem, ebind. now rewrite Hsec, Hk.
Qed.

Lemma submit_unknown_category_witness :
  _submit_income submit_unknown = Raise KeyError (answered 1 submit_unknown)
  /\ primary (answered 1 submit_unknown) = Some (Json (doc_salary f_100)).
Proof.
  split; [|reflexivity].
  destruct (submit_unknown_category submit_unknown _
              (S754_finite false 7036874417766400 (-47)) eq_refl eq_refl)
    as [Hincome _].
  destruct Hincome as (w1 & Hload & Hrun).
  - reflexivity.
  - cbn. intros H. repeat (destruct H as [H|H]; [discriminate H|]). exact H.
  - reflexivity.
  - vm_compute in Hload. injection Hload as <-. exact Hrun.
Defined.

(** A load in which nothing fails, without a file and with a corrupted
    one. *)
Lemma load_absent (w : world) :
  primary w = None ->
  calm 2 (faults w) = true ->
  load_summary_data w
  = Ret DEFAULT_SUMMARY
      (add_dialog
         (Info "Summary File Created" ("Created '" ++ SUMMARY_FILENAME w ++ "'."))
         (answered 2 (with_primary (Some (Json DEFAULT_SUMMARY)) w))).
Proof.
  intros Hnone Hcalm.
  destruct w as [prog prim bak fs ds ie iv ee ev pg]. fields. subst prim.
  answers; reflexivity.
Qed.

Lemma load_corrupt (w : world) :
  primary w = Some Corrupt ->
  calm 4 (faults w) = true ->
  load_summary_data w
  = Ret DEFAULT_SUMMARY
      (add_dialog
         (Warning "Corrupted File Replaced"
            "Corrupted summary file replaced with a new blank file.")
         (answered 4 (with_primary (Some (Json DEFAULT_SUMMARY)) w))).
Proof.
  intros Hc Hcalm.
  destruct w as [prog prim bak fs ds ie iv ee ev pg]. fields. subst prim.
  answers; reflexivity.
Qed.

(** Without failures the load returns, unless the file holds a JSON value
    that is no object. *)
Lemma load_any_quiet (w : world) :
  quiet (faults w) = true ->
  (forall v, primary w = Some (Json v) -> isinstance_dict v = true) ->
  exists data w1,
    load_summary_data w = Ret data w1
    /\ complete data = true
    /\ quiet (faults w1) = true.
Proof.
  intros Hq Hobj. destruct (primary w) as [[v|]|] eqn:Hp.
  - specialize (Hobj v eq_refl). destruct v as [| | | | | |d]; try discriminate.
    destruct (load_quiet w d Hp Hq) as (w1 & Hload & Hq1 & _).
    exists (VDict (mend_document d)), w1.
    split; [exact Hload|]. split; [apply mend_document_complete|exact Hq1].
  - eexists. eexists. split; [apply (load_corrupt w Hp); now apply quiet_calm|].
    split; [reflexivity|]. destruct w. cbn -[skipn]. now apply quiet_skipn.
  - eexists. eexists. split; [apply (load_absent w Hp); now apply quiet_calm|].
    split; [reflexivity|]. destruct w. cbn -[skipn]. now apply quiet_skipn.
Qed.

(** X16.  Leaving through [_on_exit] puts the store in order: when nothing
    fails and the file is missing, corrupted or a JSON object, the handler
    returns and the file then holds a complete document, with no backup left
    beside it.  When the file holds a JSON value that is no object, the
    handler raises [TypeError] before it saves anything. *)
Theorem on_exit_leaves_complete (w : world) :
  quiet (faults w) = true ->
  ((forall v, primary w = Some (Json v) -> isinstance_dict v = true) ->
   exists w' data,
     _on_exit true w = Ret tt w'
     /\ stored w' = Some data
     /\ complete data = true
     /\ backup w' = None)
  /\ (forall v, primary w = Some (Json v) -> isinstance_dict v = false ->
                _on_exit true w = Raise TypeError (answered 1 w)).
Proof.
  intros Hq. split.
  - intros Hobj.
    destruct (load_any_quiet w Hq Hobj) as (data & w1 & Hload & Hc & Hq1).
    destruct (save_quiet data w1 Hq1) as [n Hsave].
    eexists. exists data. split.
    + unfold _on_exit. rewrite (bind_Ret _ _ _ _ _ Hload).
      rewrite (bind_Ret _ _ _ _ _ Hsave). reflexivity.
    + repeat split. exact Hc.
  - intros v Hp Hv. unfold _on_exit.
    unfold bind. rewrite (load_non_object_raises w v Hp Hv); [reflexivity|].
    now apply quiet_calm.
Qed.

Lemma on_exit_leaves_complete_witness :
  exists w' data,
    _on_exit true (with_primary (Some Corrupt) fresh) = Ret tt w'
    /\ stored w' = Some data
    /\ complete data = true
    /\ backup w' = None.
Proof.
  apply (proj1 (on_exit_leaves_complete (with_primary (Some Corrupt) fresh)
                  eq_refl)).
  intros v H. discriminate H.
Defined.

Lemma valid_positive (txt : string) (v : float) :
  validate_number txt = Valid v -> fleb v fzero = false.
Proof.
  unfold validate_number. destruct (strip txt); [discriminate|].
  destruct (float_of_str _) as [f|]; [|discriminate].
  destruct (fleb f fzero) eqn:Hle; [discriminate|].
  intros H. now injection H as <-.
Qed.

Lemma fadd_zero_l (v : float) : fleb v fzero = false -> fadd fzero v = v.
Proof.
  destruct v as [[|]|[|]| |[|] m e]; intros H; try discriminate H; reflexivity.
Qed.

(** X17.  The first amount ever: with no file, nothing failing, a valid
    amount and a registry category selected, a submit handler creates the
    file and leaves in it the default document with the amount itself under
    the selected category and 0.0 under every other; the dialogs "Summary
    File Created" and "Success" are shown, in this order, and no backup is
    left. *)
Theorem submit_first (w : world) (v : float) :
  primary w = None ->
  quiet (faults w) = true ->
  (validate_number (income_entry w) = Valid v ->
   In (income_var w) INCOME_CATEGORIES ->
   exists w' data,
     _submit_income w = Ret tt w'
     /\ stored w' = Some data
     /\ entry data "income" (income_var w) = Some (VFloat v)
     /\ (forall s c, (s, c) <> ("income", income_var w) ->
                     entry data s c = entry DEFAULT_SUMMARY s c)
     /\ dialogs w'
        = (dialogs w
           ++ [Info "Summary File Created"
                 ("Created '" ++ SUMMARY_FILENAME w ++ "'.");
               Info "Success" "Income added successfully."])%list
     /\ backup w' = None)
  /\ (validate_number (expense_entry w) = Valid v ->
      In (expense_var w) EXPENSE_CATEGORIES ->
      exists w' data,
        _submit_expense w = Ret tt w'
        /\ stored w' = Some data
        /\ entry data "expenses" (expense_var w) = Some (VFloat v)
        /\ (forall s c, (s, c) <> ("expenses", expense_var w) ->
                        entry data s c = entry DEFAULT_SUMMARY s c)
        /\ dialogs w'
           = (dialogs w
              ++ [Info "Summary File Created"
                    ("Created '" ++ SUMMARY_FILENAME w ++ "'.");
                  Info "Success" "Expense added successfully."])%list
        /\ backup w' = None).
Proof.
  intros Hp Hq.
  pose proof (load_absent w Hp (quiet_calm 2 _ Hq)) as Hload.
  match type of Hload with _ = Ret _ ?x => set (w1 := x) in * end.
  assert (Hq1 : quiet (faults w1) = true).
  { subst w1. destruct w. cbn -[skipn]. now apply quiet_skipn. }
  split; intros Hv Hin.
  - pose proof (default_entries _ _ (in_income _ Hin)) as Hold.
    destruct (add_to_entry _ _ _ _ v Hold) as (data' & Hpure & Hnew & Hrest).
    rewrite (fadd_zero_l v (valid_positive _ _ Hv)) in Hnew.
    destruct (save_quiet data' w1 Hq1) as [n Hsave].
    unfold _submit_income. rewrite bind_gets. cbv beta. rewrite Hv.
    rewrite (bind_Ret _ _ _ _ _ Hload), bind_gets. cbv beta.
    replace (income_var w1) with (income_var w) by (destruct w; reflexivity).
    rewrite (bind_lift _ _ _ _ Hpure), (bind_Ret _ _ _ _ _ Hsave).
    eexists. exists data'. split; [reflexivity|]. split; [reflexivity|].
    split; [exact Hnew|]. split; [exact Hrest|].
    destruct w; cbn. split; [|reflexivity]. now rewrite <- app_assoc.
  - pose proof (default_entries _ _ (in_expenses _ Hin)) as Hold.
    destruct (add_to_entry _ _ _ _ v Hold) as (data' & Hpure & Hnew & Hrest).
    rewrite (fadd_zero_l v (valid_positive _ _ Hv)) in Hnew.
    destruct (save_quiet data' w1 Hq1) as [n Hsave].
    unfold _submit_expense. rewrite bind_gets. cbv beta. rewrite Hv.
    rewrite (bind_Ret _ _ _ _ _ Hload), bind_gets. cbv beta.
    replace (expense_var w1) with (expense_var w) by (destruct w; reflexivity).
    rewrite (bind_lift _ _ _ _ Hpure), (bind_Ret _ _ _ _ _ Hsave).
    eexists. exists data'. split; [reflexivity|]. split; [reflexivity|].
    split; [exact Hnew|]. split; [exact Hrest|].
    destruct w; cbn. split; [|reflexivity]. now rewrite <- app_assoc.
Qed.

Lemma submit_first_witness :
  exists w' data,
    _submit_income (set_income_entry "12.5" fresh) = Ret tt w'
    /\ stored w' = Some data
    /\ entry data "income" "Salary"
       = Some (VFloat (S754_finite false 7036874417766400 (-49)))
    /\ entry data "expenses" "Food" = Some (VFloat fzero).
Proof.
  destruct (submit_first (set_income_entry "12.5" fresh)
              (S754_finite false 7036874417766400 (-49)) eq_refl eq_refl)
    as [Hincome _].
  assert (Hv : validate_number "12.5"
               = Valid (S754_finite false 7036874417766400 (-49)))
    by (vm_compute; reflexivity).
  destruct (Hincome Hv (or_introl eq_refl))
    as (w' & data & Hrun & Hst & Hnew & Hrest & _).
  exists w', data. split; [exact Hrun|]. split; [exact Hst|].
  split; [exact Hnew|]. rewrite Hrest; [reflexivity|discriminate].
Defined.

(** X2.  A file that holds a JSON value other than an object (a list, a
    number, a text, null) blocks the program: [load_summary_data] raises
    [TypeError] with the file as it was and no dialog, and so do
    [calculate_summary] and, for a valid amount, both submit handlers. *)
Theorem non_object_blocks (w : world) (v : pyval) :
  primary w = Some (Json v) ->
  isinstance_dict v = false ->
  calm 1 (faults w) = true ->
  load_summary_data w = Raise TypeError (answered 1 w)
  /\ primary (answered 1 w) = Some (Json v)
  /\ dialogs (answered 1 w) = dialogs w
  /\ calculate_summary w = Raise TypeError (answered 1 w)
  /\ (forall a, validate_number (income_entry w) = Valid a ->
                _submit_income w = Raise TypeError (answered 1 w))
  /\ (forall a, validate_number (expense_entry w) = Valid a ->
                _submit_expense w = Raise TypeError (answered 1 w)).
Proof.
  intros Hp Hv Hcalm.
  pose proof (load_non_object_raises w v Hp Hv Hcalm) as Hload.
  split; [exact Hload|]. split; [destruct w; exact Hp|].
  split; [destruct w; reflexivity|].
  split; [unfold calculate_summary, bind; now rewrite Hload|].
  split; intros a Ha.
  - unfold _submit_income. rewrite bind_gets. cbv beta. rewrite Ha.
    unfold bind at 1. now rewrite Hload.
  - unfold _submit_expense. rewrite bind_gets. cbv beta. rewrite Ha.
    unfold bind at 1. now rewrite Hload.
Qed.

Lemma non_object_blocks_witness :
  load_summary_data (with_primary (Some (Json (VList []))) fresh)
  = Raise TypeError (with_primary (Some (Json (VList []))) fresh)
  /\ calculate_summary (with_primary (Some (Json (VList []))) fresh)
     = Raise TypeError (with_primary (Some (Json (VList []))) fresh).
Proof.
  destruct (non_object_blocks (with_primary (Some (Json (VList []))) fresh)
              (VList []) eq_refl eq_refl eq_refl)
    as (Hload & _ & _ & Hcalc & _).
  split; [exact Hload|exact Hcalc].
Defined.

(* ================================================================== *)
(** * Properties of the presentation helpers *)
(* ================================================================== *)

Lemma holds_from_spec (test : Z -> bool) (n : nat) (c x : Z) :
  holds_from test n c = true ->
  c <= x < c + Z.of_nat n ->
  test x = true.
Proof.
  revert c. induction n as [|n IH]; intros c H Hx; [lia|].
  cbn [holds_from] in H. apply andb_true_iff in H as [Hc Hn].
  destruct (Z.eq_dec x c) as [->|Hne]; [exact Hc|].
  apply (IH (c + 1) Hn). lia.
Qed.

Lemma shown_as_typed_all :
  holds_from shown_as_typed (Z.to_nat 10000) 1 = true.
Proof. vm_cast_no_check (eq_refl true). Qed.

(** X18.  An amount is shown as it was typed: for every amount from 0.01
    to 100.00 written with two decimals, [validate_number] accepts the
    text and [format_currency] of the accepted float is that text again,
    after the currency sign. *)
Theorem format_currency_shows_typed (c : Z) :
  1 <= c <= 10000 ->
  exists v,
    validate_number (typed c) = Valid v
    /\ format_currency (VFloat v) = shown c.
Proof.
  intros Hc.
  assert (H : shown_as_typed c = true).
  { apply (holds_from_spec _ _ _ c shown_as_typed_all).
    rewrite Z2Nat.id; lia. }
  unfold shown_as_typed in H.
  destruct (validate_number (typed c)) as [message|v]; [discriminate H|].
  exists v. split; [reflexivity|]. apply String.eqb_eq. exact H.
Qed.

Lemma format_currency_shows_typed_witness :
  exists v,
    validate_number "12.50" = Valid v
    /\ format_currency (VFloat v) = "$12.50".
Proof.
  change "12.50" with (typed 1250).
  change "$12.50" with (shown 1250).
  apply (format_currency_shows_typed 1250). lia.
Defined.

Lemma hexval_bound (c : ascii) (d : Z) : hexval c = Some d -> 0 <= d <= 15.
Proof.
  unfold hexval, isdigit. generalize (code c). intros n.
  repeat match goal with
         | |- context [?a <=? ?b] => destruct (Z.leb_spec a b)
         end; cbn [andb]; intros Hd; inversion Hd; lia.
Qed.

Lemma hexrun_bound (s : string) :
  forall (prev : bool) (acc n : Z),
    0 <= acc ->
    hexrun s prev acc = Some n ->
    0 <= n < (acc + 1) * 16 ^ Z.of_nat (String.length s).
Proof.
  induction s as [|c s IH]; intros prev acc n Hacc; cbn [hexrun String.length].
  - destruct prev; [|discriminate]. intros H. injection H as <-. cbn. lia.
  - rewrite Nat2Z.inj_succ, Z.pow_succ_r by lia.
    assert (Hpow : 0 < 16 ^ Z.of_nat (String.length s))
      by (apply Z.pow_pos_nonneg; lia).
    destruct (Ascii.eqb c "_").
    + destruct prev; [|discriminate]. intros H.
      specialize (IH false acc n Hacc H). nia.
    + destruct (hexval c) as [d|] eqn:Hd; [|discriminate]. intros H.
      pose proof (hexval_bound c d Hd).
      assert (H16 : 0 <= 16 * acc + d) by lia.
      specialize (IH true (16 * acc + d) n H16 H). nia.
Qed.

Lemma lstrip_length (space : ascii -> bool) (s : string) :
  (String.length (lstrip space s) <= String.length s)%nat.
Proof.
  induction s as [|c s IH]; cbn [lstrip String.length]; [lia|].
  destruct (space c); cbn [String.length]; lia.
Qed.

Lemma rstrip_length (space : ascii -> bool) (s : string) :
  (String.length (rstrip space s) <= String.length s)%nat.
Proof.
  induction s as [|c s IH]; cbn [rstrip String.length]; [lia|].
  destruct (rstrip space s) as [|c' r]; [destruct (space c)|];
    cbn [String.length] in *; lia.
Qed.

Lemma sign_length (t u : string) (neg : bool) :
  sign t = (neg, u) ->
  (String.length u + (if neg then 1 else 0) <= String.length t)%nat.
Proof.
  destruct t as [|a t]; cbn [sign].
  - intros H. injection H as <- <-. cbn. lia.
  - destruct a as [[] [] [] [] [] [] [] []]; intros H; injection H as <- <-;
      cbn [String.length]; lia.
Qed.

Lemma underscore_guard (s : string) (x : option Z) (r : Z) :
  match s with
  | String "_" _ => None
  | _ => x
  end = Some r ->
  x = Some r.
Proof.
  destruct s as [|c s]; [auto|].
  destruct c as [[] [] [] [] [] [] [] []]; auto; discriminate.
Qed.

Lemma prefix_length (u : string) :
  (String.length
     match u with
     | String "0" (String x r) =>
         if Ascii.eqb (lower x) "x"
         then match r with
              | String "_" (String c r') => String c r'
              | _ => r
              end
         else u
     | _ => u
     end
   <= String.length u)%nat.
Proof.
  destruct u as [|a [|x r]]; try (cbn [String.length]; lia).
  - destruct a as [[] [] [] [] [] [] [] []]; cbn [String.length]; lia.
  - destruct a as [[] [] [] [] [] [] [] []]; try (cbn [String.length]; lia).
    destruct (Ascii.eqb (lower x) "x"); [|cbn [String.length]; lia].
    destruct r as [|c0 [|c r']]; try (cbn [String.length]; lia).
    + destruct c0 as [[] [] [] [] [] [] [] []]; cbn [String.length]; lia.
    + destruct c0 as [[] [] [] [] [] [] [] []]; cbn [String.length]; lia.
Qed.

(** [int(s, 16)] of at most two characters lies between -15 and 255. *)
Lemma int16_channel (s : string) (n : Z) :
  (String.length s <= 2)%nat -> int16 s = Some n -> channel n = true.
Proof.
  intros Hlen. unfold int16.
  pose proof (rstrip_length isspace_float (lstrip isspace_float s)) as Hr.
  pose proof (lstrip_length isspace_float s) as Hl.
  destruct (sign (rstrip isspace_float (lstrip isspace_float s)))
    as [neg u] eqn:Hsign.
  apply sign_length in Hsign. pose proof (prefix_length u) as Hp.
  intros H. apply underscore_guard in H.
  destruct (hexrun _ false 0) as [m|] eqn:Hm; [|discriminate].
  injection H as <-.
  apply hexrun_bound in Hm; [|lia].
  revert Hm Hp. generalize (String.length
     match u with
     | String "0" (String x r) =>
         if Ascii.eqb (lower x) "x"
         then match r with
              | String "_" (String c r') => String c r'
              | _ => r
              end
         else u
     | _ => u
     end). intros k Hm Hp. unfold channel.
  assert (Hk : Z.of_nat k <= (if neg then 1 else 2)) by (destruct neg; lia).
  assert (Hpow : 16 ^ Z.of_nat k <= 16 ^ (if neg then 1 else 2))
    by (apply Z.pow_le_mono_r; lia).
  destruct neg; cbn in Hpow; lia.
Qed.

Lemma same_float_eq (x y : float) : same_float x y = true -> x = y.
Proof.
  destruct x as [s| | |s m e], y as [s'| | |s' m' e']; try discriminate; cbn.
  - intros H. apply Bool.eqb_prop in H. now subst.
  - rewrite !andb_true_iff. intros [[Hs Hm] He].
    apply Bool.eqb_prop in Hs. apply Pos.eqb_eq in Hm. apply Z.eqb_eq in He.
    now subst.
Qed.

Lemma returns_eq (r : res Z) (n : Z) : returns r n = true -> r = inr n.
Proof.
  destruct r as [e|m]; [discriminate|]. cbn. intros H.
  apply Z.eqb_eq in H. now subst.
Qed.

Lemma small_floats : holds_from small_float 541 (-270) = true.
Proof. vm_cast_no_check (eq_refl true). Qed.

Lemma int_normals :
  holds_from (fun n => holds_from (int_normal n) 9 44) 271 (-15) = true.
Proof. vm_cast_no_check (eq_refl true). Qed.

Lemma shl_align_fst (m : positive) (e ez : Z) :
  ez <= e ->
  Zpos (fst (shl_align m e ez)) = Zpos m * 2 ^ (e - ez).
Proof.
  intros Hle. unfold shl_align.
  destruct (ez - e) as [|d|d] eqn:Hd; cbn [fst].
  - replace (e - ez) with 0 by lia. lia.
  - lia.
  - replace (e - ez) with (Zpos d) by lia.
    change (Pos.iter xO m d) with (shift_pos d m).
    rewrite shift_pos_correct. change (Z.pow_pos 2 d) with (2 ^ Zpos d). lia.
Qed.

(** The sum of two finite floats is the normal form of the sum of their
    mantissas, brought to the smaller exponent. *)
Lemma fadd_finite (sx sy : bool) (mx my : positive) (ex ey : Z) :
  fadd (S754_finite sx mx ex) (S754_finite sy my ey)
  = binary_normalize prec emax
      (cond_Zopp sx (Zpos mx) * 2 ^ (ex - Z.min ex ey)
       + cond_Zopp sy (Zpos my) * 2 ^ (ey - Z.min ex ey))
      (Z.min ex ey) false.
Proof.
  unfold fadd, SFadd.
  rewrite (shl_align_fst mx ex) by lia. rewrite (shl_align_fst my ey) by lia.
  f_equal. destruct sx, sy; cbn [cond_Zopp]; lia.
Qed.

Lemma scaled (a m e ez : Z) :
  -52 <= e <= -44 -> -52 <= ez <= e -> m = a * 2 ^ (- e) ->
  m * 2 ^ (e - ez) = a * 2 ^ (- ez).
Proof.
  intros He Hez ->. rewrite <- Z.mul_assoc, <- Z.pow_add_r by lia.
  do 2 f_equal. lia.
Qed.

(** [int(float(a) + float(d))] is [a + d] for small [a] and [d]. *)
Lemma sum_exact (a d : Z) (x y : float) :
  -270 <= a <= 270 -> -270 <= d <= 270 -> -15 <= a + d <= 255 ->
  float_of_int a = inr x -> float_of_int d = inr y ->
  int_of_float (fadd x y) = inr (a + d).
Proof.
  intros Ha Hd Hs Hx Hy.
  assert (Hfa : small_float a = true)
    by (apply (holds_from_spec _ _ _ a small_floats); lia).
  assert (Hfd : small_float d = true)
    by (apply (holds_from_spec _ _ _ d small_floats); lia).
  assert (Hfs : small_float (a + d) = true)
    by (apply (holds_from_spec _ _ _ (a + d) small_floats); lia).
  unfold small_float in Hfa, Hfd. rewrite Hx in Hfa. rewrite Hy in Hfd.
  apply andb_true_iff in Hfa as [Hfa Ha3].
  apply andb_true_iff in Hfa as [_ Ha2].
  apply andb_true_iff in Hfd as [Hfd Hd3].
  apply andb_true_iff in Hfd as [_ Hd2].
  apply returns_eq in Ha2, Hd2.
  destruct x as [sx| | |sx mx ex]; try discriminate Ha3;
    destruct y as [sy| | |sy my ey]; try discriminate Hd3.
  - apply andb_true_iff in Ha3 as [Hsx Ha0], Hd3 as [Hsy Hd0].
    apply Z.eqb_eq in Ha0, Hd0. subst a d.
    destruct sx, sy; try discriminate. reflexivity.
  - apply andb_true_iff in Ha3 as [_ Ha0]. apply Z.eqb_eq in Ha0. subst a.
    exact Hd2.
  - apply andb_true_iff in Hd3 as [_ Hd0]. apply Z.eqb_eq in Hd0. subst d.
    rewrite Z.add_0_r. exact Ha2.
  - apply andb_true_iff in Ha3 as [Hea Hma], Hd3 as [Hed Hmd].
    apply andb_true_iff in Hea as [Hea1 Hea2], Hed as [Hed1 Hed2].
    apply Z.leb_le in Hea1, Hea2, Hed1, Hed2. apply Z.eqb_eq in Hma, Hmd.
    rewrite fadd_finite.
    rewrite (scaled a _ ex (Z.min ex ey)) by (try exact Hma; lia).
    rewrite (scaled d _ ey (Z.min ex ey)) by (try exact Hmd; lia).
    rewrite <- Z.mul_add_distr_r.
    assert (Hk : 44 <= - Z.min ex ey < 44 + Z.of_nat 9) by lia.
    assert (Hn : -15 <= a + d < -15 + Z.of_nat 271) by lia.
    pose proof (holds_from_spec _ _ _ (a + d) int_normals Hn) as H.
    cbv beta in H.
    pose proof (holds_from_spec _ _ _ (- Z.min ex ey) H Hk) as H'.
    unfold int_normal in H'. rewrite Z.opp_involutive in H'.
    now apply returns_eq.
Qed.

Lemma substring_length (n m : nat) (s : string) :
  (String.length (substring n m s) <= m)%nat.
Proof.
  revert n m. induction s as [|c s IH]; intros [|n] [|m]; cbn; try lia.
  - specialize (IH 0%nat m). lia.
  - apply IH.
  - apply IH.
Qed.

Lemma h2r_channels (h : string) (r g b : Z) :
  h2r h = inr (r, g, b) ->
  channel r = true /\ channel g = true /\ channel b = true.
Proof.
  unfold h2r.
  destruct (int16 (substring 0 2 _)) as [r'|] eqn:Hr; [|discriminate].
  destruct (int16 (substring 2 2 _)) as [g'|] eqn:Hg; [|discriminate].
  destruct (int16 (substring 4 2 _)) as [b'|] eqn:Hb; [|discriminate].
  intros H. injection H as <- <- <-.
  repeat split; eapply int16_channel; eauto using substring_length.
Qed.

Lemma float_of_int_finite (z : Z) (x : float) :
  float_of_int z = inr x -> isfinite x = true.
Proof.
  unfold float_of_int. destruct (isfinite (round_int z)) eqn:H; [|discriminate].
  intros E. injection E as <-. exact H.
Qed.

Lemma fmul_zero (d : float) :
  isfinite d = true -> exists s, fmul d fzero = S754_zero s.
Proof.
  destruct d as [s| | |s m e]; try discriminate; intros _; eexists; reflexivity.
Qed.

Lemma fadd_zero_r (x : float) (s : bool) :
  isfinite x = true -> int_of_float (fadd x (S754_zero s)) = int_of_float x.
Proof.
  destruct x as [sx| | |sx m e]; try discriminate; intros _.
  - now destruct sx, s.
  - reflexivity.
Qed.

(** Between two channels the blend is the first at [t = 0.0] and the second
    at [t = 1.0]. *)
Lemma blend_ends (a b : Z) :
  channel a = true -> channel b = true ->
  blend a b fzero = inr a /\ blend a b f_1 = inr b.
Proof.
  unfold channel. intros Ha Hb.
  assert (Hfa : small_float a = true)
    by (apply (holds_from_spec _ _ _ a small_floats); lia).
  assert (Hfd : small_float (b - a) = true)
    by (apply (holds_from_spec _ _ _ (b - a) small_floats); lia).
  unfold small_float in Hfa, Hfd.
  destruct (float_of_int a) as [e|x] eqn:Hx; [discriminate|].
  destruct (float_of_int (b - a)) as [e|d] eqn:Hd; [discriminate|].
  apply andb_true_iff in Hfa as [Hfa _].
  apply andb_true_iff in Hfa as [_ Hint]. apply returns_eq in Hint.
  apply andb_true_iff in Hfd as [Hfd _].
  apply andb_true_iff in Hfd as [Hone _]. apply same_float_eq in Hone.
  unfold blend, ebind. rewrite Hd, Hx. split.
  - destruct (fmul_zero d (float_of_int_finite _ _ Hd)) as [s ->].
    rewrite fadd_zero_r by exact (float_of_int_finite _ _ Hx). exact Hint.
  - rewrite Hone.
    assert (Hsum : int_of_float (fadd x d) = inr (a + (b - a)))
      by (apply sum_exact; try assumption; lia).
    replace (a + (b - a)) with b in Hsum by lia. exact Hsum.
Qed.

(** X19.  The ends of a gradient: whatever two colours [h2r] can read,
    [interp_color] gives the first at [t = 0.0] and the second at
    [t = 1.0], each written anew with two lower-case hexadecimal digits a
    channel. *)
Theorem interp_color_ends (c1 c2 : string) (rgb1 rgb2 : Z * Z * Z) :
  h2r c1 = inr rgb1 ->
  h2r c2 = inr rgb2 ->
  interp_color c1 c2 fzero = inr (colour rgb1)
  /\ interp_color c1 c2 f_1 = inr (colour rgb2).
Proof.
  intros H1 H2. destruct rgb1 as [[r1 g1] b1], rgb2 as [[r2 g2] b2].
  destruct (h2r_channels _ _ _ _ H1) as (Hr1 & Hg1 & Hb1).
  destruct (h2r_channels _ _ _ _ H2) as (Hr2 & Hg2 & Hb2).
  destruct (blend_ends r1 r2 Hr1 Hr2) as [Hr0 Hr].
  destruct (blend_ends g1 g2 Hg1 Hg2) as [Hg0 Hg].
  destruct (blend_ends b1 b2 Hb1 Hb2) as [Hb0 Hb].
  unfold interp_color, ebind. rewrite H1, H2.
  rewrite Hr0, Hg0, Hb0, Hr, Hg, Hb. split; reflexivity.
Qed.

Lemma interp_color_ends_witness :
  interp_color "#004D1A" "#9CFF00" fzero = inr "#004d1a"
  /\ interp_color "#004D1A" "#9CFF00" f_1 = inr "#9cff00".
Proof.
  exact (interp_color_ends "#004D1A" "#9CFF00" (0, 77, 26) (156, 255, 0)
           eq_refl eq_refl).
Defined.

Lemma h2r_short (h : string) :
  (String.length (lstrip (Ascii.eqb "#") h) <= 4)%nat ->
  h2r h = inl ValueError.
Proof.
  unfold h2r. generalize (lstrip (Ascii.eqb "#") h). intros s Hlen.
  assert (Hs : substring 4 2 s = EmptyString).
  { destruct s as [|a [|b [|c [|d [|e s]]]]]; try reflexivity.
    cbn [String.length] in Hlen. lia. }
  rewrite Hs.
  destruct (int16 (substring 0 2 s)); [|reflexivity].
  destruct (int16 (substring 2 2 s)); reflexivity.
Qed.

(** X20.  Short colours are refused: when either colour has fewer than
    five characters after its leading [#] signs, as [#fff] has,
    [interp_color] raises [ValueError], whatever [t] is. *)
Theorem interp_color_short (c1 c2 : string) (t : float) :
  (String.length (lstrip (Ascii.eqb "#") c1) <= 4)%nat
  \/ (String.length (lstrip (Ascii.eqb "#") c2) <= 4)%nat ->
  interp_color c1 c2 t = inl ValueError.
Proof.
  intros [H|H]; unfold interp_color, ebind.
  - now rewrite (h2r_short c1 H).
  - rewrite (h2r_short c2 H).
    destruct (h2r c1) as [e|rgb1] eqn:H1; [|reflexivity].
    unfold h2r in H1.
    destruct (int16 (substring 0 2 _)); [|congruence].
    destruct (int16 (substring 2 2 _)); [|congruence].
    destruct (int16 (substring 4 2 _)); congruence.
Qed.

Lemma interp_color_short_witness :
  interp_color "#fff" "#9CFF00" fzero = inl ValueError.
Proof.
  apply interp_color_short. left. cbn. lia.
Defined.

Lemma reads_back_hold : holds_from reads_back 256 0 = true.
Proof. vm_cast_no_check (eq_refl true). Qed.

Lemma format_02x_digits (n : Z) :
  0 <= n <= 255 ->
  exists a b,
    format_02x n = String a (String b EmptyString)
    /\ Ascii.eqb "#" a = false
    /\ int16 (String a (String b EmptyString)) = Some n.
Proof.
  intros Hn.
  assert (H : reads_back n = true)
    by (apply (holds_from_spec _ _ _ n reads_back_hold); lia).
  unfold reads_back in H.
  destruct (format_02x n) as [|a [|b [|c s]]]; try discriminate H.
  apply andb_true_iff in H as [Ha Hb]. exists a, b.
  split; [reflexivity|]. split; [now apply negb_true_iff|].
  destruct (int16 _) as [m|]; [|discriminate Hb].
  apply Z.eqb_eq in Hb. now subst.
Qed.

(** X21.  A colour [interp_color] writes from three channels between 0
    and 255 is one its [h2r] reads back as these channels. *)
Theorem h2r_colour (r g b : Z) :
  0 <= r <= 255 -> 0 <= g <= 255 -> 0 <= b <= 255 ->
  h2r (colour (r, g, b)) = inr (r, g, b).
Proof.
  intros Hr Hg Hb.
  destruct (format_02x_digits r Hr) as (r1 & r2 & Er & Hhash & Ir).
  destruct (format_02x_digits g Hg) as (g1 & g2 & Eg & _ & Ig).
  destruct (format_02x_digits b Hb) as (b1 & b2 & Eb & _ & Ib).
  unfold colour. rewrite Er, Eg, Eb.
  unfold h2r. cbn [append lstrip]. change (Ascii.eqb "#" "#") with true.
  cbn [lstrip]. rewrite Hhash. cbn [substring].
  rewrite Ir, Ig, Ib. reflexivity.
Qed.

Lemma h2r_colour_witness : h2r (colour (156, 255, 0)) = inr (156, 255, 0).
Proof. apply h2r_colour; lia. Defined.

Lemma load_returns_mended (w w' : world) (data : pyval) :
  load_summary_data w = Ret data w' ->
  exists d, data = VDict (mend_document d).
Proof.
  assert (Hdefault : exists d, DEFAULT_SUMMARY = VDict (mend_document d))
    by (exists []; reflexivity).
  destruct w as [prog [[v|]|] bak fs ds ie iv ee ev pg];
    unfold load_summary_data; unfold_io; run.
  - destruct (repair_cases v) as [Hrep|(d & repairs & repaired & -> & Hrep)];
      repeat (next_answer; run); rewrite ?Hrep; run;
      try destruct repaired; run; repeat (next_answer; run);
      intros H; try discriminate H; injection H as <- _;
      first [exact Hdefault | eexists; reflexivity].
  - repeat (next_answer; run);
      intros H; try discriminate H; injection H as <- _; exact Hdefault.
  - repeat (next_answer; run);
      intros H; try discriminate H; injection H as <- _; exact Hdefault.
Qed.

Lemma dict_set_nonempty (d : dict) (k : string) (v : pyval) :
  dict_set d k v <> [].
Proof.
  destruct d as [|[k' v'] d]; cbn [dict_set]; [discriminate|].
  destruct (String.eqb k k'); discriminate.
Qed.

Lemma mend_section_nonempty (expected : list string) (sec : dict) :
  sec <> [] -> mend_section expected sec <> [].
Proof.
  revert sec. induction expected as [|cat expected IH]; intros sec Hsec.
  - exact Hsec.
  - cbn [mend_section fold_left]. apply IH. apply dict_set_nonempty.
Qed.

Lemma mend_nonempty (cat : string) (expected : list string)
  (v : option pyval) :
  mend (cat :: expected) v <> [].
Proof.
  unfold mend. destruct v as [[| | | | | |sec]|]; try discriminate.
  cbn [mend_section fold_left].
  apply (mend_section_nonempty expected). apply dict_set_nonempty.
Qed.

(** The total of a mapping that is not empty is a float. *)
Lemma total_float (d sec : dict) (section : string) (t : pyval) :
  dict_get d section = Some (VDict sec) ->
  sec <> [] ->
  total (VDict d) section = inr t ->
  exists f, t = VFloat f.
Proof.
  intros Hsec Hne. unfold total, py_get, py_values, ebind. rewrite Hsec.
  destruct sec as [|kv sec]; [congruence|]. cbn [map floats]. unfold ebind.
  destruct (py_float (snd kv)) as [e|f]; [discriminate|].
  destruct (floats (map snd sec)) as [e|fs]; [discriminate|].
  intros H. injection H as <-. eexists. reflexivity.
Qed.

Lemma category_labels_lines (rep sec : dict) (data : pyval)
  (section : string) (cats : list string) (rest : frame) :
  dict_get rep section = Some (VDict sec) ->
  (forall cat, entry data section cat = dict_get sec cat) ->
  category_labels (VDict rep) section cats rest
  = ((map (category_line data section) cats ++ fst rest)%list, snd rest).
Proof.
  intros Hsec Hentry. induction cats as [|cat cats IH].
  - now destruct rest.
  - cbn [category_labels map]. rewrite IH.
    unfold py_getitem, py_get_or, ebind, pack. rewrite Hsec.
    unfold category_line. rewrite Hentry.
    destruct (dict_get sec cat); reflexivity.
Qed.

Lemma net_color_float (net : float) :
  net_color (VFloat net) = inr (balance_colour net).
Proof.
  unfold net_color, balance_colour, py_gt0, py_lt0, ebind.
  destruct (SFltb fzero net); [reflexivity|].
  destruct (SFltb net fzero); reflexivity.
Qed.

(** X22.  A report is shown in full: when [calculate_summary] returns a
    report, making the labels of [_populate_summary] raises nothing and the
    frame holds sixteen labels: the two totals and their difference, which
    are floats, the latter coloured by its sign, and under each heading one
    line for every registry category, in the order of the registry, with
    the amount the loaded document holds for it. *)
Theorem summary_page_labels (w w' : world) (rep : pyval) :
  calculate_summary w = Ret rep w' ->
  rep <> VNone ->
  exists data ti te,
    load_summary_data w = Ret data w'
    /\ complete data = true
    /\ total data "income" = inr (VFloat ti)
    /\ total data "expenses" = inr (VFloat te)
    /\ summary_labels rep = (report_labels data ti te, None).
Proof.
  intros Hrun Hrep. unfold calculate_summary in Hrun.
  destruct (load_summary_data w) as [data w1|e w1] eqn:Hload;
    [|unfold bind in Hrun; rewrite Hload in Hrun; discriminate Hrun].
  rewrite (bind_Ret _ _ _ _ _ Hload) in Hrun.
  destruct (load_returns_mended _ _ _ Hload) as [d ->].
  assert (Hinc : dict_get (mend_document d) "income"
                 = Some (VDict (mend INCOME_CATEGORIES (dict_get d "income")))).
  { unfold mend_document. rewrite dict_get_set_other by discriminate.
    apply dict_get_set_same. }
  assert (Hexp : dict_get (mend_document d) "expenses"
                 = Some (VDict (mend EXPENSE_CATEGORIES
                                  (dict_get d "expenses"))))
    by apply dict_get_set_same.
  destruct (total (VDict (mend_document d)) "income") as [e|ti] eqn:Hti;
    [discriminate Hrun|].
  rewrite (bind_lift _ _ _ _ eq_refl) in Hrun.
  destruct (total (VDict (mend_document d)) "expenses") as [e|te] eqn:Hte;
    [discriminate Hrun|].
  rewrite (bind_lift _ _ _ _ eq_refl) in Hrun.
  destruct (total_float _ _ _ _ Hinc (mend_nonempty _ _ _) Hti) as [fi ->].
  destruct (total_float _ _ _ _ Hexp (mend_nonempty _ _ _) Hte) as [fe ->].
  destruct (py_eq0 (VFloat fi) && py_eq0 (VFloat fe)).
  { injection Hrun as <- _. now contradiction Hrep. }
  unfold py_sub, py_get in Hrun. cbn [as_int as_float ebind] in Hrun.
  rewrite Hinc, Hexp in Hrun.
  unfold bind, lift, ret in Hrun. injection Hrun as <- <-.
  exists (VDict (mend_document d)), fi, fe.
  split; [reflexivity|]. split; [apply mend_document_complete|].
  split; [exact Hti|]. split; [exact Hte|].
  match goal with
  | |- summary_labels (VDict ?r) = _ =>
      assert (Hri : dict_get r "income"
                    = Some (VDict (mend INCOME_CATEGORIES
                                     (dict_get d "income"))))
        by reflexivity;
      assert (Hre : dict_get r "expenses"
                    = Some (VDict (mend EXPENSE_CATEGORIES
                                     (dict_get d "expenses"))))
        by reflexivity
  end.
  unfold summary_labels, report_labels.
  cbn [py_getitem dict_get String.eqb Ascii.eqb Bool.eqb ebind pack fst snd].
  rewrite net_color_float. cbn [ebind pack fst snd].
  rewrite (category_labels_lines _ _ (VDict (mend_document d)) _ _ _ Hri)
    by (intros cat; unfold entry; now rewrite Hinc).
  rewrite (category_labels_lines _ _ (VDict (mend_document d)) _ _ _ Hre)
    by (intros cat; unfold entry; now rewrite Hexp).
  cbn [fst snd pack app]. rewrite app_nil_r. reflexivity.
Qed.

Lemma summary_page_labels_witness :
  exists rep w',
    calculate_summary (with_primary (Some (Json (doc_salary f_100))) fresh)
    = Ret rep w'
    /\ summary_labels rep
       = ([("Total Income: $100.00", "white");
           ("Total Expenses: $0.00", "white");
           ("Net Balance: $100.00", "#9CFF00");
           ("Income by Category:", "#9CFF00");
           ("  Salary: $100.00", "white");
           ("  Gift: $0.00", "white");
           ("  Investment: $0.00", "white");
           ("  Other: $0.00", "white");
           ("Expenses by Category:", "#9CFF00");
           ("  Food: $0.00", "white");
           ("  Housing: $0.00", "white");
           ("  Transportation: $0.00", "white");
           ("  Entertainment: $0.00", "white");
           ("  Health: $0.00", "white");
           ("  Education: $0.00", "white");
           ("  Other: $0.00", "white")], None).
Proof.
  destruct (calculate_summary
              (with_primary (Some (Json (doc_salary f_100))) fresh))
    as [rep w'|e w'] eqn:Hrun; [|vm_compute in Hrun; discriminate Hrun].
  exists rep, w'. split; [reflexivity|].
  destruct (summary_page_labels _ _ _ Hrun)
    as (data & ti & te & Hload & _ & Hti & Hte & Hlab).
  { intros ->. vm_compute in Hrun. discriminate Hrun. }
  vm_compute in Hload. injection Hload as <- _.
  vm_compute in Hti, Hte. injection Hti as <-. injection Hte as <-.
  rewrite Hlab. vm_compute. reflexivity.
Defined.

(** X23.  Looking at the summary can write: when there is no file and the
    two calls of the write succeed, [show_page] for the summary page
    creates the file with the default document, shows the dialog "Summary
    File Created" and leaves the summary page with the single label "No
    entries yet.". *)
Theorem show_summary_creates_file (w : world) :
  primary w = None ->
  calm 2 (faults w) = true ->
  exists w' rep,
    show_page "summary" w = Ret tt w'
    /\ calculate_summary (set_page "summary" w) = Ret rep w'
    /\ summary_labels rep = ([("No entries yet.", "white")], None)
    /\ page w' = "summary"
    /\ stored w' = Some DEFAULT_SUMMARY
    /\ dialogs w'
       = (dialogs w
          ++ [Info "Summary File Created"
                ("Created '" ++ SUMMARY_FILENAME w ++ "'.")])%list.
Proof.
  intros Hnone Hcalm.
  destruct w as [prog prim bak fs ds ie iv ee ev pg]. fields. subst prim.
  answers; eexists; eexists; repeat split; reflexivity.
Qed.

Lemma show_summary_creates_file_witness :
  exists w' rep,
    show_page "summary" fresh = Ret tt w'
    /\ calculate_summary (set_page "summary" fresh) = Ret rep w'
    /\ summary_labels rep = ([("No entries yet.", "white")], None)
    /\ page w' = "summary"
    /\ stored w' = Some DEFAULT_SUMMARY
    /\ dialogs w'
       = [Info "Summary File Created" "Created 'pf_tracker_summary.json'."].
Proof.
  exact (show_summary_creates_file fresh eq_refl eq_refl).
Defined.
